(** * Internet asset intelligence platform: scoring, enrichment, trust gateway,
    sink and banner capture

    A shallow embedding of the Python sources

      - [ingest/scoring/risk_scorer.py]
      - [ingest/enrichment/geoip.py], [tls_parser.py], [cve_rules.py]
      - [ingest/main.py] (class [Ingester])
      - [scanner/scanner.py] (class [InternetScanner])

    Events are JSON documents, so the embedding works on a small universe of
    Python values; an operation that Python rejects at run time (a missing
    method, a bad index, a failed parse) yields [Raise] in an error monad.
    Calls into third-party libraries (the regular-expression engine, the
    Ed25519 verifier, the X.509 loader, the GeoIP reader, the ISO-8601 parser)
    and the Unicode upper-casing of the built-in string type are section
    variables; small reference instances are given so that the definitions
    can be run on concrete inputs. *)

From Stdlib Require Import ZArith Lia Bool List Ascii String DecimalString.
From stdpp Require Import base option gmap strings list fin_maps.
Import ListNotations.

Local Open Scope string_scope.
Local Open Scope Z_scope.

(* ===================================================================== *)
(** * Python values and exceptions                                        *)
(* ===================================================================== *)

Module py.

(** The exception classes the modelled code can meet. *)
Inductive exn : Set :=
| TypeError
| AttributeError
| KeyError
| ValueError
| ReError              (* re.error *)
| BinasciiError        (* binascii.Error, raised by base64.b64decode *)
| BadSignatureError    (* nacl.exceptions.BadSignatureError *)
| AddressNotFoundError (* geoip2.errors.AddressNotFoundError *)
| ExtensionNotFound    (* x509.ExtensionNotFound *)
| OSError              (* socket.error, socket.timeout, BlockingIOError *)
| OverflowError        (* raised by re.compile for a repetition count too large *)
| OtherError.          (* any other subclass of Exception *)

Inductive result (A : Type) : Type :=
| Ok (a : A)
| Raise (e : exn).
Arguments Ok {A} a.
Arguments Raise {A} e.

#[global] Instance result_ret : MRet result := fun _ a => Ok a.
#[global] Instance result_bind : MBind result := fun _ _ f m =>
  match m with
  | Ok a => f a
  | Raise e => Raise e
  end.

Definition is_ok {A} (r : result A) : bool :=
  match r with Ok _ => true | Raise _ => false end.

#[global] Instance exn_eq_dec : EqDecision exn.
Proof. solve_decision. Defined.

(** [try: body except cls: handler]: only the exception [cls] is caught. *)
Definition try_except {A} (body : result A) (cls : exn) (handler : result A) : result A :=
  match body with
  | Ok a => Ok a
  | Raise e => if bool_decide (e = cls) then handler else Raise e
  end.

(** JSON-shaped Python values.  A [dict] keeps its insertion order; [lookup]
    returns the first binding of a key.  Floats are not part of the universe:
    none of the modelled code computes with them. *)
#[local] Unset Elimination Schemes.
Inductive value : Type :=
| VNone
| VBool (b : bool)
| VInt (z : Z)
| VStr (s : string)
| VList (l : list value)
| VDict (d : list (string * value)).
#[local] Set Elimination Schemes.

Abbreviation dict := (list (string * value)).

Fixpoint dict_lookup (k : string) (d : dict) : option value :=
  match d with
  | [] => None
  | (k', v) :: rest => if String.eqb k k' then Some v else dict_lookup k rest
  end.

Definition dict_mem (k : string) (d : dict) : bool :=
  match dict_lookup k d with Some _ => true | None => false end.

(** [d[k] = v] on a dict: replaces the binding in place, or appends. *)
Fixpoint dict_set (k : string) (v : value) (d : dict) : dict :=
  match d with
  | [] => [(k, v)]
  | (k', v') :: rest =>
      if String.eqb k k' then (k, v) :: rest else (k', v') :: dict_set k v rest
  end.

(** [del d[k]] *)
Fixpoint dict_remove (k : string) (d : dict) : dict :=
  match d with
  | [] => []
  | (k', v') :: rest =>
      if String.eqb k k' then dict_remove k rest else (k', v') :: dict_remove k rest
  end.

(** ** Strings *)

Definition ascii_lower (c : ascii) : ascii :=
  let n := N_of_ascii c in
  if ((65 <=? n) && (n <=? 90))%N then ascii_of_N (n + 32) else c.

Definition ascii_upper (c : ascii) : ascii :=
  let n := N_of_ascii c in
  if ((97 <=? n) && (n <=? 122))%N then ascii_of_N (n - 32) else c.

Fixpoint str_map (f : ascii -> ascii) (s : string) : string :=
  match s with
  | EmptyString => EmptyString
  | String c rest => String (f c) (str_map f rest)
  end.

(** Case mapping of the ASCII letters, every other character left as it is:
    what [str.lower] and [str.upper] do on ASCII text.  On other text
    [str.upper] can bring in ASCII letters (it maps the dotless i U+0131 to
    [I] and the long s U+017F to [S]), so the code that compares an
    upper-cased text takes [str.upper] as a parameter and [upper] is its
    reference instance.  [str.lower] brings in an ASCII letter for U+0130
    (an [i] followed by a combining dot) and U+212A (a [k]) only, which
    does not change whether one of the lower-case words the code looks for
    ([nginx], [apache], [openssh], [mysql], [postgresql], [redis],
    [mongodb], [elasticsearch]) occurs in the result: none holds a [k] or
    ends in [i]. *)
Definition lower : string -> string := str_map ascii_lower.
Definition upper : string -> string := str_map ascii_upper.

(** [s.startswith(p)] *)
Fixpoint startswith (s p : string) {struct p} : bool :=
  match p with
  | EmptyString => true
  | String a p' =>
      match s with
      | EmptyString => false
      | String b s' => Ascii.eqb a b && startswith s' p'
      end
  end.

(** [needle in hay] on two strings. *)
Fixpoint str_contains (needle hay : string) : bool :=
  startswith hay needle ||
  match hay with
  | EmptyString => false
  | String _ rest => str_contains needle rest
  end.

Fixpoint str_chars (s : string) : list string :=
  match s with
  | EmptyString => []
  | String c rest => String c EmptyString :: str_chars rest
  end.

(** ** Operators and methods, with the exceptions Python raises *)

(** [v == k] for a string [k]. *)
Definition eq_str (v : value) (k : string) : bool :=
  match v with VStr s => String.eqb s k | _ => false end.

(** [v == n] for an int [n]; [True == 1] and [False == 0]. *)
Definition eq_int (v : value) (n : Z) : bool :=
  match v with
  | VInt z => z =? n
  | VBool b => (if b then 1 else 0) =? n
  | _ => false
  end.

(** [v in [n1, n2, ...]] for a list of int literals. *)
Definition in_ints (v : value) (ns : list Z) : bool := existsb (eq_int v) ns.

(** [v in [s1, s2, ...]] for a list of str literals. *)
Definition in_strs (v : value) (ss : list string) : bool := existsb (eq_str v) ss.

(** [k in c] for a string [k]. *)
Definition contains (k : string) (c : value) : result bool :=
  match c with
  | VDict d => Ok (dict_mem k d)
  | VStr s => Ok (str_contains k s)
  | VList l => Ok (existsb (fun v => eq_str v k) l)
  | VNone | VBool _ | VInt _ => Raise TypeError
  end.

(** [c[k]] for a string [k]. *)
Definition getitem (c : value) (k : string) : result value :=
  match c with
  | VDict d => match dict_lookup k d with Some v => Ok v | None => Raise KeyError end
  | _ => Raise TypeError
  end.

(** [c.get(k, default)]: only dicts have a [get] method. *)
Definition get (c : value) (k : string) (default : value) : result value :=
  match c with
  | VDict d => Ok (match dict_lookup k d with Some v => v | None => default end)
  | _ => Raise AttributeError
  end.

(** [v.lower()]: only strings have the method. *)
Definition lower_m (v : value) : result string :=
  match v with VStr s => Ok (lower s) | _ => Raise AttributeError end.

(** Truth value of [v] in an [if]. *)
Definition truthy (v : value) : bool :=
  match v with
  | VNone => false
  | VBool b => b
  | VInt z => negb (z =? 0)
  | VStr s => negb (String.eqb s "")
  | VList l => match l with [] => false | _ => true end
  | VDict d => match d with [] => false | _ => true end
  end.

(** The items visited by [for x in v]. *)
Definition iterate (v : value) : result (list value) :=
  match v with
  | VList l => Ok l
  | VDict d => Ok (map (fun kv => VStr (fst kv)) d)
  | VStr s => Ok (map VStr (str_chars s))
  | VNone | VBool _ | VInt _ => Raise TypeError
  end.

End py.
Import py.

(* ===================================================================== *)
(** * datetime                                                            *)
(* ===================================================================== *)

Module datetime.

(** A [datetime.datetime]: wall-clock fields and, for an aware value, the UTC
    offset in seconds. *)
Record t : Set := mk {
  year : Z; month : Z; day : Z;
  hour : Z; minute : Z; second : Z; microsecond : Z;
  utcoffset : option Z
}.

(** Days since 1970-01-01 of a proleptic Gregorian date. *)
Definition days_from_civil (y m d : Z) : Z :=
  let y' := if m <=? 2 then y - 1 else y in
  let era := y' / 400 in
  let yoe := y' - era * 400 in
  let mp := (m + 9) mod 12 in
  let doy := (153 * mp + 2) / 5 + d - 1 in
  let doe := yoe * 365 + yoe / 4 - yoe / 100 + doy in
  era * 146097 + doe - 719468.

(** Microseconds since the epoch of the wall-clock fields. *)
Definition wall_micros (a : t) : Z :=
  (((days_from_civil (year a) (month a) (day a) * 24 + hour a) * 60
    + minute a) * 60 + second a) * 1000000 + microsecond a.

(** [a < b]: two aware values compare by instant, two naive ones by their
    fields, and a naive with an aware one is a [TypeError]. *)
Definition lt (a b : t) : result bool :=
  match utcoffset a, utcoffset b with
  | Some oa, Some ob =>
      Ok (wall_micros a - oa * 1000000 <? wall_micros b - ob * 1000000)
  | None, None => Ok (wall_micros a <? wall_micros b)
  | _, _ => Raise TypeError
  end.

(** [n] written with exactly [w] decimal digits, as [%0wd] does for
    [0 <= n < 10^w]. *)
Fixpoint zpad (w : nat) (n : Z) : string :=
  match w with
  | O => EmptyString
  | S w' => zpad w' (n / 10) +:+ String (ascii_of_N (48 + Z.to_N (n mod 10))) EmptyString
  end.

(** The [+HH:MM] (or [+HH:MM:SS]) suffix of an aware value. *)
Definition offset_suffix (o : option Z) : string :=
  match o with
  | None => ""
  | Some off =>
      let a := Z.abs off in
      (if off <? 0 then "-" else "+") +:+ zpad 2 (a / 3600) +:+ ":" +:+ zpad 2 (a / 60 mod 60)
      +:+ (if a mod 60 =? 0 then "" else ":" +:+ zpad 2 (a mod 60))
  end.

(** [a.isoformat()] *)
Definition isoformat (a : t) : string :=
  zpad 4 (year a) +:+ "-" +:+ zpad 2 (month a) +:+ "-" +:+ zpad 2 (day a) +:+ "T"
  +:+ zpad 2 (hour a) +:+ ":" +:+ zpad 2 (minute a) +:+ ":" +:+ zpad 2 (second a)
  +:+ (if microsecond a =? 0 then "" else "." +:+ zpad 6 (microsecond a))
  +:+ offset_suffix (utcoffset a).

(** [a.strftime("%Y-%m")] *)
Definition strftime_Y_m (a : t) : string := zpad 4 (year a) +:+ "-" +:+ zpad 2 (month a).

(** ** A reference instance of [datetime.fromisoformat]

    It reads the shape [isoformat] writes for whole seconds,
    [YYYY-MM-DDTHH:MM:SS] with an optional [+HH:MM] or [-HH:MM], and checks
    the field ranges; on that shape it agrees with Python.  The other
    ISO-8601 shapes Python accepts are outside this instance. *)

Definition digit (c : ascii) : option Z :=
  let n := N_of_ascii c in
  if ((48 <=? n) && (n <=? 57))%N then Some (Z.of_N n - 48) else None.

Fixpoint number (cs : list ascii) (acc : Z) : option Z :=
  match cs with
  | [] => Some acc
  | c :: rest => match digit c with Some d => number rest (acc * 10 + d) | None => None end
  end.

Definition is_leap (y : Z) : bool :=
  (y mod 4 =? 0) && (negb (y mod 100 =? 0) || (y mod 400 =? 0)).

Definition days_in_month (y m : Z) : Z :=
  if m =? 2 then (if is_leap y then 29 else 28)
  else if (m =? 4) || (m =? 6) || (m =? 9) || (m =? 11) then 30 else 31.

Definition in_range (lo x hi : Z) : bool := (lo <=? x) && (x <=? hi).

Definition parse_offset (cs : list ascii) : option (option Z) :=
  match cs with
  | [] => Some None
  | [sg; h1; h2; ":"%char; m1; m2] =>
      match number [h1; h2] 0, number [m1; m2] 0 with
      | Some h, Some m =>
          if in_range 0 h 23 && in_range 0 m 59 then
            if Ascii.eqb sg "+" then Some (Some (h * 3600 + m * 60))
            else if Ascii.eqb sg "-" then Some (Some (- (h * 3600 + m * 60)))
            else None
          else None
      | _, _ => None
      end
  | _ => None
  end.

Definition fromisoformat_ref (s : string) : option t :=
  match list_ascii_of_string s with
  | y1 :: y2 :: y3 :: y4 :: "-"%char :: mo1 :: mo2 :: "-"%char :: d1 :: d2 :: "T"%char
    :: h1 :: h2 :: ":"%char :: mi1 :: mi2 :: ":"%char :: s1 :: s2 :: tz =>
      match number [y1; y2; y3; y4] 0, number [mo1; mo2] 0, number [d1; d2] 0,
            number [h1; h2] 0, number [mi1; mi2] 0, number [s1; s2] 0, parse_offset tz with
      | Some y, Some mo, Some d, Some h, Some mi, Some sc, Some off =>
          if in_range 1 y 9999 && in_range 1 mo 12 && in_range 1 d (days_in_month y mo)
             && in_range 0 h 23 && in_range 0 mi 59 && in_range 0 sc 59
          then Some (mk y mo d h mi sc 0 off)
          else None
      | _, _, _, _, _, _, _ => None
      end
  | _ => None
  end.

End datetime.

(* ===================================================================== *)
(** * ingest/scoring/risk_scorer.py                                       *)
(* ===================================================================== *)

Module risk_scorer.

(** The [breakdown] dict of [get_risk_breakdown]: its six keys are fixed by
    the literal that creates it, so it is a record here. *)
Record breakdown : Set := mk_breakdown {
  port_score : Z;
  service_score : Z;
  vuln_score : Z;
  cert_score : Z;
  exposure_score : Z;
  freshness_score : Z
}.

(** [breakdown.items()], in insertion order. *)
Definition items (b : breakdown) : list (string * Z) :=
  [ ("port_score", port_score b);
    ("service_score", service_score b);
    ("vuln_score", vuln_score b);
    ("cert_score", cert_score b);
    ("exposure_score", exposure_score b);
    ("freshness_score", freshness_score b) ].

(** [breakdown.values()] *)
Definition values (b : breakdown) : list Z := map snd (items b).

Section scoring.

(** [str.upper], over all of Unicode. *)
Variable str_upper : string -> string.

(** [datetime.fromisoformat]; [None] stands for its [ValueError]. *)
Variable fromisoformat : string -> option datetime.t.

(** [datetime.now(timezone.utc)] at the moment of the call. *)
Variable now : datetime.t.

(** Lines 33-37: the port block.  [event.get("target", {}).get("port")]. *)
Definition port_block (event : dict) : result Z :=
  target ← get (VDict event) "target" (VDict []);
  target_port ← get target "port" VNone;
  let s := 0 in
  let s := if in_ints target_port [21; 22; 23; 80; 443; 3389] then s + 5 else s in
  let s := if in_ints target_port [23] then s + 10 else s in
  Ok s.

(** Lines 40-50: the service block. *)
Definition service_block (event : dict) : result Z :=
  let s := 0 in
  if dict_mem "probes" event then
    probes ← getitem (VDict event) "probes";
    has_http ← contains "http" probes;
    s ← (if has_http : bool then
           http ← getitem probes "http";
           http_headers ← get http "headers" (VDict []);
           server ← get http_headers "Server" (VStr "");
           server_header ← lower_m server;
           if str_contains "nginx" server_header || str_contains "apache" server_header
           then Ok (s + 2) else Ok s
         else Ok s);
    has_ssh ← contains "ssh_banner" probes;
    if has_ssh : bool then
      ssh ← getitem probes "ssh_banner";
      banner ← get ssh "Banner" (VStr "");
      ssh_banner ← lower_m banner;
      if negb (str_contains "openssh" ssh_banner) then Ok (s + 5) else Ok s
    else Ok s
  else Ok s.

(** Lines 55-63: the weight one CVE match adds. *)
Definition severity_weight (severity : string) : Z :=
  if String.eqb severity "CRITICAL" then 30
  else if String.eqb severity "HIGH" then 20
  else if String.eqb severity "MEDIUM" then 10
  else if String.eqb severity "LOW" then 5
  else 0.

(** [v.upper()]: only strings have the method. *)
Definition upper_m (v : value) : result string :=
  match v with VStr s => Ok (str_upper s) | _ => Raise AttributeError end.

(** Lines 54-63: the loop over [cve_matches]. *)
Fixpoint vuln_loop (cves : list value) (s : Z) : result Z :=
  match cves with
  | [] => Ok s
  | cve :: rest =>
      sev ← get cve "severity" (VStr "UNKNOWN");
      severity ← upper_m sev;
      vuln_loop rest (s + severity_weight severity)
  end.

(** Lines 53-63: the vulnerability block. *)
Definition vuln_block (event : dict) : result Z :=
  if dict_mem "enrichment" event then
    enrichment ← getitem (VDict event) "enrichment";
    has ← contains "cve_matches" enrichment;
    if has : bool then
      matches ← getitem enrichment "cve_matches";
      cves ← iterate matches;
      vuln_loop cves 0
    else Ok 0
  else Ok 0.

(** [datetime.fromisoformat(v)]: a [TypeError] unless [v] is a string. *)
Definition fromisoformat_v (v : value) : result datetime.t :=
  match v with
  | VStr s => match fromisoformat s with Some d => Ok d | None => Raise ValueError end
  | _ => Raise TypeError
  end.

(** Lines 66-73: the certificate block. *)
Definition cert_block (event : dict) : result Z :=
  if dict_mem "enrichment" event then
    enrichment ← getitem (VDict event) "enrichment";
    has ← contains "tls_cert" enrichment;
    if has : bool then
      tls_cert ← getitem enrichment "tls_cert";
      self_signed ← get tls_cert "self_signed" VNone;
      let s := if truthy self_signed then 10 else 0 in
      valid_to ← get tls_cert "valid_to" VNone;
      if truthy valid_to then
        raw ← getitem tls_cert "valid_to";
        valid_to_dt ← fromisoformat_v raw;
        expired ← datetime.lt valid_to_dt now;
        if expired : bool then Ok (s + 15) else Ok s
      else Ok s
    else Ok 0
  else Ok 0.

(** Lines 76-79: the exposure block. *)
Definition exposure_block (event : dict) : result Z :=
  if dict_mem "enrichment" event then
    enrichment ← getitem (VDict event) "enrichment";
    has ← contains "geoip" enrichment;
    if has : bool then
      geoip ← getitem enrichment "geoip";
      country ← get geoip "country_name" VNone;
      if negb (in_strs country ["PRIVATE"; "LOCALHOST"; "UNKNOWN"]) then Ok 5 else Ok 0
    else Ok 0
  else Ok 0.

(** [get_risk_breakdown]: every block adds to its own key only, so each one
    is written as the value it leaves under that key; the blocks run in the
    order of the source and the first exception ends the call. *)
Definition get_risk_breakdown (event : dict) : result breakdown :=
  port ← port_block event;
  service ← service_block event;
  vuln ← vuln_block event;
  cert ← cert_block event;
  exposure ← exposure_block event;
  Ok {| port_score := port; service_score := service; vuln_score := vuln;
        cert_score := cert; exposure_score := exposure; freshness_score := 0 |}.

(** [calculate_risk] *)
Definition calculate_risk (event : dict) : result Z :=
  let score := 0 in
  breakdown ← get_risk_breakdown event;
  let score := fold_left (fun score cs => score + snd cs) (items breakdown) score in
  Ok (Z.min 100 (Z.max 0 score)).

End scoring.

(** The specification's [clamp(x, lo, hi)] and [sum]. *)
Definition clamp (x lo hi : Z) : Z :=
  if x <? lo then lo else if hi <? x then hi else x.

Definition sum (l : list Z) : Z := fold_right Z.add 0 l.

End risk_scorer.


(* ===================================================================== *)
(** * ingest/enrichment/geoip.py                                          *)
(* ===================================================================== *)

Module geoip.

(** What [reader.city(ip)] answers: the fields [enrich_ip] reads. *)
Record city_response : Type := mk_city {
  country_name : value;   (* response.country.name *)
  city_name : value;      (* response.city.name *)
  latitude : value;       (* response.location.latitude *)
  longitude : value       (* response.location.longitude *)
}.

(** A [geoip2.database.Reader]: its [city] method. *)
Definition reader : Type := string -> result city_response.

Definition PRIVATE : dict :=
  [("country_name", VStr "PRIVATE"); ("city_name", VStr "PRIVATE"); ("location", VNone)].

Definition UNKNOWN : dict :=
  [("country_name", VStr "UNKNOWN"); ("city_name", VStr "UNKNOWN"); ("location", VNone)].

Definition ERROR : dict :=
  [("country_name", VStr "ERROR"); ("city_name", VStr "ERROR"); ("location", VNone)].

(** [enrich_ip(reader, ip_address)].  The second component lists the
    addresses handed to [reader.city] during the call, in order. *)
Definition enrich_ip (rd : option reader) (ip_address : string) : dict * list string :=
  if startswith ip_address "127." || startswith ip_address "10." ||
     startswith ip_address "172.16." || startswith ip_address "192.168."
  then (PRIVATE, [])
  else
    match rd with
    | None => (UNKNOWN, [])
    | Some city =>
        match city ip_address with
        | Ok response =>
            ([("country_name", country_name response);
              ("city_name", city_name response);
              ("location", VDict [("lat", latitude response); ("lon", longitude response)])],
             [ip_address])
        | Raise AddressNotFoundError => (UNKNOWN, [ip_address])
        | Raise _ => (ERROR, [ip_address])
        end
    end.

(** ** Dotted-quad addresses and the reserved ranges

    The ranges as [scanner.py] lists them in [PRIVATE_RANGES]; used to state
    which addresses are loopback or RFC 1918 private. *)

Definition ipv4 : Set := (Z * Z * Z * Z)%type.

Definition dec (n : Z) : string := NilZero.string_of_uint (N.to_uint (Z.to_N n)).

(** [str(ipaddress.IPv4Address(...))] *)
Definition ipv4_str (a : ipv4) : string :=
  let '(a1, a2, a3, a4) := a in
  dec a1 +:+ "." +:+ dec a2 +:+ "." +:+ dec a3 +:+ "." +:+ dec a4.

Definition valid_ipv4 (a : ipv4) : bool :=
  let '(a1, a2, a3, a4) := a in
  datetime.in_range 0 a1 255 && datetime.in_range 0 a2 255 &&
  datetime.in_range 0 a3 255 && datetime.in_range 0 a4 255.

(** 127.0.0.0/8 *)
Definition is_loopback (a : ipv4) : bool := let '(a1, _, _, _) := a in a1 =? 127.

(** 10.0.0.0/8, 172.16.0.0/12, 192.168.0.0/16 *)
Definition is_rfc1918 (a : ipv4) : bool :=
  let '(a1, a2, _, _) := a in
  (a1 =? 10) || ((a1 =? 172) && datetime.in_range 16 a2 31) || ((a1 =? 192) && (a2 =? 168)).

End geoip.

(* ===================================================================== *)
(** * ingest/enrichment/tls_parser.py                                     *)
(* ===================================================================== *)

Module tls_parser.

(** An [x509.Name]: its attributes in order, each an OID with a value. *)
Definition name : Set := list (string * string).

Definition name_eqb (a b : name) : bool :=
  bool_decide (a = b).

Definition OID_COMMON_NAME : string := "2.5.4.3".

Inductive general_name : Set :=
| DNSName (v : string)
| IPAddress (v : string)     (* [str(name.value)] of the address *)
| OtherGeneralName.

Inductive public_key : Set :=
| RSAPublicKey (key_size : Z)
| EllipticCurvePublicKey (curve_key_size : Z)
| OtherPublicKey.

(** A loaded [x509.Certificate], as [parse_certificate] queries it.  The
    library parses the parts of a certificate when they are asked for, so
    every query can raise on a certificate that loaded: [cert.extensions]
    on a malformed or duplicate extension, [cert.public_key()] on a key of an
    unsupported type.  [subject_alt_name] is
    [cert.extensions.get_extension_for_class(x509.SubjectAlternativeName).value],
    which raises [ExtensionNotFound] on a certificate without that
    extension. *)
Record certificate : Set := mk_cert {
  subject : result name;
  issuer : result name;
  subject_alt_name : result (list general_name);
  cert_public_key : result public_key;
  not_valid_before_utc : result datetime.t;
  not_valid_after_utc : result datetime.t
}.

Section parse.

(** [base64.b64decode] *)
Variable b64decode : string -> result (list Byte.byte).
(** [x509.load_der_x509_certificate] *)
Variable load_der_x509_certificate : list Byte.byte -> result certificate.
(** [str(e)] of a caught exception *)
Variable str_of_exn : exn -> string.

(** [n.get_attributes_for_oid(oid)[0].value if n.get_attributes_for_oid(oid) else None] *)
Definition first_attribute (n : name) (oid : string) : value :=
  match List.filter (fun a => String.eqb (fst a) oid) n with
  | [] => VNone
  | a :: _ => VStr (snd a)
  end.

(** Lines 17-26: the subject alternative names kept. *)
Fixpoint collect_sans (names : list general_name) : list value :=
  match names with
  | [] => []
  | DNSName v :: rest => VStr v :: collect_sans rest
  | IPAddress v :: rest => VStr v :: collect_sans rest
  | OtherGeneralName :: rest => collect_sans rest
  end.

(** [parse_certificate(cert_der_b64)]; the whole body sits in
    [try: ... except Exception], which answers with an error marker, whatever
    query of the certificate raised.  [except x509.ExtensionNotFound: pass]
    catches that exception of the extension query alone. *)
Definition parse_certificate (cert_der_b64 : string) : dict :=
  let body : result dict :=
    cert_der ← b64decode cert_der_b64;
    cert ← load_der_x509_certificate cert_der;
    subject_name ← subject cert;
    let subject_cn := first_attribute subject_name OID_COMMON_NAME in
    issuer_name ← issuer cert;
    let issuer_cn := first_attribute issuer_name OID_COMMON_NAME in
    sans ← try_except (alt_names ← subject_alt_name cert; Ok (collect_sans alt_names))
              ExtensionNotFound (Ok []);
    public_key ← cert_public_key cert;
    let '(key_algo, key_size) :=
      match public_key with
      | RSAPublicKey n => ("RSA", n)
      | EllipticCurvePublicKey n => ("ECDSA", n)
      | OtherPublicKey => ("Unknown", 0)
      end in
    issuer_name' ← issuer cert;
    subject_name' ← subject cert;
    let self_signed := name_eqb issuer_name' subject_name' in
    valid_from ← not_valid_before_utc cert;
    valid_to ← not_valid_after_utc cert;
    Ok [ ("subject_cn", subject_cn);
         ("subject_sans", VList sans);
         ("issuer_cn", issuer_cn);
         ("valid_from", VStr (datetime.isoformat valid_from));
         ("valid_to", VStr (datetime.isoformat valid_to));
         ("key_algo", VStr key_algo);
         ("key_size", VInt key_size);
         ("self_signed", VBool self_signed);
         ("cert_der_b64", VStr cert_der_b64) ] in
  match body with
  | Ok d => d
  | Raise e => [("error", VStr (str_of_exn e))]
  end.

End parse.

(** The queries [parse_certificate] makes of a loaded certificate, in the
    order it makes them, and the exception of the first one that raises;
    [ExtensionNotFound] of the extension query is caught. *)
Definition read_failure (cert : certificate) : option exn :=
  let failure {A} (r : result A) : option exn :=
    match r with Ok _ => None | Raise e => Some e end in
  match failure (subject cert), failure (issuer cert) with
  | Some e, _ => Some e
  | None, Some e => Some e
  | None, None =>
      match subject_alt_name cert with
      | Raise e =>
          if bool_decide (e = ExtensionNotFound) then
            match failure (cert_public_key cert), failure (not_valid_before_utc cert),
                  failure (not_valid_after_utc cert) with
            | Some e', _, _ => Some e'
            | None, Some e', _ => Some e'
            | None, None, o => o
            end
          else Some e
      | Ok _ =>
          match failure (cert_public_key cert), failure (not_valid_before_utc cert),
                failure (not_valid_after_utc cert) with
          | Some e', _, _ => Some e'
          | None, Some e', _ => Some e'
          | None, None, o => o
          end
      end
  end.

End tls_parser.

(* ===================================================================== *)
(** * ingest/enrichment/cve_rules.py                                      *)
(* ===================================================================== *)

Module cve_rules.

Section matching.

(** The regular-expression engine.  [re_compile p] is what
    [re.compile(p, re.IGNORECASE)] does with the pattern text [p]: it returns
    a pattern object ([Ok]), raises [re.error] on a malformed pattern
    ([Raise ReError]), or raises something else: [OverflowError] on a
    repetition count of 4294967295 or more, [RecursionError] on a nesting
    too deep, [ValueError] on a flag that does not go with a text pattern.
    [re_matches p s] says whether a compiled [p] is found in [s]. *)
Variable re_compile : string -> result unit.
Variable re_matches : string -> string -> bool.

(** [re.search(pattern, text, re.IGNORECASE)], as a truth value.  The pattern
    is compiled first ([TypeError] unless it is a string, then whatever the
    compiler raises), then run on [text] ([TypeError] unless a string). *)
Definition re_search (pattern text : value) : result bool :=
  match pattern with
  | VStr p =>
      _ ← re_compile p;
      match text with
      | VStr s => Ok (re_matches p s)
      | _ => Raise TypeError
      end
  | _ => Raise TypeError
  end.

(** The dict appended for a match. *)
Definition match_entry (rule : value) (matched_on : string) (matched_value : value)
  : result value :=
  cve_id ← get rule "cve_id" (VStr "UNKNOWN");
  severity ← get rule "severity" (VStr "UNKNOWN");
  description ← get rule "description" (VStr "No description provided.");
  Ok (VDict [ ("cve_id", cve_id);
              ("severity", severity);
              ("description", description);
              ("matched_on", VStr matched_on);
              ("matched_value", matched_value) ]).

(** One turn of [for rule in cve_rules]: the body for the regex key [key].
    The handler catches [re.error] and nothing else, so any other exception
    of the turn leaves the loop and [match_cves].  The handler only logs; it
    sees a rule that has already been indexed by [key], so its [rule.get]
    cannot fail. *)
Definition rule_step (key matched_on : string) (text rule : value)
    (matched_cves : list value) : result (list value) :=
  has ← contains key rule;
  if has : bool then
    try_except
      (pattern ← getitem rule key;
       found ← re_search pattern text;
       if found : bool then
         entry ← match_entry rule matched_on text;
         Ok (matched_cves ++ [entry])%list
       else Ok matched_cves)
      ReError
      (Ok matched_cves)
  else Ok matched_cves.

Fixpoint rule_loop (key matched_on : string) (text : value) (rules : list value)
    (matched_cves : list value) : result (list value) :=
  match rules with
  | [] => Ok matched_cves
  | rule :: rest =>
      matched_cves ← rule_step key matched_on text rule matched_cves;
      rule_loop key matched_on text rest matched_cves
  end.

(** Lines 36-50: the HTTP [Server] header pass. *)
Definition http_pass (cve_rules : list value) (probes : value)
    (matched_cves : list value) : result (list value) :=
  has_http ← contains "http" probes;
  if has_http : bool then
    http ← getitem probes "http";
    has_headers ← contains "headers" http;
    if has_headers : bool then
      headers ← get http "headers" (VDict []);
      server_header ← get headers "Server" (VStr "");
      if truthy server_header then
        rule_loop "server_regex" "http_server_header" server_header cve_rules matched_cves
      else Ok matched_cves
    else Ok matched_cves
  else Ok matched_cves.

(** Lines 53-68: the SSH banner pass. *)
Definition ssh_pass (cve_rules : list value) (probes : value)
    (matched_cves : list value) : result (list value) :=
  has_ssh ← contains "ssh_banner" probes;
  if has_ssh : bool then
    ssh ← getitem probes "ssh_banner";
    has_banner ← contains "Banner" ssh;
    if has_banner : bool then
      ssh_banner ← get ssh "Banner" (VStr "");
      if truthy ssh_banner then
        rule_loop "ssh_banner_regex" "ssh_banner" ssh_banner cve_rules matched_cves
      else Ok matched_cves
    else Ok matched_cves
  else Ok matched_cves.

(** [match_cves(cve_rules, probes)] *)
Definition match_cves (cve_rules : list value) (probes : value) : result (list value) :=
  let matched_cves := [] in
  matched_cves ← http_pass cve_rules probes matched_cves;
  matched_cves ← ssh_pass cve_rules probes matched_cves;
  Ok matched_cves.

End matching.

(** ** A reference instance of the regular-expression engine

    A pattern of this instance is a sequence of literal characters, [.] (any
    character but a newline) and [\c] for a punctuation character [c]; it is
    searched for anywhere in the text, ignoring ASCII case.  A pattern that
    ends in a lone backslash or holds an operator character does not compile
    here: Python agrees for the lone backslash, an unclosed bracket or
    parenthesis and a leading star or plus or question mark; the other uses of
    operators are outside this instance, but for one: where the first
    operator is a repetition [{n}] with [n] at least 4294967295, the instance
    raises [OverflowError], as Python's parser does on reading the count. *)

Inductive atom : Set :=
| Lit (c : ascii)
| AnyChar.

Definition is_operator (c : ascii) : bool :=
  existsb (Ascii.eqb c)
    ["["; "]"; "("; ")"; "*"; "+"; "?"; "{"; "}"; "|"; "^"; "$"]%char.

Definition is_alnum (c : ascii) : bool :=
  let n := N_of_ascii c in
  (((48 <=? n) && (n <=? 57)) || ((65 <=? n) && (n <=? 90)) || ((97 <=? n) && (n <=? 122)))%N.

Fixpoint parse_atoms (cs : list ascii) : option (list atom) :=
  match cs with
  | [] => Some []
  | "\"%char :: rest =>
      match rest with
      | [] => None
      | c :: rest' =>
          if is_alnum c then None
          else match parse_atoms rest' with Some l => Some (Lit c :: l) | None => None end
      end
  | c :: rest =>
      if is_operator c then None
      else
        match parse_atoms rest with
        | Some l => Some ((if Ascii.eqb c "." then AnyChar else Lit c) :: l)
        | None => None
        end
  end.

Definition atom_accepts (a : atom) (c : ascii) : bool :=
  match a with
  | Lit x => Ascii.eqb (ascii_lower x) (ascii_lower c)
  | AnyChar => negb (Ascii.eqb c "010")
  end.

Fixpoint atoms_prefix (l : list atom) (cs : list ascii) : bool :=
  match l, cs with
  | [], _ => true
  | _ :: _, [] => false
  | a :: l', c :: cs' => atom_accepts a c && atoms_prefix l' cs'
  end.

Fixpoint atoms_search (l : list atom) (cs : list ascii) : bool :=
  atoms_prefix l cs ||
  match cs with
  | [] => false
  | _ :: cs' => atoms_search l cs'
  end.

(** Where [parse_atoms] stops: the text from the first character it does
    not take. *)
Fixpoint stops_at (cs : list ascii) : list ascii :=
  match cs with
  | [] => []
  | "\"%char :: rest =>
      match rest with
      | [] => cs
      | c :: rest' => if is_alnum c then cs else stops_at rest'
      end
  | c :: rest => if is_operator c then cs else stops_at rest
  end.

(** The count of a repetition [{n}] at the head of the text. *)
Fixpoint repeat_count (cs : list ascii) (acc : option Z) : option Z :=
  match cs with
  | [] => None
  | c :: rest =>
      match datetime.digit c with
      | Some d => repeat_count rest (Some (match acc with Some n => 10 * n + d | None => d end))
      | None => if Ascii.eqb c "}" then acc else None
      end
  end.

Definition MAXREPEAT : Z := 4294967295.

Definition repetition_overflows (cs : list ascii) : bool :=
  match stops_at cs with
  | "{"%char :: rest =>
      match repeat_count rest None with
      | Some n => MAXREPEAT <=? n
      | None => false
      end
  | _ => false
  end.

Definition re_compile_ref (p : string) : result unit :=
  let cs := list_ascii_of_string p in
  match parse_atoms cs with
  | Some _ => Ok tt
  | None => if repetition_overflows cs then Raise OverflowError else Raise ReError
  end.

Definition re_matches_ref (p s : string) : bool :=
  match parse_atoms (list_ascii_of_string p) with
  | Some l => atoms_search l (list_ascii_of_string s)
  | None => false
  end.

End cve_rules.


(* ===================================================================== *)
(** * base64.b64decode                                                    *)
(* ===================================================================== *)

Module base64.

Abbreviation bytes := (list Byte.byte).

Definition byte_of_Z (z : Z) : Byte.byte := byte_of_ascii (ascii_of_N (Z.to_N (z mod 256))).
Definition Z_of_byte (b : Byte.byte) : Z := Z.of_N (Byte.to_N b).

(** The value of a character of the base64 alphabet. *)
Definition table_a2b (c : ascii) : option Z :=
  let n := Z.of_N (N_of_ascii c) in
  if datetime.in_range 65 n 90 then Some (n - 65)
  else if datetime.in_range 97 n 122 then Some (n - 97 + 26)
  else if datetime.in_range 48 n 57 then Some (n - 48 + 52)
  else if n =? 43 then Some 62
  else if n =? 47 then Some 63
  else None.

(** The loop of CPython's [binascii.a2b_base64] outside strict mode: a
    character outside the alphabet is skipped, a pad that completes a quad
    ends the input, and a quad left open at the end is an error. *)
Fixpoint a2b_loop (cs : list ascii) (quad_pos leftchar pads : Z) (bin_data : list Z)
  : result (list Z) :=
  match cs with
  | [] => if quad_pos =? 0 then Ok bin_data else Raise BinasciiError
  | this_ch :: rest =>
      if Ascii.eqb this_ch "=" then
        if 2 <=? quad_pos then
          let pads := pads + 1 in
          if 4 <=? quad_pos + pads then Ok bin_data
          else a2b_loop rest quad_pos leftchar pads bin_data
        else a2b_loop rest quad_pos leftchar pads bin_data
      else
        match table_a2b this_ch with
        | None => a2b_loop rest quad_pos leftchar pads bin_data
        | Some v =>
            let pads := 0 in
            if quad_pos =? 0 then a2b_loop rest 1 v pads bin_data
            else if quad_pos =? 1 then
              a2b_loop rest 2 (Z.land v 15) pads
                (bin_data ++ [Z.lor (Z.shiftl leftchar 2) (Z.shiftr v 4)])%list
            else if quad_pos =? 2 then
              a2b_loop rest 3 (Z.land v 3) pads
                (bin_data ++ [Z.lor (Z.shiftl leftchar 4) (Z.shiftr v 2)])%list
            else
              a2b_loop rest 0 0 pads (bin_data ++ [Z.lor (Z.shiftl leftchar 6) v])%list
        end
  end.

(** [base64.b64decode(s)] for a [str]: the text must be ASCII
    ([ValueError] otherwise), then [a2b_base64] runs on it. *)
Definition b64decode (s : string) : result bytes :=
  let cs := list_ascii_of_string s in
  if forallb (fun c => (N_of_ascii c <? 128)%N) cs then
    bin_data ← a2b_loop cs 0 0 0 [];
    Ok (map byte_of_Z bin_data)
  else Raise ValueError.

(** The character of the base64 alphabet for a value below 64. *)
Definition table_b2a (v : Z) : ascii :=
  ascii_of_N (Z.to_N (if v <? 26 then v + 65
                      else if v <? 52 then v - 26 + 97
                      else if v <? 62 then v - 52 + 48
                      else if v =? 62 then 43 else 47)).

(** The output of [binascii.b2a_base64] without the newline: four characters
    for three bytes, the last group padded with [=]. *)
Fixpoint b2a (bs : list Z) : list ascii :=
  match bs with
  | [] => []
  | [b0] =>
      [table_b2a (Z.shiftr b0 2); table_b2a (Z.shiftl (Z.land b0 3) 4); "="; "="]%char
  | [b0; b1] =>
      [table_b2a (Z.shiftr b0 2);
       table_b2a (Z.lor (Z.shiftl (Z.land b0 3) 4) (Z.shiftr b1 4));
       table_b2a (Z.shiftl (Z.land b1 15) 2); "="%char]
  | b0 :: b1 :: b2 :: rest =>
      table_b2a (Z.shiftr b0 2)
      :: table_b2a (Z.lor (Z.shiftl (Z.land b0 3) 4) (Z.shiftr b1 4))
      :: table_b2a (Z.lor (Z.shiftl (Z.land b1 15) 2) (Z.shiftr b2 6))
      :: table_b2a (Z.land b2 63)
      :: b2a rest
  end.

(** [base64.b64encode(b).decode('utf-8')] *)
Definition b64encode (b : bytes) : string :=
  string_of_list_ascii (b2a (map Z_of_byte b)).

End base64.

(* ===================================================================== *)
(** * bytes.decode('utf-8', errors=...) and str                           *)
(* ===================================================================== *)

Module unicode.

(** A Python [str]: its code points. *)
Abbreviation str := (list Z).

Definition is_continuation (b : Z) : bool := datetime.in_range 128 b 191.

(** The low six bits of a continuation byte. *)
Definition low6 (b : Z) : Z := Z.land b 63.

(** CPython's UTF-8 decoder with an error handler that answers every
    undecodable run with the text [on_error] and resumes after the run:
    [on_error = []] is ['ignore'], [on_error = [0xFFFD]] is ['replace'].
    A run is an invalid start byte alone, or a lead byte with the
    continuation bytes accepted so far; a sequence cut off by the end of the
    input is one run. *)
Fixpoint utf8_decode (on_error : str) (bs : list Z) : str :=
  match bs with
  | [] => []
  | b0 :: rest =>
      if b0 <? 128 then b0 :: utf8_decode on_error rest
      else if b0 <? 194 then on_error ++ utf8_decode on_error rest
      else if b0 <? 224 then
        match rest with
        | [] => on_error
        | b1 :: rest1 =>
            if is_continuation b1
            then (Z.shiftl (Z.land b0 31) 6 + low6 b1) :: utf8_decode on_error rest1
            else on_error ++ utf8_decode on_error rest
        end
      else if b0 <? 240 then
        match rest with
        | [] => on_error
        | b1 :: rest1 =>
            if negb (is_continuation b1)
               || (if b1 <? 160 then b0 =? 224 else b0 =? 237)
            then on_error ++ utf8_decode on_error rest
            else
              match rest1 with
              | [] => on_error
              | b2 :: rest2 =>
                  if is_continuation b2
                  then (Z.shiftl (Z.land b0 15) 12 + Z.shiftl (low6 b1) 6 + low6 b2)
                       :: utf8_decode on_error rest2
                  else on_error ++ utf8_decode on_error rest1
              end
        end
      else if b0 <? 245 then
        match rest with
        | [] => on_error
        | b1 :: rest1 =>
            if negb (is_continuation b1)
               || (if b1 <? 144 then b0 =? 240 else b0 =? 244)
            then on_error ++ utf8_decode on_error rest
            else
              match rest1 with
              | [] => on_error
              | b2 :: rest2 =>
                  if is_continuation b2 then
                    match rest2 with
                    | [] => on_error
                    | b3 :: rest3 =>
                        if is_continuation b3
                        then (Z.shiftl (Z.land b0 7) 18 + Z.shiftl (low6 b1) 12
                              + Z.shiftl (low6 b2) 6 + low6 b3)
                             :: utf8_decode on_error rest3
                        else on_error ++ utf8_decode on_error rest2
                    end
                  else on_error ++ utf8_decode on_error rest1
              end
        end
      else on_error ++ utf8_decode on_error rest
  end.

(** [b.decode('utf-8', errors='ignore')] *)
Definition decode_ignore (b : base64.bytes) : str :=
  utf8_decode [] (map base64.Z_of_byte b).

(** [b.decode('utf-8', errors='replace')] *)
Definition decode_replace (b : base64.bytes) : str :=
  utf8_decode [65533] (map base64.Z_of_byte b).

(** [c.isspace()] for one code point. *)
Definition isspace (c : Z) : bool :=
  datetime.in_range 9 c 13 || datetime.in_range 28 c 32 || (c =? 133) || (c =? 160)
  || (c =? 5760) || datetime.in_range 8192 c 8202 || (c =? 8232) || (c =? 8233)
  || (c =? 8239) || (c =? 8287) || (c =? 12288).

Fixpoint lstrip (s : str) : str :=
  match s with
  | [] => []
  | c :: rest => if isspace c then lstrip rest else s
  end.

Definition rstrip (s : str) : str := rev (lstrip (rev s)).

(** [s.strip()] *)
Definition strip (s : str) : str := rstrip (lstrip s).

(** [s[:n]] for [n >= 0] *)
Definition slice_to (n : nat) (s : str) : str := firstn n s.

End unicode.

(* ===================================================================== *)
(** * json.dumps(..., sort_keys=True)                                     *)
(* ===================================================================== *)

Module json.

(** A [str] is held as its UTF-8 text.  [code_points] reads the code points
    back; text that is not UTF-8 stands for no [str] and is read with the
    replacement character. *)
Definition code_points (s : string) : list Z :=
  unicode.utf8_decode [65533]
    (map (fun c => Z.of_N (N_of_ascii c)) (list_ascii_of_string s)).

Definition hex_digit (n : Z) : ascii :=
  ascii_of_N (Z.to_N (if n <? 10 then 48 + n else 87 + n)).

(** ['{0:04x}'.format(n)] for [n] below 65536 *)
Definition hex4 (n : Z) : string :=
  String (hex_digit (n / 4096 mod 16))
    (String (hex_digit (n / 256 mod 16))
       (String (hex_digit (n / 16 mod 16))
          (String (hex_digit (n mod 16)) EmptyString))).

(** One code point inside a string literal, as [ensure_ascii] writes it:
    the short escapes, [\uXXXX] for every other code point outside the
    printable ASCII range (DEL included), a surrogate pair above the basic
    plane. *)
Definition escape_char (cp : Z) : string :=
  let one (x : ascii) := String "\"%char (String x EmptyString) in
  let u (n : Z) := "\u" +:+ hex4 n in
  if cp =? 34 then one "034"%char
  else if cp =? 92 then one "\"%char
  else if cp =? 10 then one "n"%char
  else if cp =? 13 then one "r"%char
  else if cp =? 9 then one "t"%char
  else if cp =? 8 then one "b"%char
  else if cp =? 12 then one "f"%char
  else if (cp <? 32) || (126 <? cp) then
    if cp <? 65536 then u cp
    else
      let v := cp - 65536 in
      u (Z.lor 55296 (Z.land (Z.shiftr v 10) 1023)) +:+ u (Z.lor 56320 (Z.land v 1023))
  else String (ascii_of_N (Z.to_N cp)) EmptyString.

Definition escape (s : string) : string :=
  String.concat "" (map escape_char (code_points s)).

Definition quote : string := String "034" EmptyString.

Definition str_literal (s : string) : string := quote +:+ escape s +:+ quote.

Definition int_literal (z : Z) : string :=
  (if z <? 0 then "-" else "") +:+ NilZero.string_of_uint (N.to_uint (Z.to_N (Z.abs z))).

(** Stable insertion by key, for [sort_keys=True]. *)
Fixpoint insert_by_key (kv : string * string) (l : list (string * string))
  : list (string * string) :=
  match l with
  | [] => [kv]
  | kv' :: rest =>
      if String.ltb (fst kv) (fst kv') then kv :: l else kv' :: insert_by_key kv rest
  end.

Definition sort_by_key (l : list (string * string)) : list (string * string) :=
  fold_left (fun sorted kv => insert_by_key kv sorted) l [].

(** [json.dumps(v, sort_keys=True)] *)
Fixpoint dumps (v : value) : string :=
  match v with
  | VNone => "null"
  | VBool b => if b then "true" else "false"
  | VInt z => int_literal z
  | VStr s => str_literal s
  | VList l => "[" +:+ String.concat ", " (map dumps l) +:+ "]"
  | VDict d =>
      let members := map (fun kv => (fst kv, dumps (snd kv))) d in
      "{" +:+ String.concat ", "
                (map (fun kv => str_literal (fst kv) +:+ ": " +:+ snd kv) (sort_by_key members))
      +:+ "}"
  end.

(** [json.dumps(doc, sort_keys=True).encode('utf-8')] *)
Definition canonical (doc : dict) : base64.bytes :=
  map byte_of_ascii (list_ascii_of_string (dumps (VDict doc))).

End json.

(* ===================================================================== *)
(** * ingest/main.py: class Ingester                                      *)
(* ===================================================================== *)

Module ingest.

Import base64.

(** The fields of [Config] the modelled methods read. *)
Record Config : Set := mk_config {
  opensearch_index_prefix : string;
  archive_path : string
}.

(** ** Trust gateway *)

Section trust_gateway.

(** [nacl.signing.VerifyKey] *)
Variable VerifyKey : Type.
(** [base64.b64decode] *)
Variable b64decode : string -> result bytes.
(** [verify_key.verify(message, signature)]: the message when the signature
    is good, an exception otherwise. *)
Variable verify : VerifyKey -> bytes -> bytes -> result bytes.

(** [_verify_signature(event_data, signature_b64, collector_id)];
    [public_keys] is the registry [self.public_keys].  The decoding of the
    signature stands before the [try]. *)
Definition _verify_signature (public_keys : gmap string VerifyKey)
    (event_data : bytes) (signature_b64 : string) (collector_id : string) : result bool :=
  match public_keys !! collector_id with
  | None => Ok false
  | Some verify_key =>
      signature ← b64decode signature_b64;
      match verify verify_key event_data signature with
      | Ok _ => Ok true
      | Raise BadSignatureError => Ok false     (* except BadSignatureError *)
      | Raise _ => Ok false                     (* except Exception *)
      end
  end.

End trust_gateway.

(** ** Sink *)

(** [_get_index_mapping()] *)
Definition _get_index_mapping : value :=
  let ty (t : string) := VDict [("type", VStr t)] in
  VDict
    [ ("settings",
       VDict [("index", VDict [("number_of_shards", VInt 1); ("number_of_replicas", VInt 0)])]);
      ("mappings",
       VDict [("properties",
         VDict [ ("id", ty "keyword");
                 ("timestamp", ty "date");
                 ("scanner_version", ty "keyword");
                 ("collector_id", ty "keyword");
                 ("target",
                  VDict [("properties",
                    VDict [("ip", ty "ip"); ("port", ty "integer"); ("protocol", ty "keyword")])]);
                 ("enrichment",
                  VDict [("properties",
                    VDict [ ("geoip",
                             VDict [("properties",
                               VDict [ ("country_name", ty "keyword");
                                       ("city_name", ty "keyword");
                                       ("location", ty "geo_point") ])]);
                            ("tls_cert", ty "object");
                            ("cve_matches", ty "nested") ])]);
                 ("risk_score", ty "integer");
                 ("risk_breakdown", ty "object") ])]) ].

(** The search service as the client sees it: the indices that exist, with
    their mappings, and the documents, keyed by index name and document id. *)
Record opensearch : Type := mk_os {
  indices : gmap string value;
  documents : gmap (string * string) dict
}.

(** Which request of a call the service fails to answer, if any. *)
Inductive fault : Set :=
| NoFault
| FailExists
| FailCreate
| FailIndex.

(** The archive directory: file contents by path. *)
Abbreviation files := (gmap string bytes).

(** [os.path.join(a, b)] on POSIX. *)
Definition path_join (a b : string) : string :=
  if startswith b "/" then b
  else if String.eqb a "" || String.eqb (String.substring (String.length a - 1) 1 a) "/"
       then a +:+ b
       else a +:+ "/" +:+ b.

Section sink.

(** How the client writes a document id into the request path. *)
Variable render_id : value -> string.
(** The id the service gives a document that is sent without one. *)
Variable auto_id : gmap (string * string) dict -> string.
(** Whether [open(path, "wb")] succeeds. *)
Variable writable : string -> bool.
(** [json.dumps(doc, sort_keys=True).encode('utf-8')] *)
Variable canonical_json : dict -> bytes.

(** [client.indices.exists(index=...)] *)
Definition indices_exists (f : fault) (os : opensearch) (index : string) : result bool :=
  match f with
  | FailExists => Raise OtherError
  | _ => Ok (bool_decide (is_Some (indices os !! index)))
  end.

(** [client.indices.create(index=..., body=...)] *)
Definition indices_create (f : fault) (os : opensearch) (index : string) (body : value)
  : result opensearch :=
  match f with
  | FailCreate => Raise OtherError
  | _ =>
      match indices os !! index with
      | Some _ => Raise OtherError
      | None => Ok (mk_os (<[index := body]> (indices os)) (documents os))
      end
  end.

(** [client.index(index=..., id=..., body=..., refresh=True)]: stores [body]
    under the id, replacing what was there; with [id=None] the service picks
    the id; a missing index is created with an empty mapping. *)
Definition index_doc (f : fault) (os : opensearch) (index : string) (id : value) (body : dict)
  : result opensearch :=
  match f with
  | FailIndex => Raise OtherError
  | _ =>
      Ok (mk_os (match indices os !! index with
                 | Some _ => indices os
                 | None => <[index := VDict []]> (indices os)
                 end)
                (<[(index, match id with
                           | VNone => auto_id (documents os)
                           | _ => render_id id
                           end) := body]> (documents os)))
  end.

(** The index a document written at [now] goes to. *)
Definition index_name (cfg : Config) (now : datetime.t) : string :=
  opensearch_index_prefix cfg +:+ datetime.strftime_Y_m now.

(** [_write_to_opensearch(doc)].  The body is a [try] whose handler logs
    and returns, so what the service took before a failure stays. *)
Definition _write_to_opensearch (cfg : Config) (now : datetime.t) (f : fault)
    (doc : dict) (os : opensearch) : opensearch :=
  let index_name := index_name cfg now in
  match indices_exists f os index_name with
  | Raise _ => os
  | Ok present =>
      match (if negb present then indices_create f os index_name _get_index_mapping
             else Ok os) with
      | Raise _ => os
      | Ok os1 =>
          match getitem (VDict doc) "id" with
          | Raise _ => os1
          | Ok id =>
              match index_doc f os1 index_name id doc with
              | Raise _ => os1
              | Ok os2 => os2
              end
          end
      end
  end.

(** [_archive_canonical_json(event_id, canonical_json)] *)
Definition _archive_canonical_json (cfg : Config) (event_id : string) (content : bytes)
    (fs : files) : result files :=
  let file_path := path_join (archive_path cfg) (event_id +:+ ".json") in
  if writable file_path then Ok (<[file_path := content]> fs)
  else Raise OSError.

(** The two sink calls that end [process_event_file]; an exception of the
    archive write reaches the handler of that method, which logs it. *)
Definition sink_write (cfg : Config) (now : datetime.t) (f : fault)
    (event_id : string) (final_doc : dict) (w : opensearch * files) : opensearch * files :=
  let os' := _write_to_opensearch cfg now f final_doc (fst w) in
  match _archive_canonical_json cfg event_id (canonical_json final_doc) (snd w) with
  | Ok fs' => (os', fs')
  | Raise _ => (os', snd w)
  end.

End sink.

(** The file that archives the event [event_id]. *)
Definition archive_file (cfg : Config) (event_id : string) : string :=
  path_join (archive_path cfg) (event_id +:+ ".json").

(** ** Reference instances: the defaults of [Config], the id as the client
    writes it for strings, ints and booleans, a directory open for writing. *)

Definition default_config : Config :=
  {| opensearch_index_prefix := "asset-intelligence-"; archive_path := "./archive" |}.

Definition render_id_ref (id : value) : string :=
  match id with
  | VStr s => s
  | VInt z => json.int_literal z
  | VBool b => if b then "true" else "false"
  | _ => ""
  end.

Definition empty_world : opensearch * files := (mk_os ∅ ∅, ∅).

End ingest.


(* ===================================================================== *)
(** * scanner/scanner.py: class InternetScanner                           *)
(* ===================================================================== *)

Module scanner.

Import base64.

(** A connected socket, as far as [grab_banner] uses it. *)
Record socket : Type := mk_socket {
  setblocking : bool -> result unit;
  send : bytes -> result Z;
  recv : Z -> result bytes
}.

(** [self.stats], without the start time. *)
Record stats : Set := mk_stats {
  scanned : Z;
  open_ports : Z;
  services_detected : Z
}.

(** [b'GET / HTTP/1.0\r\n\r\n'] *)
Definition http_probe : bytes :=
  map byte_of_ascii (list_ascii_of_string "GET / HTTP/1.0")
  ++ [Byte.x0d; Byte.x0a; Byte.x0d; Byte.x0a].

(** The exceptions of [except (socket.timeout, socket.error, BlockingIOError,
    OSError)]: all of them are [OSError]. *)
Definition caught (e : exn) : bool := bool_decide (e = OSError).

(** [grab_banner(sock, port)], with [self.stats] passed through.  The waiting
    ([asyncio.sleep]) has no counterpart here. *)
Definition grab_banner (st : stats) (sock : socket) (port : Z)
  : result (option unicode.str * stats) :=
  let body : result (option unicode.str * stats) :=
    _ ← setblocking sock false;
    _ ← (if (port =? 80) || (port =? 8080) then send sock http_probe
         else if port =? 22 then Ok 0
         else if port =? 21 then Ok 0
         else if port =? 25 then Ok 0
         else Ok 0);
    banner ← recv sock 1024;
    match banner with
    | _ :: _ =>
        let st' := mk_stats (scanned st) (open_ports st) (services_detected st + 1) in
        Ok (Some (unicode.slice_to 500 (unicode.strip (unicode.decode_ignore banner))), st')
    | [] => Ok (None, st)
    end in
  match body with
  | Ok r => Ok r
  | Raise e => if caught e then Ok (None, st) else Raise e
  end.

(** A sample socket: every call succeeds and [recv] delivers [data]. *)
Definition socket_delivering (data : bytes) : socket :=
  {| setblocking := fun _ => Ok tt;
     send := fun payload => Ok (Z.of_nat (length payload));
     recv := fun _ => Ok data |}.

Definition fresh_stats : stats := mk_stats 0 0 0.

(** ** The service classifier and the event builder *)

(** [port_services] of [detect_service]. *)
Definition port_services : list (Z * string) :=
  [ (21, "ftp"); (22, "ssh"); (23, "telnet"); (25, "smtp"); (80, "http");
    (110, "pop3"); (143, "imap"); (443, "https"); (445, "smb"); (3306, "mysql");
    (3389, "rdp"); (5432, "postgresql"); (5900, "vnc"); (6379, "redis");
    (8080, "http-proxy"); (8443, "https-alt"); (27017, "mongodb");
    (9200, "elasticsearch"); (9300, "elasticsearch") ].

Fixpoint lookup_port (port : Z) (table : list (Z * string)) : option string :=
  match table with
  | [] => None
  | (p, name) :: rest => if port =? p then Some name else lookup_port port rest
  end.

(** [port_services.get(port, f'unknown-{port}')]: [True] and [False] are
    looked up as 1 and 0, a list or a dict cannot be looked up. *)
Definition port_default (port : value) : result string :=
  match port with
  | VInt p =>
      Ok (match lookup_port p port_services with
          | Some name => name
          | None => "unknown-" +:+ json.int_literal p
          end)
  | VBool b => Ok ("unknown-" +:+ (if b then "True" else "False"))
  | VNone => Ok "unknown-None"
  | VStr s => Ok ("unknown-" +:+ s)
  | VList _ | VDict _ => Raise TypeError
  end.

(** The chain of [if]/[elif] over the lower-cased banner. *)
Definition refine_by_banner (banner_lower service : string) : string :=
  if str_contains "apache" banner_lower then "apache-httpd"
  else if str_contains "nginx" banner_lower then "nginx"
  else if str_contains "openssh" banner_lower then "openssh"
  else if str_contains "mysql" banner_lower then "mysql"
  else if str_contains "postgresql" banner_lower then "postgresql"
  else if str_contains "redis" banner_lower then "redis"
  else if str_contains "mongodb" banner_lower then "mongodb"
  else if str_contains "elasticsearch" banner_lower then "elasticsearch"
  else service.

(** [detect_service(port, banner)] *)
Definition detect_service (port banner : value) : result string :=
  service ← port_default port;
  if truthy banner then
    banner_lower ← lower_m banner;
    Ok (refine_by_banner banner_lower service)
  else Ok service.

(** [create_asset_event(scan_result)] *)
Definition create_asset_event (scan_result : value) : result dict :=
  timestamp ← getitem scan_result "timestamp";
  ip ← getitem scan_result "ip";
  port ← getitem scan_result "port";
  port' ← getitem scan_result "port";
  banner ← get scan_result "banner" VNone;
  service ← detect_service port' banner;
  banner' ← get scan_result "banner" (VStr "");
  first_seen ← getitem scan_result "timestamp";
  last_seen ← getitem scan_result "timestamp";
  Ok [ ("event_type", VStr "asset_discovered");
       ("timestamp", timestamp);
       ("collector_id", VStr "internet_scanner_001");
       ("asset",
        VDict [ ("ip_address", ip);
                ("ports",
                 VList [ VDict [ ("port", port); ("protocol", VStr "tcp");
                                 ("state", VStr "open"); ("service", VStr service);
                                 ("banner", banner') ] ]);
                ("first_seen", first_seen);
                ("last_seen", last_seen) ]);
       ("metadata",
        VDict [ ("scanner_version", VStr "1.0.0"); ("scan_type", VStr "internet_wide") ]) ].

(** The document [save_event] builds from an event. *)
Definition save_event_doc (event : value) : result dict :=
  timestamp ← getitem event "timestamp";
  asset ← getitem event "asset"; ip_address ← getitem asset "ip_address";
  asset ← getitem event "asset"; ports ← getitem asset "ports";
  asset ← getitem event "asset"; first_seen ← getitem asset "first_seen";
  asset ← getitem event "asset"; last_seen ← getitem asset "last_seen";
  collector_id ← getitem event "collector_id";
  event_type ← getitem event "event_type";
  metadata ← get event "metadata" (VDict []);
  Ok [ ("timestamp", timestamp); ("ip_address", ip_address); ("ports", ports);
       ("first_seen", first_seen); ("last_seen", last_seen);
       ("scanner_id", collector_id); ("event_type", event_type);
       ("metadata", metadata) ].

(** [datetime.utcnow().strftime('%Y.%m.%d')] *)
Definition strftime_Y_m_d (a : datetime.t) : string :=
  datetime.zpad 4 (datetime.year a) +:+ "." +:+ datetime.zpad 2 (datetime.month a)
  +:+ "." +:+ datetime.zpad 2 (datetime.day a).

(** [save_event(event)]: the document is posted to [<index>/_doc], without
    an id, so the service stores it under an id of its own; [posted] says
    whether the request is answered with 200 or 201.  Every exception is
    logged and dropped. *)
Definition save_event (auto_id : gmap (string * string) dict -> string)
    (now : datetime.t) (posted : bool) (event : value) (os : ingest.opensearch)
  : ingest.opensearch :=
  let index_name := "assets-" +:+ strftime_Y_m_d now in
  match save_event_doc event with
  | Raise _ => os
  | Ok doc =>
      if posted then
        match ingest.index_doc (fun _ => "") auto_id ingest.NoFault os index_name VNone doc with
        | Ok os' => os'
        | Raise _ => os
        end
      else os
  end.

(** ** The target generator *)

(** An [ipaddress.IPv4Address] or [IPv6Address]: the address as a number. *)
Inductive ip_obj : Set :=
| IPv4Address (n : Z)
| IPv6Address (n : Z).

(** [s.split('.')] *)
Fixpoint split_dots (s : string) (cur : string) : list string :=
  match s with
  | EmptyString => [cur]
  | String c rest =>
      if Ascii.eqb c "." then cur :: split_dots rest EmptyString
      else split_dots rest (cur +:+ String c EmptyString)
  end.

(** One octet of a dotted quad: one to three decimal digits, no leading
    zero before another digit, at most 255. *)
Definition parse_octet (s : string) : option Z :=
  let cs := list_ascii_of_string s in
  match cs with
  | [] => None
  | c :: rest =>
      if (3 <? length cs)%nat then None
      else if Ascii.eqb c "0" && negb (Nat.eqb (length rest) 0) then None
      else
        match datetime.number cs 0 with
        | Some n => if n <=? 255 then Some n else None
        | None => None
        end
  end.

(** [IPv4Address(s)] as a number, [None] for the [AddressValueError]. *)
Definition parse_ipv4 (s : string) : option Z :=
  match split_dots s EmptyString with
  | [o1; o2; o3; o4] =>
      match parse_octet o1, parse_octet o2, parse_octet o3, parse_octet o4 with
      | Some a, Some b, Some c, Some d => Some (((a * 256 + b) * 256 + c) * 256 + d)
      | _, _, _, _ => None
      end
  | _ => None
  end.

(** [ipaddress.ip_address(s)]: IPv4 first, then IPv6; [None] for the
    [ValueError].  The IPv6 parser is a parameter. *)
Definition ip_address (parse_ipv6 : string -> option Z) (s : string) : option ip_obj :=
  match parse_ipv4 s with
  | Some n => Some (IPv4Address n)
  | None =>
      match parse_ipv6 s with
      | Some n => Some (IPv6Address n)
      | None => None
      end
  end.

(** An [ipaddress.IPv4Network]: network address and prefix length. *)
Definition PRIVATE_RANGES : list (Z * Z) :=
  [ (10 * 2 ^ 24, 8);                      (* 10.0.0.0/8 *)
    (172 * 2 ^ 24 + 16 * 2 ^ 16, 12);      (* 172.16.0.0/12 *)
    (192 * 2 ^ 24 + 168 * 2 ^ 16, 16);     (* 192.168.0.0/16 *)
    (127 * 2 ^ 24, 8);                     (* 127.0.0.0/8 *)
    (169 * 2 ^ 24 + 254 * 2 ^ 16, 16) ].   (* 169.254.0.0/16 *)

Definition netmask (prefixlen : Z) : Z := 2 ^ 32 - 2 ^ (32 - prefixlen).

(** [ip_obj in network] for an IPv4 network: an address of the other
    version is never in it. *)
Definition in_network (ip : ip_obj) (network : Z * Z) : bool :=
  match ip with
  | IPv4Address n => Z.land n (netmask (snd network)) =? fst network
  | IPv6Address _ => false
  end.

(** [is_private_ip(ip)] *)
Definition is_private_ip (parse_ipv6 : string -> option Z) (ip : string) : bool :=
  match ip_address parse_ipv6 ip with
  | Some ip_obj => existsb (in_network ip_obj) PRIVATE_RANGES
  | None => true
  end.

(** [socket.inet_ntoa(struct.pack('>I', n))] *)
Definition inet_ntoa (n : Z) : string :=
  geoip.ipv4_str (n / 2 ^ 24 mod 256, n / 2 ^ 16 mod 256, n / 2 ^ 8 mod 256, n mod 256).

(** [generate_random_ip()]: [draws] are the numbers [random.randint] gives,
    in order; [None] when they run out before a public address comes up. *)
Fixpoint generate_random_ip (parse_ipv6 : string -> option Z) (draws : list Z)
  : option string :=
  match draws with
  | [] => None
  | n :: rest =>
      let ip := inet_ntoa n in
      if negb (is_private_ip parse_ipv6 ip) then Some ip
      else generate_random_ip parse_ipv6 rest
  end.

End scanner.


(* ===================================================================== *)
(** * ingest: the loaders                                                 *)
(* ===================================================================== *)

Module loaders.

Import base64.

(** [len(v)] *)
Definition len (v : value) : result Z :=
  match v with
  | VStr s => Ok (Z.of_nat (String.length s))
  | VList l => Ok (Z.of_nat (length l))
  | VDict d => Ok (Z.of_nat (length d))
  | VNone | VBool _ | VInt _ => Raise TypeError
  end.

(** [cve_rules.load_cve_rules(rules_path)]; [file] is what opening the file
    and [yaml.safe_load] give.  The logging line takes [len(rules)] inside
    the [try]. *)
Definition load_cve_rules (file : result value) : value :=
  match (rules ← file; _ ← len rules; Ok rules) with
  | Ok rules => rules
  | Raise _ => VList []
  end.

(** [geoip.load_geoip_db(db_path)]; [opened] is what
    [geoip2.database.Reader(db_path)] gives. *)
Definition load_geoip_db (opened : result geoip.reader) : option geoip.reader :=
  match opened with
  | Ok reader => Some reader
  | Raise _ => None
  end.

Section public_keys.

(** [nacl.signing.VerifyKey] and its constructor from raw bytes. *)
Variable VerifyKey : Type.
Variable make_key : bytes -> result VerifyKey.
(** [base64.b64decode] *)
Variable b64decode : string -> result bytes.

(** [VerifyKey(base64.b64decode(pk))] *)
Definition key_of (pk : value) : result VerifyKey :=
  raw ← (match pk with VStr s => b64decode s | _ => Raise TypeError end);
  make_key raw.

(** The dict comprehension over [keys_data.items()]. *)
Fixpoint keys_of_items (items : dict) (acc : gmap string VerifyKey)
  : result (gmap string VerifyKey) :=
  match items with
  | [] => Ok acc
  | (cid, pk) :: rest =>
      key ← key_of pk;
      keys_of_items rest (<[cid := key]> acc)
  end.

(** [Ingester._load_public_keys()]; [file] is what opening the file and
    [json.load] give. *)
Definition _load_public_keys (file : result value) : gmap string VerifyKey :=
  match (keys_data ← file;
         match keys_data with
         | VDict d => keys_of_items d ∅
         | _ => Raise AttributeError
         end) with
  | Ok keys => keys
  | Raise _ => ∅
  end.

End public_keys.

End loaders.

(* ===================================================================== *)
(** * ingest/main.py: enrichment, scoring and the processing of one object *)
(* ===================================================================== *)

Module ingester.

Import base64 ingest.

(** [s.endswith(suffix)] *)
Definition endswith (s suffix : string) : bool :=
  let n := String.length s in
  let m := String.length suffix in
  (m <=? n)%nat && String.eqb (String.substring (n - m) m s) suffix.

(** [breakdown] as the dict it is. *)
Definition breakdown_value (b : risk_scorer.breakdown) : value :=
  VDict (map (fun kz => (fst kz, VInt (snd kz))) (risk_scorer.items b)).

Section pipeline.

Variable geoip_reader : option geoip.reader.
Variable b64decode_cert : string -> result bytes.
Variable load_der_x509_certificate : bytes -> result tls_parser.certificate.
Variable str_of_exn : exn -> string.
Variable re_compile : string -> result unit.
Variable re_matches : string -> string -> bool.
Variable cve_engine : list value.
(** [str.upper] *)
Variable str_upper : string -> string.
Variable fromisoformat : string -> option datetime.t.

(** [geoip.enrich_ip(reader, ip)] on a value: a non-string has no
    [startswith]. *)
Definition enrich_ip_v (ip : value) : result dict :=
  match ip with
  | VStr s => Ok (fst (geoip.enrich_ip geoip_reader s))
  | _ => Raise AttributeError
  end.

(** [tls_parser.parse_certificate(v)] on a value: a non-string makes
    [b64decode] raise inside the parser's own [try]. *)
Definition parse_certificate_v (v : value) : dict :=
  match v with
  | VStr s =>
      tls_parser.parse_certificate b64decode_cert load_der_x509_certificate str_of_exn s
  | _ => [("error", VStr (str_of_exn TypeError))]
  end.

(** [event["enrichment"][k] = v] *)
Definition set_enrichment (k : string) (v : value) (event : dict) : result dict :=
  enrichment ← getitem (VDict event) "enrichment";
  match enrichment with
  | VDict e => Ok (dict_set "enrichment" (VDict (dict_set k v e)) event)
  | _ => Raise TypeError
  end.

(** Lines 93-94: GeoIP. *)
Definition enrich_geoip (event : dict) : result dict :=
  if dict_mem "target" event then
    target ← getitem (VDict event) "target";
    has_ip ← contains "ip" target;
    if has_ip : bool then
      ip ← getitem target "ip";
      g ← enrich_ip_v ip;
      set_enrichment "geoip" (VDict g) event
    else Ok event
  else Ok event.

(** Lines 97-103: the certificate. *)
Definition enrich_tls (event : dict) : result dict :=
  if dict_mem "probes" event then
    probes ← getitem (VDict event) "probes";
    has_tls ← contains "tls" probes;
    if has_tls : bool then
      tls ← getitem probes "tls";
      has_cert ← contains "cert_der_b64" tls;
      if has_cert : bool then
        cert_der_b64 ← getitem tls "cert_der_b64";
        if truthy cert_der_b64 then
          set_enrichment "tls_cert" (VDict (parse_certificate_v cert_der_b64)) event
        else Ok event
      else Ok event
    else Ok event
  else Ok event.

(** Lines 106-107: the CVE rules. *)
Definition enrich_cve (event : dict) : result dict :=
  if dict_mem "probes" event then
    probes ← getitem (VDict event) "probes";
    matches ← cve_rules.match_cves re_compile re_matches cve_engine probes;
    set_enrichment "cve_matches" (VList matches) event
  else Ok event.

(** [_enrich_event(event)] *)
Definition _enrich_event (event : dict) : result dict :=
  let event := dict_set "enrichment" (VDict []) event in
  event ← enrich_geoip event;
  event ← enrich_tls event;
  event ← enrich_cve event;
  Ok event.

(** [_compute_risk_score(event)]; the two calls of the scorer read the clock
    one after the other. *)
Definition _compute_risk_score (now1 now2 : datetime.t) (event : dict) : result dict :=
  score ← risk_scorer.calculate_risk str_upper fromisoformat now1 event;
  let event := dict_set "risk_score" (VInt score) event in
  b ← risk_scorer.get_risk_breakdown str_upper fromisoformat now2 event;
  Ok (dict_set "risk_breakdown" (breakdown_value b) event).

(** [_deduplicate(event)] *)
Definition _deduplicate (event : dict) : bool := false.

(** The trust gateway and the sink, as [process_event_file] uses them. *)
Variable VerifyKey : Type.
Variable verify : VerifyKey -> bytes -> bytes -> result bytes.
Variable public_keys : gmap string VerifyKey.
(** [json.loads] *)
Variable json_loads : bytes -> result value.
(** The text of [event_id] in the f-string of the archive path. *)
Variable format_id : value -> string.
Variable render_id : value -> string.
Variable auto_id : gmap (string * string) dict -> string.
Variable writable : string -> bool.
Variable canonical_json : dict -> bytes.
Variable cfg : Config.

(** [self._verify_signature(payload, signature_b64, collector_id)] with the
    collector id as the value read from the event: a list or a dict cannot
    be looked up in the registry, another non-string is not in it. *)
Definition verify_collector (event_data : bytes) (signature_b64 : string)
    (collector_id : value) : result bool :=
  match collector_id with
  | VStr c => _verify_signature VerifyKey base64.b64decode verify public_keys
                event_data signature_b64 c
  | VList _ | VDict _ => Raise TypeError
  | VNone | VBool _ | VInt _ => Ok false
  end.

(** The three readings of the clock while one object is processed. *)
Record clock : Set := mk_clock {
  now_score : datetime.t;
  now_breakdown : datetime.t;
  now_index : datetime.t
}.

(** [process_event_file(bucket_name, object_name)]; [objects] is the content
    of the bucket, a missing object is the [S3Error] of [get_object].  Every
    exception ends in a handler that logs, so the method returns the state it
    has reached. *)
Definition process_event_file (objects : gmap string bytes) (ck : clock) (f : fault)
    (object_name : string) (w : opensearch * files) : opensearch * files :=
  match objects !! object_name with
  | None => w
  | Some event_payload =>
      if endswith object_name ".json" then
        match objects !! (object_name +:+ ".sig") with
        | None => w
        | Some sig =>
            let signature_b64 := b64encode sig in
            let body : result (opensearch * files) :=
              event ← json_loads event_payload;
              event_id ← get event "id" VNone;
              collector_id ← get event "collector_id" VNone;
              if negb (truthy event_id) || negb (truthy collector_id) then Ok w
              else
                verified ← verify_collector event_payload signature_b64 collector_id;
                if negb verified then Ok w
                else
                  match event with
                  | VDict event =>
                      if _deduplicate event then Ok w
                      else
                        enriched_event ← _enrich_event event;
                        final_doc ← _compute_risk_score (now_score ck) (now_breakdown ck)
                                      enriched_event;
                        Ok (sink_write render_id auto_id writable canonical_json cfg
                              (now_index ck) f (format_id event_id) final_doc w)
                  | _ => Raise AttributeError
                  end in
            match body with
            | Ok w' => w'
            | Raise _ => w
            end
        end
      else w
  end.

End pipeline.

End ingester.

(* ===================================================================== *)
(** * Vocabulary of the statements about the risk scorer                  *)
(* ===================================================================== *)

Module risk_spec.

Import risk_scorer.

(** [event["target"]["port"]], read the way the port block reads it. *)
Definition target_port (event : dict) : result value :=
  target ← get (VDict event) "target" (VDict []);
  get target "port" VNone.

(** The probes hold no SSH banner, and no HTTP [Server] header that names
    nginx or apache. *)
Definition quiet_probes (event : dict) : bool :=
  match dict_lookup "probes" event with
  | None => true
  | Some (VDict probes) =>
      negb (dict_mem "ssh_banner" probes) &&
      match dict_lookup "http" probes with
      | None => true
      | Some http =>
          match (headers ← get http "headers" (VDict []); get headers "Server" (VStr "")) with
          | Ok (VStr server) =>
              negb (str_contains "nginx" (lower server) || str_contains "apache" (lower server))
          | _ => false
          end
      end
  | Some _ => false
  end.

(** The enrichment dict of an event. *)
Definition enrichment_of (event : dict) : option dict :=
  match dict_lookup "enrichment" event with
  | Some (VDict e) => Some e
  | _ => None
  end.

Definition no_cve_matches (enrichment : dict) : bool :=
  match dict_lookup "cve_matches" enrichment with
  | None | Some (VList []) => true
  | Some _ => false
  end.

Definition no_tls_cert (enrichment : dict) : bool := negb (dict_mem "tls_cert" enrichment).

(** The country name of the GeoIP result, [None] when it has none. *)
Definition geoip_country (enrichment : dict) : option value :=
  match dict_lookup "geoip" enrichment with
  | Some (VDict g) =>
      Some (match dict_lookup "country_name" g with Some c => c | None => VNone end)
  | _ => None
  end.

(** A GeoIP result counts as public when its country name is none of
    [markers]. *)
Definition public_geoip (markers : list string) (enrichment : dict) : bool :=
  match geoip_country enrichment with
  | Some c => negb (in_strs c markers)
  | None => false
  end.

(** The end-to-end example: a Telnet target, quiet probes, no certificate,
    no CVE match and a public GeoIP result. *)
Definition telnet_example (markers : list string) (event : dict) : bool :=
  match target_port event with Ok (VInt port) => port =? 23 | _ => false end &&
  quiet_probes event &&
  match enrichment_of event with
  | Some e => no_cve_matches e && no_tls_cert e && public_geoip markers e
  | None => false
  end.

(** The two markers the specification names, and the three the scorer
    tests. *)
Definition spec_markers : list string := ["PRIVATE"; "UNKNOWN"].
Definition scorer_markers : list string := ["PRIVATE"; "LOCALHOST"; "UNKNOWN"].

(** Sample events and an evaluation time. *)
Definition new_year_2026 : datetime.t := datetime.mk 2026 1 1 0 0 0 0 (Some 0).

Definition telnet_event (country : string) : dict :=
  [ ("id", VStr "e-1");
    ("target", VDict [("ip", VStr "203.0.113.7"); ("port", VInt 23); ("protocol", VStr "tcp")]);
    ("probes", VDict []);
    ("enrichment",
     VDict [ ("geoip", VDict [("country_name", VStr country); ("city_name", VStr "x");
                              ("location", VNone)]);
             ("cve_matches", VList []) ]) ].

Definition tls_event (self_signed : bool) (valid_to : string) : dict :=
  [ ("id", VStr "e-2");
    ("target", VDict [("ip", VStr "203.0.113.7"); ("port", VInt 8443)]);
    ("enrichment",
     VDict [ ("tls_cert", VDict [("self_signed", VBool self_signed);
                                 ("valid_to", VStr valid_to)]) ]) ].

End risk_spec.

(* ===================================================================== *)
(** * Vocabulary of the statements about the CVE rule matcher             *)
(* ===================================================================== *)

Module cve_spec.

Section vocabulary.

Variable re_compile : string -> result unit.

(** The rule is a dict whose entry [key] is a pattern that the compiler
    rejects with [re.error]. *)
Definition malformed_at (key : string) (rule : value) : bool :=
  match rule with
  | VDict d =>
      match dict_lookup key d with
      | Some (VStr p) => match re_compile p with Raise ReError => true | _ => false end
      | _ => false
      end
  | _ => false
  end.

(** The rule is a dict without an entry [key]. *)
Definition no_regex_at (key : string) (rule : value) : bool :=
  match rule with
  | VDict d => negb (dict_mem key d)
  | _ => false
  end.

(** A malformed rule: it has a regex, and every regex it has fails to
    compile. *)
Definition malformed_rule (rule : value) : bool :=
  (malformed_at "server_regex" rule || malformed_at "ssh_banner_regex" rule)
  && (malformed_at "server_regex" rule || no_regex_at "server_regex" rule)
  && (malformed_at "ssh_banner_regex" rule || no_regex_at "ssh_banner_regex" rule).

(** The rule without those of its two regexes that fail to compile. *)
Definition strip_at (key : string) (d : dict) : dict :=
  if malformed_at key (VDict d) then dict_remove key d else d.

Definition strip_malformed (rule : value) : value :=
  match rule with
  | VDict d => VDict (strip_at "ssh_banner_regex" (strip_at "server_regex" d))
  | _ => rule
  end.


Definition absent_or_str (key : string) (d : dict) : bool :=
  match dict_lookup key d with
  | None | Some (VStr _) => true
  | Some _ => false
  end.

(** A rule as the rule file describes it: a dict whose regexes are
    strings. *)
Definition rule_typed (rule : value) : bool :=
  match rule with
  | VDict d => absent_or_str "server_regex" d && absent_or_str "ssh_banner_regex" d
  | _ => false
  end.

(** The exception with which a turn of a loop on this regex leaves the
    loop: [TypeError] for a regex that is not a string, and whatever the
    compiler raises other than [re.error]. *)
Definition escaping (pattern : value) : option exn :=
  match pattern with
  | VStr p =>
      match re_compile p with
      | Ok _ | Raise ReError => None
      | Raise e => Some e
      end
  | _ => Some TypeError
  end.

Definition absent_or_handled (key : string) (d : dict) : bool :=
  match dict_lookup key d with
  | None => true
  | Some pattern => match escaping pattern with None => true | Some _ => false end
  end.

(** A rule the loops can handle: a dict whose regexes are strings that
    compile or are rejected with [re.error]. *)
Definition rule_sound (rule : value) : bool :=
  match rule with
  | VDict d => absent_or_handled "server_regex" d && absent_or_handled "ssh_banner_regex" d
  | _ => false
  end.

(** [d[outer][inner]], where present, is a dict holding a string (or
    nothing) under [field]. *)
Definition field_typed (outer inner field : string) (d : dict) : bool :=
  match dict_lookup outer d with
  | None => true
  | Some (VDict o) =>
      match inner with
      | EmptyString => absent_or_str field o
      | _ =>
          match dict_lookup inner o with
          | None => true
          | Some (VDict i) => absent_or_str field i
          | Some _ => false
          end
      end
  | Some _ => false
  end.

(** Probes as the collector sends them: a dict in which [http.headers.Server]
    and [ssh_banner.Banner], where present, are strings. *)
Definition probes_typed (probes : value) : bool :=
  match probes with
  | VDict d => field_typed "http" "headers" "Server" d && field_typed "ssh_banner" "" "Banner" d
  | _ => false
  end.


(** The rules that [skip] selects are passed over by both loops: a turn of
    either loop on such a rule leaves the list of matches as it is. *)
Definition passed_over (re_matches : string -> string -> bool) (skip : value -> bool) : Prop :=
  forall key matched_on text rule acc,
    (key = "server_regex" \/ key = "ssh_banner_regex") ->
    skip rule = true ->
    cve_rules.rule_step re_compile re_matches key matched_on text rule acc = Ok acc.

End vocabulary.

(** Sample rules and probes. *)
Definition rule_nginx : value :=
  VDict [ ("cve_id", VStr "CVE-TEST-1"); ("severity", VStr "HIGH");
          ("server_regex", VStr "nginx/1\.18") ].

Definition rule_broken : value :=
  VDict [ ("cve_id", VStr "CVE-TEST-2"); ("server_regex", VStr "nginx/(1\.18") ].

(** One broken and one sound regex in the same rule. *)
Definition rule_mixed : value :=
  VDict [ ("cve_id", VStr "CVE-TEST-4"); ("server_regex", VStr "apache[");
          ("ssh_banner_regex", VStr "openssh.7") ].

(** A repetition count the compiler refuses with [OverflowError], and a
    regex that is a number. *)
Definition rule_overflow : value :=
  VDict [ ("cve_id", VStr "CVE-TEST-5"); ("server_regex", VStr "a{4294967296}") ].

Definition rule_number : value :=
  VDict [ ("cve_id", VStr "CVE-TEST-6"); ("server_regex", VInt 118) ].

Definition rule_ftp : value :=
  VDict [ ("cve_id", VStr "CVE-TEST-3"); ("ftp_banner_regex", VStr "vsftpd") ].

Definition probes_http (server : string) : value :=
  VDict [ ("http", VDict [("status", VInt 200);
                          ("headers", VDict [("Server", VStr server)])]);
          ("ftp", VDict [("Banner", VStr "220 vsftpd")]) ].

Definition nginx_match : value :=
  VDict [ ("cve_id", VStr "CVE-TEST-1"); ("severity", VStr "HIGH");
          ("description", VStr "No description provided.");
          ("matched_on", VStr "http_server_header");
          ("matched_value", VStr "nginx/1.18.0") ].

End cve_spec.

(* ===================================================================== *)
(** * Further vocabulary for the risk scorer                              *)
(* ===================================================================== *)

Module risk_terms.

Import risk_scorer.

(** The severity the vulnerability loop reads from one CVE match: the entry
    [severity], ["UNKNOWN"] when the match has none; [None] when the loop
    would raise on this match. *)
Definition severity_of (cve : value) : option string :=
  match cve with
  | VDict d =>
      match dict_lookup "severity" d with
      | Some (VStr s) => Some s
      | Some _ => None
      | None => Some "UNKNOWN"
      end
  | _ => None
  end.

Definition has_severity (cve : value) : bool :=
  match severity_of cve with Some _ => true | None => false end.

(** The weight of one CVE match, [str_upper] being [str.upper]. *)
Definition cve_weight (str_upper : string -> string) (cve : value) : Z :=
  match severity_of cve with
  | Some s => severity_weight (str_upper s)
  | None => 0
  end.

(** The keys of an event that the scorer reads. *)
Definition scorer_key (k : string) : bool :=
  String.eqb k "target" || String.eqb k "probes" || String.eqb k "enrichment".

End risk_terms.

(* ===================================================================== *)
(** * Further vocabulary for the enrichers                                *)
(* ===================================================================== *)

Module enrich_terms.

(** The test at the head of [enrich_ip]. *)
Definition private_prefix (ip_address : string) : bool :=
  startswith ip_address "127." || startswith ip_address "10." ||
  startswith ip_address "172.16." || startswith ip_address "192.168.".

(** The exposure score that follows a lookup of [ip_address]. *)
Definition exposure_after_lookup (rd : option geoip.reader) (ip_address : string) : Z :=
  if private_prefix ip_address then 0
  else
    match rd with
    | None => 0
    | Some city =>
        match city ip_address with
        | Ok response =>
            if in_strs (geoip.country_name response) risk_spec.scorer_markers then 0 else 5
        | Raise AddressNotFoundError => 0
        | Raise _ => 5
        end
    end.

Section matching.

Variable re_compile : string -> result unit.
Variable re_matches : string -> string -> bool.

(** The rule has a regex under [key] that compiles and is found in [text]. *)
Definition fires (key text : string) (rule : value) : bool :=
  match rule with
  | VDict d =>
      match dict_lookup key d with
      | Some (VStr p) => is_ok (re_compile p) && re_matches p text
      | _ => false
      end
  | _ => false
  end.

(** The entry recorded for a rule that fired. *)
Definition entry_of (matched_on text : string) (rule : value) : value :=
  let field (k dflt : string) : value :=
    match rule with
    | VDict d => match dict_lookup k d with Some v => v | None => VStr dflt end
    | _ => VStr dflt
    end in
  VDict [ ("cve_id", field "cve_id" "UNKNOWN");
          ("severity", field "severity" "UNKNOWN");
          ("description", field "description" "No description provided.");
          ("matched_on", VStr matched_on);
          ("matched_value", VStr text) ].

(** The entries of one pass: one per rule that fires, in rule order. *)
Definition pass_entries (key matched_on : string) (text : option string)
    (rules : list value) : list value :=
  match text with
  | Some t => map (entry_of matched_on t) (List.filter (fires key t) rules)
  | None => []
  end.

End matching.

(** [d[outer][inner][field]] (or [d[outer][field]] when [inner] is empty)
    when it is a non-empty string. *)
Definition text_at (outer inner field : string) (probes : value) : option string :=
  let non_empty (o : option value) : option string :=
    match o with
    | Some (VStr s) => if String.eqb s "" then None else Some s
    | _ => None
    end in
  match probes with
  | VDict d =>
      match dict_lookup outer d with
      | Some (VDict o) =>
          match inner with
          | EmptyString => non_empty (dict_lookup field o)
          | _ =>
              match dict_lookup inner o with
              | Some (VDict i) => non_empty (dict_lookup field i)
              | _ => None
              end
          end
      | _ => None
      end
  | _ => None
  end.

(** The keys an enrichment may hold. *)
Definition enrichment_key (k : string) : bool :=
  String.eqb k "geoip" || String.eqb k "tls_cert" || String.eqb k "cve_matches".

(** What every step of [_enrich_event] keeps true of the event, compared
    with the event [event0] it started from. *)
Definition enriched_from (event0 event : dict) : Prop :=
  (forall k, k <> "enrichment" -> dict_lookup k event = dict_lookup k event0)
  /\ exists e, dict_lookup "enrichment" event = Some (VDict e)
               /\ forallb (fun kv => enrichment_key (fst kv)) e = true.

Definition server_header_of : value -> option string := text_at "http" "headers" "Server".
Definition ssh_banner_of : value -> option string := text_at "ssh_banner" "" "Banner".

End enrich_terms.

(* ===================================================================== *)
(** * Tables for the base64 round trip                                    *)
(* ===================================================================== *)

Module base64_tables.

Import base64.

(** The numbers from 0 up to [n], [n] excluded. *)
(** What the decoder needs to know of a character of the alphabet. *)
Definition sextet_ok (v : Z) : bool :=
  negb (Ascii.eqb (table_b2a v) "=")
  && match table_a2b (table_b2a v) with Some v' => v' =? v | None => false end
  && (N_of_ascii (table_b2a v) <? 128)%N.

(** The sextets of a group, and what the decoder rebuilds from them. *)
Definition s0 (b0 : Z) : Z := Z.shiftr b0 2.
Definition s1 (b0 b1 : Z) : Z := Z.lor (Z.shiftl (Z.land b0 3) 4) (Z.shiftr b1 4).
Definition s2 (b1 b2 : Z) : Z := Z.lor (Z.shiftl (Z.land b1 15) 2) (Z.shiftr b2 6).
Definition s3 (b2 : Z) : Z := Z.land b2 63.

Definition in64 (v : Z) : bool := (0 <=? v) && (v <? 64).

Definition bytes_in_range (zs : list Z) : Prop := Forall (fun z => 0 <= z < 256) zs.

Definition pair_ok (x y : Z) : bool :=
  in64 (s0 x) && in64 (s1 x y) && in64 (s2 x y) && in64 (s3 x)
  && in64 (Z.shiftl (Z.land x 3) 4) && in64 (Z.shiftl (Z.land x 15) 2)
  && (Z.lor (Z.shiftl (s0 x) 2) (Z.shiftr (s1 x y) 4) =? x)
  && (Z.land (s1 x y) 15 =? Z.shiftr y 4)
  && (Z.lor (Z.shiftl (Z.shiftr x 4) 4) (Z.shiftr (s2 x y) 2) =? x)
  && (Z.land (s2 x y) 3 =? Z.shiftr y 6)
  && (Z.lor (Z.shiftl (Z.shiftr x 6) 6) (s3 x) =? x)
  && (Z.lor (Z.shiftl (s0 x) 2) (Z.shiftr (Z.shiftl (Z.land x 3) 4) 4) =? x)
  && (Z.lor (Z.shiftl (Z.shiftr x 4) 4) (Z.shiftr (Z.shiftl (Z.land x 15) 2) 2) =? x).

End base64_tables.

(* ===================================================================== *)
(** * Vocabulary of the statements about the scanner                      *)
(* ===================================================================== *)

Module scanner_terms.

(** The text holds no dot. *)
Fixpoint no_dot (s : string) : bool :=
  match s with
  | EmptyString => true
  | String c rest => negb (Ascii.eqb c ".") && no_dot rest
  end.

(** What the parser and the prefix tests need to know of the decimal text of
    an octet. *)
Definition octet_text_ok (a : Z) : bool :=
  no_dot (geoip.dec a)
  && match scanner.parse_octet (geoip.dec a) with Some a' => a' =? a | None => false end
  && Bool.eqb (String.eqb (geoip.dec a) "127") (a =? 127)
  && Bool.eqb (String.eqb (geoip.dec a) "10") (a =? 10)
  && Bool.eqb (String.eqb (geoip.dec a) "172") (a =? 172)
  && Bool.eqb (String.eqb (geoip.dec a) "16") (a =? 16)
  && Bool.eqb (String.eqb (geoip.dec a) "192") (a =? 192)
  && Bool.eqb (String.eqb (geoip.dec a) "168") (a =? 168).

(** The number of a dotted quad. *)
Definition pack (a : geoip.ipv4) : Z :=
  let '(a1, a2, a3, a4) := a in ((a1 * 256 + a2) * 256 + a3) * 256 + a4.

(** The ranges of [PRIVATE_RANGES], read on the first two octets. *)
Definition private_octets (a1 a2 : Z) : bool :=
  (a1 =? 10) || ((a1 =? 172) && (16 <=? a2) && (a2 <=? 31)) || ((a1 =? 192) && (a2 =? 168))
  || (a1 =? 127) || ((a1 =? 169) && (a2 =? 254)).

(** The prefixes of [enrich_ip], read on the first two octets. *)
Definition prefix_octets (a1 a2 : Z) : bool :=
  (a1 =? 127) || (a1 =? 10) || ((a1 =? 172) && (a2 =? 16)) || ((a1 =? 192) && (a2 =? 168)).

(** The 32-bit number is the number of an address outside [PRIVATE_RANGES]. *)
Definition public_number (n : Z) : bool :=
  negb (private_octets (n / 2 ^ 24) (n / 2 ^ 16 mod 256)).

(** The numbers [random.randint(1, 0xffffffff)] can give. *)
Definition drawn (n : Z) : Prop := 1 <= n <= 4294967295.

End scanner_terms.

(* ===================================================================== *)
(** * Sample inputs and reference instances for the pipeline              *)
(* ===================================================================== *)

Module samples.

Import base64 ingest ingester.

(** A database that resolves every address to one place. *)
Definition berlin : geoip.city_response :=
  geoip.mk_city (VStr "Germany") (VStr "Berlin") (VInt 52) (VInt 13).

Definition reader_berlin : geoip.reader := fun _ => Ok berlin.

(** A loader that rejects every certificate, one that accepts every
    certificate as [cert], and a text for every exception. *)
Definition load_none : bytes -> result tls_parser.certificate := fun _ => Raise ValueError.

Definition load_as (cert : tls_parser.certificate) : bytes -> result tls_parser.certificate :=
  fun _ => Ok cert.

Definition exn_text : exn -> string := fun _ => "error".

(** A self-signed certificate that ran out in 2025, and the same
    certificate with a public key the library cannot load. *)
Definition cert_expired : tls_parser.certificate :=
  {| tls_parser.subject := Ok [("2.5.4.3", "example.org")];
     tls_parser.issuer := Ok [("2.5.4.3", "example.org")];
     tls_parser.subject_alt_name := Raise ExtensionNotFound;
     tls_parser.cert_public_key := Ok (tls_parser.RSAPublicKey 2048);
     tls_parser.not_valid_before_utc := Ok (datetime.mk 2024 6 1 0 0 0 0 (Some 0));
     tls_parser.not_valid_after_utc := Ok (datetime.mk 2025 6 1 0 0 0 0 (Some 0)) |}.

Definition cert_bad_key : tls_parser.certificate :=
  {| tls_parser.subject := tls_parser.subject cert_expired;
     tls_parser.issuer := tls_parser.issuer cert_expired;
     tls_parser.subject_alt_name := tls_parser.subject_alt_name cert_expired;
     tls_parser.cert_public_key := Raise ValueError;
     tls_parser.not_valid_before_utc := tls_parser.not_valid_before_utc cert_expired;
     tls_parser.not_valid_after_utc := tls_parser.not_valid_after_utc cert_expired |}.

(** Keys as raw bytes; a signature is good when it is the key followed by
    the message. *)
Fixpoint bytes_eqb (a b : bytes) : bool :=
  match a, b with
  | [], [] => true
  | x :: a', y :: b' => Byte.eqb x y && bytes_eqb a' b'
  | _, _ => false
  end.

Definition verify_ref (key message signature : bytes) : result bytes :=
  if bytes_eqb signature (key ++ message)%list then Ok message else Raise BadSignatureError.

Definition key_c1 : bytes := [Byte.x01; Byte.x02; Byte.x03].

Definition registry : gmap string bytes := {[ "c-1" := key_c1 ]}.

(** A raw event of the collector [c-1], its object and its signature object. *)
Definition telnet_raw : dict :=
  [ ("id", VStr "e-1");
    ("collector_id", VStr "c-1");
    ("target", VDict [("ip", VStr "203.0.113.7"); ("port", VInt 23); ("protocol", VStr "tcp")]);
    ("probes", VDict []) ].

Definition payload : bytes := json.canonical telnet_raw.

Definition bucket : gmap string bytes :=
  {[ "event_e-1.json" := payload; "event_e-1.json.sig" := (key_c1 ++ payload)%list ]}.

Definition noon : datetime.t := datetime.mk 2026 1 15 12 0 0 0 (Some 0).

Definition clock_noon : clock := mk_clock noon noon noon.

(** [process_event_file] with the reference instances; [json_loads] answers
    every payload with [event]. *)
Definition process (event : dict) :=
  process_event_file (Some reader_berlin) b64decode load_none exn_text
    cve_rules.re_compile_ref cve_rules.re_matches_ref [cve_spec.rule_nginx] upper
    datetime.fromisoformat_ref bytes verify_ref registry (fun _ => Ok (VDict event))
    render_id_ref render_id_ref (fun _ => "auto") (fun _ => true) json.canonical
    default_config.

(** What [scan_port] returns for an open SSH port. *)
Definition scan_ssh : value :=
  VDict [ ("ip", VStr "203.0.113.7"); ("port", VInt 22); ("state", VStr "open");
          ("banner", VStr "SSH-2.0-OpenSSH_8.9"); ("timestamp", VStr "2026-01-15T12:00:00Z") ].

Definition event_ssh : dict :=
  [ ("event_type", VStr "asset_discovered");
    ("timestamp", VStr "2026-01-15T12:00:00Z");
    ("collector_id", VStr "internet_scanner_001");
    ("asset",
     VDict [ ("ip_address", VStr "203.0.113.7");
             ("ports",
              VList [ VDict [ ("port", VInt 22); ("protocol", VStr "tcp");
                              ("state", VStr "open"); ("service", VStr "openssh");
                              ("banner", VStr "SSH-2.0-OpenSSH_8.9") ] ]);
             ("first_seen", VStr "2026-01-15T12:00:00Z");
             ("last_seen", VStr "2026-01-15T12:00:00Z") ]);
    ("metadata",
     VDict [ ("scanner_version", VStr "1.0.0"); ("scan_type", VStr "internet_wide") ]) ].

(** The service numbers its documents. *)
Definition count_id (docs : gmap (string * string) dict) : string :=
  json.int_literal (Z.of_nat (size docs)).

(** No IPv6 parser: every text that is not a dotted quad is rejected. *)
Definition no_ipv6 : string -> option Z := fun _ => None.

End samples.

(* ===================================================================== *)
(** * Properties of the risk scorer                                       *)
(* ===================================================================== *)

Import risk_scorer risk_spec.

Lemma bind_ok {A B} (m : result A) (f : A -> result B) (b : B) :
  m ≫= f = Ok b -> exists a, m = Ok a /\ f a = Ok b.
Proof. destruct m as [a|e]; simpl; [eauto | discriminate]. Qed.

Section risk_scorer_facts.

Variable str_upper : string -> string.
Variable fromisoformat : string -> option datetime.t.
Variable now : datetime.t.

Local Abbreviation get_risk_breakdown := (risk_scorer.get_risk_breakdown str_upper).
Local Abbreviation calculate_risk := (risk_scorer.calculate_risk str_upper).

Lemma items_fold (b : breakdown) :
  fold_left (fun score cs => score + snd cs) (items b) 0 = sum (values b).
Proof. destruct b; unfold items, values, sum; simpl; lia. Qed.

Lemma min_max_clamp (x : Z) : Z.min 100 (Z.max 0 x) = clamp x 0 100.
Proof. unfold clamp. destruct (Z.ltb_spec x 0), (Z.ltb_spec 100 x); lia. Qed.

Lemma clamp_bounds (x : Z) : 0 <= clamp x 0 100 <= 100.
Proof. unfold clamp. destruct (Z.ltb_spec x 0), (Z.ltb_spec 100 x); lia. Qed.

(** A breakdown that is returned holds what each block computed. *)
Lemma get_risk_breakdown_blocks (event : dict) (b : breakdown) :
  get_risk_breakdown fromisoformat now event = Ok b ->
  port_block event = Ok (port_score b) /\
  service_block event = Ok (service_score b) /\
  vuln_block str_upper event = Ok (vuln_score b) /\
  cert_block fromisoformat now event = Ok (cert_score b) /\
  exposure_block event = Ok (exposure_score b) /\
  freshness_score b = 0.
Proof.
  unfold risk_scorer.get_risk_breakdown. intros H.
  apply bind_ok in H as (p & Hp & H).
  apply bind_ok in H as (sv & Hs & H).
  apply bind_ok in H as (v & Hv & H).
  apply bind_ok in H as (c & Hc & H).
  apply bind_ok in H as (e & He & H).
  injection H as <-. simpl. auto 10.
Qed.

(** The blocks decide whether a breakdown is returned. *)
Lemma get_risk_breakdown_of_blocks (event : dict) (p sv v c e : Z) :
  port_block event = Ok p ->
  service_block event = Ok sv ->
  vuln_block str_upper event = Ok v ->
  cert_block fromisoformat now event = Ok c ->
  exposure_block event = Ok e ->
  get_risk_breakdown fromisoformat now event = Ok (mk_breakdown p sv v c e 0).
Proof.
  intros Hp Hs Hv Hc He. unfold risk_scorer.get_risk_breakdown.
  rewrite Hp; simpl. rewrite Hs; simpl. rewrite Hv; simpl.
  rewrite Hc; simpl. rewrite He; simpl. reflexivity.
Qed.

(** C1.  [calculate_risk] is the sum of the breakdown's values clamped to
    [0, 100]: it returns exactly when [get_risk_breakdown] does, with that
    value, and a returned score lies between 0 and 100 whatever the size of
    the components. *)
Theorem calculate_risk_is_clamped_sum (event : dict) :
  calculate_risk fromisoformat now event
  = (b ← get_risk_breakdown fromisoformat now event; Ok (clamp (sum (values b)) 0 100))
  /\ match calculate_risk fromisoformat now event with
     | Ok score => 0 <= score <= 100
     | Raise e => get_risk_breakdown fromisoformat now event = Raise e
     end.
Proof.
  unfold risk_scorer.calculate_risk.
  destruct (get_risk_breakdown fromisoformat now event) as [b|e]; cbv [mbind result_bind].
  - rewrite items_fold, min_max_clamp. split; [reflexivity | apply clamp_bounds].
  - split; reflexivity.
Qed.

(** ** The blocks on the events of the end-to-end example *)

Lemma port_block_of_target_port (event : dict) :
  port_block event =
  (target_port ← target_port event;
   Ok ((if in_ints target_port [21; 22; 23; 80; 443; 3389] then 5 else 0)
       + (if in_ints target_port [23] then 10 else 0))).
Proof.
  unfold port_block, target_port.
  destruct (get (VDict event) "target" (VDict [])) as [t|]; [|reflexivity].
  cbv [mbind result_bind].
  destruct (get t "port" VNone) as [tp|]; [|reflexivity].
  destruct (in_ints tp [21; 22; 23; 80; 443; 3389]), (in_ints tp [23]); reflexivity.
Qed.

Lemma service_block_quiet (event : dict) :
  quiet_probes event = true -> service_block event = Ok 0.
Proof.
  unfold quiet_probes, service_block, dict_mem, getitem.
  destruct (dict_lookup "probes" event) as [[| | | | |probes]|]; try discriminate; [|reflexivity].
  intros [Hssh Hhttp]%andb_prop.
  cbv [mbind result_bind contains getitem dict_mem] in *.
  destruct (dict_lookup "ssh_banner" probes); [discriminate|].
  destruct (dict_lookup "http" probes) as [http|]; [|reflexivity].
  destruct (get http "headers" (VDict [])) as [headers|]; [|discriminate].
  destruct (get headers "Server" (VStr "")) as [[| | |server| |]|]; try discriminate.
  cbv [lower_m]. apply negb_true_iff in Hhttp. rewrite Hhttp. reflexivity.
Qed.

Lemma vuln_block_none (event e : dict) :
  enrichment_of event = Some e -> no_cve_matches e = true -> vuln_block str_upper event = Ok 0.
Proof.
  unfold enrichment_of, no_cve_matches, vuln_block, dict_mem, getitem.
  destruct (dict_lookup "enrichment" event) as [[| | | | |e']|]; try discriminate.
  intros [= ->] H. cbv [mbind result_bind contains getitem dict_mem].
  destruct (dict_lookup "cve_matches" e) as [[| | | |[|]|]|]; try discriminate; reflexivity.
Qed.

Lemma cert_block_none (event e : dict) :
  enrichment_of event = Some e -> no_tls_cert e = true ->
  cert_block fromisoformat now event = Ok 0.
Proof.
  unfold enrichment_of, no_tls_cert, cert_block, dict_mem, getitem.
  destruct (dict_lookup "enrichment" event) as [[| | | | |e']|]; try discriminate.
  intros [= ->] H. cbv [mbind result_bind contains getitem dict_mem].
  destruct (dict_lookup "tls_cert" e); [discriminate | reflexivity].
Qed.

(** The exposure block on an event with a GeoIP result. *)
Lemma exposure_block_country (event e : dict) (c : value) :
  enrichment_of event = Some e -> geoip_country e = Some c ->
  exposure_block event = Ok (if in_strs c scorer_markers then 0 else 5).
Proof.
  unfold enrichment_of, geoip_country, exposure_block, dict_mem, getitem.
  destruct (dict_lookup "enrichment" event) as [[| | | | |e']|]; try discriminate.
  intros [= ->]. cbv [mbind result_bind contains getitem dict_mem get].
  destruct (dict_lookup "geoip" e) as [[| | | | |g]|]; try discriminate.
  intros [= <-]. unfold scorer_markers.
  destruct (in_strs _ _); reflexivity.
Qed.

(** C3 (as amended).  An event with target port 23, probes without an SSH
    banner and without an HTTP Server header naming nginx or apache, an
    enrichment without a certificate and without CVE matches, and a GeoIP
    result whose country name is none of PRIVATE, LOCALHOST and UNKNOWN has
    the breakdown 15, 0, 0, 0, 5, 0 and the risk score 20. *)
Theorem telnet_example_scores (event : dict) :
  telnet_example scorer_markers event = true ->
  get_risk_breakdown fromisoformat now event
  = Ok {| port_score := 15; service_score := 0; vuln_score := 0;
          cert_score := 0; exposure_score := 5; freshness_score := 0 |}
  /\ calculate_risk fromisoformat now event = Ok 20.
Proof.
  unfold telnet_example, public_geoip.
  intros [[Hport Hquiet]%andb_prop Henr]%andb_prop.
  destruct (enrichment_of event) as [e|] eqn:He; [|discriminate].
  apply andb_prop in Henr as [[Hcve Htls]%andb_prop Hgeo].
  destruct (geoip_country e) as [c|] eqn:Hc; [|discriminate].
  apply negb_true_iff in Hgeo.
  assert (Hb : get_risk_breakdown fromisoformat now event
               = Ok (mk_breakdown 15 0 0 0 5 0)).
  { apply get_risk_breakdown_of_blocks.
    - rewrite port_block_of_target_port.
      destruct (target_port event) as [[| |port| | |]|]; try discriminate.
      apply Z.eqb_eq in Hport as ->. reflexivity.
    - apply service_block_quiet; assumption.
    - eapply vuln_block_none; eassumption.
    - eapply cert_block_none; eassumption.
    - erewrite exposure_block_country by eassumption. rewrite Hgeo. reflexivity. }
  split; [exact Hb|].
  unfold risk_scorer.calculate_risk. rewrite Hb. reflexivity.
Qed.

(** C5 (as amended).  For an event with a GeoIP result, the exposure block
    yields 0 when the country name is PRIVATE, LOCALHOST or UNKNOWN and 5
    otherwise, and that is the exposure score of every breakdown returned. *)
Theorem exposure_score_by_marker (event e : dict) (c : value) :
  enrichment_of event = Some e ->
  geoip_country e = Some c ->
  exposure_block event = Ok (if in_strs c scorer_markers then 0 else 5)
  /\ forall b, get_risk_breakdown fromisoformat now event = Ok b ->
               exposure_score b = if in_strs c scorer_markers then 0 else 5.
Proof.
  intros He Hc. pose proof (exposure_block_country _ _ _ He Hc) as Hx.
  split; [exact Hx|].
  intros b Hb. apply get_risk_breakdown_blocks in Hb as (_ & _ & _ & _ & Hexp & _).
  congruence.
Qed.


End risk_scorer_facts.


(** ** The statements at sample events *)

Lemma telnet_example_scores_witness :
  telnet_example scorer_markers (telnet_event "Germany") = true
  /\ get_risk_breakdown upper datetime.fromisoformat_ref new_year_2026 (telnet_event "Germany")
     = Ok {| port_score := 15; service_score := 0; vuln_score := 0;
             cert_score := 0; exposure_score := 5; freshness_score := 0 |}
  /\ calculate_risk upper datetime.fromisoformat_ref new_year_2026 (telnet_event "Germany") = Ok 20.
Proof.
  split; [reflexivity|].
  apply (telnet_example_scores upper datetime.fromisoformat_ref new_year_2026 (telnet_event "Germany")).
  reflexivity.
Defined.

(** C3 as stated fails: a GeoIP result with the country name LOCALHOST is
    neither PRIVATE nor UNKNOWN, every other condition of the example holds,
    and yet the exposure score is 0 and the risk score 15. *)
Lemma telnet_example_localhost :
  telnet_example spec_markers (telnet_event "LOCALHOST") = true
  /\ get_risk_breakdown upper datetime.fromisoformat_ref new_year_2026 (telnet_event "LOCALHOST")
     = Ok {| port_score := 15; service_score := 0; vuln_score := 0;
             cert_score := 0; exposure_score := 0; freshness_score := 0 |}
  /\ calculate_risk upper datetime.fromisoformat_ref new_year_2026 (telnet_event "LOCALHOST") = Ok 15.
Proof. repeat split. Qed.

Lemma exposure_score_by_marker_witness :
  let e := [ ("geoip", VDict [("country_name", VStr "Germany")]) ] in
  let event := [ ("enrichment", VDict e) ] in
  enrichment_of event = Some e
  /\ geoip_country e = Some (VStr "Germany")
  /\ exposure_block event = Ok 5
  /\ forall b, get_risk_breakdown upper datetime.fromisoformat_ref new_year_2026 event = Ok b ->
               exposure_score b = 5.
Proof.
  intros e event. split; [reflexivity|]. split; [reflexivity|].
  apply (exposure_score_by_marker upper datetime.fromisoformat_ref new_year_2026
           event e (VStr "Germany")); reflexivity.
Defined.

(** C5 as stated fails: the country name LOCALHOST is neither the PRIVATE
    nor the UNKNOWN marker, and the exposure score is 0, not 5. *)
Lemma exposure_score_localhost :
  let e := [ ("geoip", VDict [("country_name", VStr "LOCALHOST")]) ] in
  let event := [ ("enrichment", VDict e) ] in
  enrichment_of event = Some e
  /\ geoip_country e = Some (VStr "LOCALHOST")
  /\ in_strs (VStr "LOCALHOST") spec_markers = false
  /\ exposure_block event = Ok 0
  /\ (forall b, get_risk_breakdown upper datetime.fromisoformat_ref new_year_2026 event = Ok b ->
                exposure_score b = 0)
  /\ exists b, get_risk_breakdown upper datetime.fromisoformat_ref new_year_2026 event = Ok b.
Proof.
  intros e event. repeat split.
  - intros b [= <-]. reflexivity.
  - eexists. reflexivity.
Qed.


(** The other cases of C6 at sample events: self-signed and still valid,
    expired and not self-signed, neither. *)
Example cert_score_cases :
  cert_block datetime.fromisoformat_ref new_year_2026
    (tls_event true "2030-01-01T00:00:00+00:00") = Ok 10
  /\ cert_block datetime.fromisoformat_ref new_year_2026
       (tls_event false "2020-01-01T00:00:00+00:00") = Ok 15
  /\ cert_block datetime.fromisoformat_ref new_year_2026
       (tls_event true "2020-01-01T00:00:00+00:00") = Ok 25
  /\ cert_block datetime.fromisoformat_ref new_year_2026
       (tls_event false "2030-01-01T00:00:00+00:00") = Ok 0.
Proof. repeat split. Qed.

(** Many critical matches: the breakdown keeps the sum, the score stops at
    100. *)
Example calculate_risk_saturates :
  let cve := VDict [("severity", VStr "critical")] in
  let event := [ ("enrichment", VDict [("cve_matches", VList [cve; cve; cve; cve; cve])]) ] in
  (b ← get_risk_breakdown upper datetime.fromisoformat_ref new_year_2026 event; Ok (vuln_score b))
  = Ok 150
  /\ calculate_risk upper datetime.fromisoformat_ref new_year_2026 event = Ok 100.
Proof. split; reflexivity. Qed.

(* ===================================================================== *)
(** * Properties of the GeoIP resolver                                    *)
(* ===================================================================== *)

Section geoip_facts.

Import geoip.

Variable rd : option reader.

(** An address whose text starts with one of the four prefixes gets the
    PRIVATE marker, and the reader is not asked. *)
Lemma enrich_ip_prefix (ip_address : string) :
  startswith ip_address "127." || startswith ip_address "10." ||
  startswith ip_address "172.16." || startswith ip_address "192.168." = true ->
  enrich_ip rd ip_address = (PRIVATE, []).
Proof. intros H. unfold enrich_ip. rewrite H. reflexivity. Qed.

(** The loopback block, 10/8, 172.16/16 and 192.168/16 are covered. *)
Lemma enrich_ip_private_covered (a2 a3 a4 : Z) :
  enrich_ip rd (ipv4_str (127, a2, a3, a4)) = (PRIVATE, []) /\
  enrich_ip rd (ipv4_str (10, a2, a3, a4)) = (PRIVATE, []) /\
  enrich_ip rd (ipv4_str (172, 16, a3, a4)) = (PRIVATE, []) /\
  enrich_ip rd (ipv4_str (192, 168, a3, a4)) = (PRIVATE, []).
Proof. repeat split; apply enrich_ip_prefix; reflexivity. Qed.

(** The three addresses the specification lists. *)
Example enrich_ip_listed :
  enrich_ip rd "10.0.0.5" = (PRIVATE, []) /\
  enrich_ip rd "127.0.0.1" = (PRIVATE, []) /\
  enrich_ip rd "192.168.1.1" = (PRIVATE, []).
Proof. repeat split. Qed.

End geoip_facts.

(** The rest of 172.16.0.0/12: for a second octet from 17 to 31 the address
    is RFC 1918 private, and the reader is asked about it. *)
Lemma enrich_ip_172_17_to_31 (city : geoip.reader) (a2 a3 a4 : Z) :
  17 <= a2 <= 31 ->
  geoip.is_rfc1918 (172, a2, a3, a4) = true /\
  snd (geoip.enrich_ip (Some city) (geoip.ipv4_str (172, a2, a3, a4)))
  = [geoip.ipv4_str (172, a2, a3, a4)].
Proof.
  intros H.
  assert (Hc : a2 = 17 \/ a2 = 18 \/ a2 = 19 \/ a2 = 20 \/ a2 = 21 \/ a2 = 22 \/ a2 = 23 \/
               a2 = 24 \/ a2 = 25 \/ a2 = 26 \/ a2 = 27 \/ a2 = 28 \/ a2 = 29 \/ a2 = 30 \/
               a2 = 31) by lia.
  repeat (destruct Hc as [-> | Hc]); try subst a2;
    (split; [reflexivity|]);
    unfold geoip.enrich_ip; cbn [geoip.ipv4_str];
    match goal with
    | |- context [city ?ip] => destruct (city ip) as [r|[]]; reflexivity
    end.
Qed.

(** C4 fails on the code at 172.20.0.1: the address is RFC 1918 private,
    yet [enrich_ip] hands it to the reader and answers with what the reader
    says, or with the UNKNOWN marker when there is no reader. *)
Theorem enrich_ip_172_20_not_private (city : geoip.reader) :
  geoip.is_rfc1918 (172, 20, 0, 1) = true
  /\ geoip.ipv4_str (172, 20, 0, 1) = "172.20.0.1"
  /\ snd (geoip.enrich_ip (Some city) "172.20.0.1") = ["172.20.0.1"]
  /\ geoip.enrich_ip None "172.20.0.1" = (geoip.UNKNOWN, [])
  /\ geoip.enrich_ip (Some (fun _ => Raise AddressNotFoundError)) "172.20.0.1"
     = (geoip.UNKNOWN, ["172.20.0.1"]).
Proof.
  repeat split.
  unfold geoip.enrich_ip. cbn.
  destruct (city "172.20.0.1") as [r|[]]; reflexivity.
Qed.

(* ===================================================================== *)
(** * Properties of the certificate parser                                *)
(* ===================================================================== *)

Section tls_parser_facts.

Import tls_parser.

Variable b64decode : string -> result (list Byte.byte).
Variable load_der_x509_certificate : list Byte.byte -> result certificate.
Variable str_of_exn : exn -> string.

(** A certificate that loads and answers every query is reported
    self-signed exactly when its issuer and subject names are equal, and its
    [valid_to] is the ISO text of its end date. *)
Lemma parse_certificate_fields (cert_der_b64 : string) (der : list Byte.byte)
    (cert : certificate) (subject_name issuer_name : name) (valid_to : datetime.t) :
  b64decode cert_der_b64 = Ok der ->
  load_der_x509_certificate der = Ok cert ->
  read_failure cert = None ->
  subject cert = Ok subject_name ->
  issuer cert = Ok issuer_name ->
  not_valid_after_utc cert = Ok valid_to ->
  let d := parse_certificate b64decode load_der_x509_certificate str_of_exn cert_der_b64 in
  dict_lookup "self_signed" d = Some (VBool (bool_decide (issuer_name = subject_name)))
  /\ dict_lookup "valid_to" d = Some (VStr (datetime.isoformat valid_to)).
Proof.
  intros Hd Hl Hr Hs Hi Hv d. subst d. unfold parse_certificate.
  rewrite Hd. cbv [mbind result_bind]. rewrite Hl.
  unfold read_failure in Hr. rewrite Hs, Hi, Hv in *. cbv [try_except].
  destruct (subject_alt_name cert) as [names|e].
  - destruct (cert_public_key cert) as [[| |]|]; try discriminate;
      destruct (not_valid_before_utc cert); try discriminate; split; reflexivity.
  - destruct (bool_decide (e = ExtensionNotFound)); [|discriminate].
    destruct (cert_public_key cert) as [[| |]|]; try discriminate;
      destruct (not_valid_before_utc cert); try discriminate; split; reflexivity.
Qed.

(** A query that raises on a loaded certificate yields the error marker. *)
Lemma parse_certificate_read_error (cert_der_b64 : string) (der : list Byte.byte)
    (cert : certificate) (e : exn) :
  b64decode cert_der_b64 = Ok der ->
  load_der_x509_certificate der = Ok cert ->
  read_failure cert = Some e ->
  parse_certificate b64decode load_der_x509_certificate str_of_exn cert_der_b64
  = [("error", VStr (str_of_exn e))].
Proof.
  intros Hd Hl. unfold parse_certificate, read_failure.
  rewrite Hd. cbv [mbind result_bind]. rewrite Hl. cbv [try_except].
  destruct (subject cert) as [sn|e0]; [|intros [= ->]; reflexivity].
  destruct (issuer cert) as [isn|e0]; [|intros [= ->]; reflexivity].
  destruct (subject_alt_name cert) as [names|e0].
  - destruct (cert_public_key cert) as [pk|e1]; [|intros [= ->]; reflexivity].
    destruct (not_valid_before_utc cert) as [vf|e1];
      [|intros [= ->]; destruct pk; reflexivity].
    destruct (not_valid_after_utc cert) as [vt|e1]; [discriminate|].
    intros [= ->]. destruct pk; reflexivity.
  - destruct (bool_decide (e0 = ExtensionNotFound)); [|intros [= ->]; reflexivity].
    destruct (cert_public_key cert) as [pk|e1]; [|intros [= ->]; reflexivity].
    destruct (not_valid_before_utc cert) as [vf|e1];
      [|intros [= ->]; destruct pk; reflexivity].
    destruct (not_valid_after_utc cert) as [vt|e1]; [discriminate|].
    intros [= ->]. destruct pk; reflexivity.
Qed.

(** A failure to decode or to load yields the error marker. *)
Lemma parse_certificate_error (cert_der_b64 : string) (e : exn) :
  (der ← b64decode cert_der_b64; load_der_x509_certificate der) = Raise e ->
  parse_certificate b64decode load_der_x509_certificate str_of_exn cert_der_b64
  = [("error", VStr (str_of_exn e))].
Proof.
  unfold parse_certificate. cbv [mbind result_bind].
  destruct (b64decode cert_der_b64) as [der|e1].
  - destruct (load_der_x509_certificate der) as [c|e2]; [discriminate|].
    intros [= ->]. reflexivity.
  - intros [= ->]. reflexivity.
Qed.

End tls_parser_facts.

(* ===================================================================== *)
(** * Properties of the trust gateway                                     *)
(* ===================================================================== *)

Section trust_gateway_facts.

Import base64 ingest.

Variable VerifyKey : Type.
Variable b64decode : string -> result bytes.
Variable verify : VerifyKey -> bytes -> bytes -> result bytes.
Variable public_keys : gmap string VerifyKey.

Local Abbreviation verify_signature :=
  (_verify_signature VerifyKey b64decode verify public_keys).

(** An unknown collector is rejected. *)
Lemma verify_signature_unknown (event_data : bytes) (signature_b64 collector_id : string) :
  public_keys !! collector_id = None ->
  verify_signature event_data signature_b64 collector_id = Ok false.
Proof. intros H. unfold _verify_signature. rewrite H. reflexivity. Qed.

(** Once the signature text decodes, the answer is a boolean, and it is [True]
    exactly when the verifier accepts. *)
Lemma verify_signature_decoded (event_data signature : bytes)
    (signature_b64 collector_id : string) (verify_key : VerifyKey) :
  public_keys !! collector_id = Some verify_key ->
  b64decode signature_b64 = Ok signature ->
  verify_signature event_data signature_b64 collector_id
  = Ok (is_ok (verify verify_key event_data signature)).
Proof.
  intros Hk Hd. unfold _verify_signature. rewrite Hk, Hd. cbv [mbind result_bind].
  destruct (verify verify_key event_data signature) as [m|[]]; reflexivity.
Qed.

(** [True] is answered only for a registered collector whose signature
    decodes and verifies. *)
Lemma verify_signature_true (event_data : bytes) (signature_b64 collector_id : string) :
  verify_signature event_data signature_b64 collector_id = Ok true ->
  exists verify_key signature,
    public_keys !! collector_id = Some verify_key /\
    b64decode signature_b64 = Ok signature /\
    is_ok (verify verify_key event_data signature) = true.
Proof.
  unfold _verify_signature.
  destruct (public_keys !! collector_id) as [k|]; [|discriminate].
  destruct (b64decode signature_b64) as [sg|]; [|discriminate].
  cbv [mbind result_bind].
  destruct (verify k event_data sg) as [m|[]] eqn:Hv; try discriminate.
  intros _. exists k, sg. rewrite Hv. auto.
Qed.

(** A signature text that does not decode makes the call raise: the decoding
    is not covered by the [try]. *)
Lemma verify_signature_undecodable (event_data : bytes)
    (signature_b64 collector_id : string) (verify_key : VerifyKey) (e : exn) :
  public_keys !! collector_id = Some verify_key ->
  b64decode signature_b64 = Raise e ->
  verify_signature event_data signature_b64 collector_id = Raise e.
Proof. intros Hk Hd. unfold _verify_signature. rewrite Hk, Hd. reflexivity. Qed.

End trust_gateway_facts.

(** C2 fails on the code at the signature text [abc] (three characters of the
    base64 alphabet, so the padding is incorrect): for a registered collector
    the call raises [binascii.Error] instead of returning [False]. *)
Theorem verify_signature_raises_on_bad_padding (VerifyKey : Type)
    (verify : VerifyKey -> base64.bytes -> base64.bytes -> result base64.bytes)
    (public_keys : gmap string VerifyKey) (verify_key : VerifyKey)
    (event_data : base64.bytes) (collector_id : string) :
  base64.b64decode "abc" = Raise BinasciiError
  /\ ingest._verify_signature VerifyKey base64.b64decode verify
       (<[collector_id := verify_key]> public_keys) event_data "abc" collector_id
     = Raise BinasciiError.
Proof.
  split; [reflexivity|].
  eapply verify_signature_undecodable; [apply lookup_insert_eq | reflexivity].
Qed.

(* ===================================================================== *)
(** * Properties of the CVE rule matcher                                  *)
(* ===================================================================== *)

Section cve_rules_facts.

Import cve_rules cve_spec.

Variable re_compile : string -> result unit.
Variable re_matches : string -> string -> bool.

Local Abbreviation rule_step := (rule_step re_compile re_matches).
Local Abbreviation rule_loop := (rule_loop re_compile re_matches).
Local Abbreviation http_pass := (http_pass re_compile re_matches).
Local Abbreviation ssh_pass := (ssh_pass re_compile re_matches).
Local Abbreviation match_cves := (match_cves re_compile re_matches).

(** ** Rules that leave the list of matches as it is *)

Lemma rule_step_malformed (key matched_on : string) (text rule : value) (acc : list value) :
  malformed_at re_compile key rule = true ->
  rule_step key matched_on text rule acc = Ok acc.
Proof.
  unfold malformed_at, cve_rules.rule_step.
  destruct rule as [| | | | |d]; try discriminate.
  cbv [contains dict_mem getitem mbind result_bind].
  destruct (dict_lookup key d) as [[| | |p| |]|]; try discriminate.
  cbv [re_search]. destruct (re_compile p) as [u|[]]; try discriminate. reflexivity.
Qed.

Lemma rule_step_no_regex (key matched_on : string) (text rule : value) (acc : list value) :
  no_regex_at key rule = true ->
  rule_step key matched_on text rule acc = Ok acc.
Proof.
  unfold no_regex_at, cve_rules.rule_step.
  destruct rule as [| | | | |d]; try discriminate.
  cbv [contains mbind result_bind]. intros ->%negb_true_iff. reflexivity.
Qed.

Local Abbreviation passed_over := (cve_spec.passed_over re_compile re_matches).

Lemma malformed_rule_passed_over : passed_over (malformed_rule re_compile).
Proof.
  intros key matched_on text rule acc Hkey.
  unfold malformed_rule. intros [[_ H1]%andb_prop H2]%andb_prop.
  destruct Hkey as [-> | ->].
  - apply orb_prop in H1 as [H|H];
      [apply rule_step_malformed | apply rule_step_no_regex]; exact H.
  - apply orb_prop in H2 as [H|H];
      [apply rule_step_malformed | apply rule_step_no_regex]; exact H.
Qed.


Section passing_over.

Variable skip : value -> bool.
Hypothesis skip_passed_over : passed_over skip.

Local Abbreviation keep := (fun rule : value => negb (skip rule)).

Lemma rule_loop_filter (key matched_on : string) (text : value) (rules acc : list value) :
  key = "server_regex" \/ key = "ssh_banner_regex" ->
  rule_loop key matched_on text rules acc
  = rule_loop key matched_on text (List.filter keep rules) acc.
Proof.
  intros Hkey. revert acc.
  induction rules as [|rule rest IH]; intros acc; [reflexivity|].
  cbn [List.filter cve_rules.rule_loop].
  destruct (skip rule) eqn:Hs; cbn [negb].
  - rewrite (skip_passed_over key matched_on text rule acc Hkey Hs).
    cbv [mbind result_bind]. apply IH.
  - cbn [cve_rules.rule_loop].
    destruct (rule_step key matched_on text rule acc) as [acc'|e];
      cbv [mbind result_bind]; [apply IH | reflexivity].
Qed.

Lemma http_pass_filter (rules : list value) (probes : value) (acc : list value) :
  http_pass rules probes acc = http_pass (List.filter keep rules) probes acc.
Proof.
  unfold cve_rules.http_pass.
  destruct (contains "http" probes) as [[|]|]; cbv [mbind result_bind]; try reflexivity.
  destruct (getitem probes "http") as [http|]; try reflexivity.
  destruct (contains "headers" http) as [[|]|]; try reflexivity.
  destruct (get http "headers" (VDict [])) as [headers|]; try reflexivity.
  destruct (get headers "Server" (VStr "")) as [server|]; try reflexivity.
  destruct (truthy server); [|reflexivity].
  apply rule_loop_filter. auto.
Qed.

Lemma ssh_pass_filter (rules : list value) (probes : value) (acc : list value) :
  ssh_pass rules probes acc = ssh_pass (List.filter keep rules) probes acc.
Proof.
  unfold cve_rules.ssh_pass.
  destruct (contains "ssh_banner" probes) as [[|]|]; cbv [mbind result_bind]; try reflexivity.
  destruct (getitem probes "ssh_banner") as [ssh|]; try reflexivity.
  destruct (contains "Banner" ssh) as [[|]|]; try reflexivity.
  destruct (get ssh "Banner" (VStr "")) as [banner|]; try reflexivity.
  destruct (truthy banner); [|reflexivity].
  apply rule_loop_filter. auto.
Qed.

Lemma match_cves_filter (rules : list value) (probes : value) :
  match_cves rules probes = match_cves (List.filter keep rules) probes.
Proof.
  unfold cve_rules.match_cves. rewrite <- http_pass_filter.
  destruct (http_pass rules probes []) as [acc|e]; cbv [mbind result_bind]; [|reflexivity].
  rewrite <- ssh_pass_filter. reflexivity.
Qed.

End passing_over.

(** ** Rules rewritten without changing their turns of the loops *)

Section rewriting.

Variable g : value -> value.
Hypothesis g_same_step :
  forall key matched_on text rule acc,
    (key = "server_regex" \/ key = "ssh_banner_regex") ->
    rule_step key matched_on text (g rule) acc = rule_step key matched_on text rule acc.

Lemma rule_loop_map (key matched_on : string) (text : value) (rules acc : list value) :
  key = "server_regex" \/ key = "ssh_banner_regex" ->
  rule_loop key matched_on text (map g rules) acc = rule_loop key matched_on text rules acc.
Proof.
  intros Hkey. revert acc.
  induction rules as [|rule rest IH]; intros acc; [reflexivity|].
  cbn [map cve_rules.rule_loop]. rewrite g_same_step by exact Hkey.
  destruct (rule_step key matched_on text rule acc) as [acc'|e];
    cbv [mbind result_bind]; [apply IH | reflexivity].
Qed.

Lemma match_cves_map (rules : list value) (probes : value) :
  match_cves (map g rules) probes = match_cves rules probes.
Proof.
  unfold cve_rules.match_cves, cve_rules.http_pass, cve_rules.ssh_pass.
  assert (Hh : forall text acc,
             rule_loop "server_regex" "http_server_header" text (map g rules) acc
             = rule_loop "server_regex" "http_server_header" text rules acc)
    by (intros; apply rule_loop_map; auto).
  assert (Hs : forall text acc,
             rule_loop "ssh_banner_regex" "ssh_banner" text (map g rules) acc
             = rule_loop "ssh_banner_regex" "ssh_banner" text rules acc)
    by (intros; apply rule_loop_map; auto).
  destruct (contains "http" probes) as [[|]|]; cbv [mbind result_bind]; try reflexivity.
  - destruct (getitem probes "http") as [http|]; try reflexivity.
    destruct (contains "headers" http) as [[|]|]; try reflexivity.
    + destruct (get http "headers" (VDict [])) as [headers|]; try reflexivity.
      destruct (get headers "Server" (VStr "")) as [server|]; try reflexivity.
      destruct (truthy server).
      * rewrite Hh.
        destruct (rule_loop "server_regex" "http_server_header" server rules [])
          as [acc|]; try reflexivity.
        destruct (contains "ssh_banner" probes) as [[|]|]; try reflexivity.
        destruct (getitem probes "ssh_banner") as [ssh|]; try reflexivity.
        destruct (contains "Banner" ssh) as [[|]|]; try reflexivity.
        destruct (get ssh "Banner" (VStr "")) as [banner|]; try reflexivity.
        destruct (truthy banner); [rewrite Hs|]; reflexivity.
      * destruct (contains "ssh_banner" probes) as [[|]|]; try reflexivity.
        destruct (getitem probes "ssh_banner") as [ssh|]; try reflexivity.
        destruct (contains "Banner" ssh) as [[|]|]; try reflexivity.
        destruct (get ssh "Banner" (VStr "")) as [banner|]; try reflexivity.
        destruct (truthy banner); [rewrite Hs|]; reflexivity.
    + destruct (contains "ssh_banner" probes) as [[|]|]; try reflexivity.
      destruct (getitem probes "ssh_banner") as [ssh|]; try reflexivity.
      destruct (contains "Banner" ssh) as [[|]|]; try reflexivity.
      destruct (get ssh "Banner" (VStr "")) as [banner|]; try reflexivity.
      destruct (truthy banner); [rewrite Hs|]; reflexivity.
  - destruct (contains "ssh_banner" probes) as [[|]|]; try reflexivity.
    destruct (getitem probes "ssh_banner") as [ssh|]; try reflexivity.
    destruct (contains "Banner" ssh) as [[|]|]; try reflexivity.
    destruct (get ssh "Banner" (VStr "")) as [banner|]; try reflexivity.
    destruct (truthy banner); [rewrite Hs|]; reflexivity.
Qed.

End rewriting.

Lemma dict_lookup_remove_eq (k : string) (d : dict) : dict_lookup k (dict_remove k d) = None.
Proof.
  induction d as [|[k0 v0] rest IH]; [reflexivity|].
  cbn [dict_remove]. destruct (String.eqb_spec k k0) as [->|Hne]; [exact IH|].
  cbn [dict_lookup]. destruct (String.eqb_spec k k0); [congruence | exact IH].
Qed.

Lemma dict_lookup_remove_ne (k k' : string) (d : dict) :
  k <> k' -> dict_lookup k' (dict_remove k d) = dict_lookup k' d.
Proof.
  intros Hne. induction d as [|[k0 v0] rest IH]; [reflexivity|].
  cbn [dict_remove]. destruct (String.eqb_spec k k0) as [->|Hk]; cbn [dict_lookup].
  - destruct (String.eqb_spec k' k0); [congruence | exact IH].
  - destruct (String.eqb_spec k' k0); [reflexivity | exact IH].
Qed.

Lemma strip_at_other (key k : string) (d : dict) :
  key <> k -> dict_lookup k (strip_at re_compile key d) = dict_lookup k d.
Proof.
  intros Hne. unfold strip_at.
  destruct (malformed_at re_compile key (VDict d)); [|reflexivity].
  apply dict_lookup_remove_ne. exact Hne.
Qed.

(** A turn of a loop reads four entries of the rule, no more. *)
Lemma rule_step_reads (key matched_on : string) (text : value) (d d' : dict)
    (acc : list value) :
  dict_lookup key d' = dict_lookup key d ->
  dict_lookup "cve_id" d' = dict_lookup "cve_id" d ->
  dict_lookup "severity" d' = dict_lookup "severity" d ->
  dict_lookup "description" d' = dict_lookup "description" d ->
  rule_step key matched_on text (VDict d') acc = rule_step key matched_on text (VDict d) acc.
Proof.
  intros Hk Hc Hs Hd. unfold cve_rules.rule_step, match_entry.
  cbv [contains dict_mem getitem get]. rewrite Hk, Hc, Hs, Hd. reflexivity.
Qed.

Lemma strip_malformed_same_step (key matched_on : string) (text rule : value)
    (acc : list value) :
  key = "server_regex" \/ key = "ssh_banner_regex" ->
  rule_step key matched_on text (strip_malformed re_compile rule) acc
  = rule_step key matched_on text rule acc.
Proof.
  intros Hkey. destruct rule as [| | | | |d]; try reflexivity.
  cbn [strip_malformed].
  set (d1 := strip_at re_compile "server_regex" d).
  destruct (malformed_at re_compile key (VDict d)) eqn:Hm.
  - rewrite (rule_step_malformed key matched_on text (VDict d) acc Hm).
    apply rule_step_no_regex. unfold no_regex_at, dict_mem.
    destruct Hkey as [-> | ->].
    + rewrite strip_at_other by discriminate. subst d1. unfold strip_at. rewrite Hm.
      rewrite dict_lookup_remove_eq. reflexivity.
    + assert (Hm1 : malformed_at re_compile "ssh_banner_regex" (VDict d1) = true).
      { unfold malformed_at in *. subst d1. rewrite strip_at_other by discriminate. exact Hm. }
      unfold strip_at. rewrite Hm1, dict_lookup_remove_eq. reflexivity.
  - apply rule_step_reads.
    + destruct Hkey as [-> | ->].
      * rewrite strip_at_other by discriminate. subst d1. unfold strip_at. rewrite Hm.
        reflexivity.
      * assert (Hm1 : malformed_at re_compile "ssh_banner_regex" (VDict d1) = false).
        { unfold malformed_at in *. subst d1. rewrite strip_at_other by discriminate.
          exact Hm. }
        unfold strip_at at 1. rewrite Hm1. subst d1. apply strip_at_other. discriminate.
    + subst d1. rewrite !strip_at_other by discriminate. reflexivity.
    + subst d1. rewrite !strip_at_other by discriminate. reflexivity.
    + subst d1. rewrite !strip_at_other by discriminate. reflexivity.
Qed.

(** ** Sound rules and well-typed probes never raise *)

Lemma rule_sound_typed (rule : value) : rule_sound re_compile rule = true -> rule_typed rule = true.
Proof.
  unfold rule_sound, rule_typed, absent_or_handled, absent_or_str, escaping.
  destruct rule as [| | | | |d]; try discriminate.
  intros [H1 H2]%andb_prop. apply andb_true_intro. split.
  - destruct (dict_lookup "server_regex" d) as [[| | |p| |]|]; try discriminate; reflexivity.
  - destruct (dict_lookup "ssh_banner_regex" d) as [[| | |p| |]|]; try discriminate; reflexivity.
Qed.

Lemma rule_step_typed (key matched_on text : string) (rule : value) (acc : list value) :
  key = "server_regex" \/ key = "ssh_banner_regex" ->
  rule_sound re_compile rule = true ->
  is_ok (rule_step key matched_on (VStr text) rule acc) = true.
Proof.
  intros Hkey. unfold rule_sound, absent_or_handled, escaping, cve_rules.rule_step.
  destruct rule as [| | | | |d]; try discriminate.
  intros [H1 H2]%andb_prop.
  cbv [contains dict_mem getitem mbind result_bind].
  assert (H : match dict_lookup key d with
              | None => true
              | Some pattern =>
                  match (match pattern with
                         | VStr p => match re_compile p with
                                     | Ok _ | Raise ReError => None
                                     | Raise e => Some e
                                     end
                         | _ => Some TypeError
                         end) with None => true | Some _ => false end
              end = true) by (destruct Hkey as [-> | ->]; assumption).
  destruct (dict_lookup key d) as [[| | |p| |]|]; try discriminate; [|reflexivity].
  cbv [re_search try_except mbind result_bind].
  destruct (re_compile p) as [u|[]]; try discriminate; [|reflexivity].
  destruct (re_matches p text); reflexivity.
Qed.

Lemma rule_loop_typed (key matched_on text : string) (rules acc : list value) :
  key = "server_regex" \/ key = "ssh_banner_regex" ->
  forallb (rule_sound re_compile) rules = true ->
  is_ok (rule_loop key matched_on (VStr text) rules acc) = true.
Proof.
  intros Hkey. revert acc.
  induction rules as [|rule rest IH]; intros acc Ht; [reflexivity|].
  cbn [forallb] in Ht. apply andb_prop in Ht as [Hr Hrest].
  cbn [cve_rules.rule_loop].
  pose proof (rule_step_typed key matched_on text rule acc Hkey Hr) as Hs.
  destruct (rule_step key matched_on (VStr text) rule acc) as [acc'|e]; [|discriminate].
  cbv [mbind result_bind]. apply IH. exact Hrest.
Qed.

Lemma match_cves_typed (rules : list value) (probes : value) :
  forallb (rule_sound re_compile) rules = true ->
  probes_typed probes = true ->
  is_ok (match_cves rules probes) = true.
Proof.
  intros Hr. unfold probes_typed, field_typed, absent_or_str.
  destruct probes as [| | | | |d]; try discriminate.
  intros [Hhttp Hssh]%andb_prop.
  assert (Hp : forall acc, is_ok (http_pass rules (VDict d) acc) = true).
  { intros acc. unfold cve_rules.http_pass.
    cbv [contains dict_mem getitem get mbind result_bind].
    destruct (dict_lookup "http" d) as [[| | | | |h]|]; try discriminate; [|reflexivity].
    destruct (dict_lookup "headers" h) as [[| | | | |hd]|]; try discriminate; [|reflexivity].
    destruct (dict_lookup "Server" hd) as [[| | |sv| |]|]; try discriminate; [|reflexivity].
    destruct (truthy (VStr sv)); [|reflexivity].
    apply rule_loop_typed; auto. }
  assert (Hs : forall acc, is_ok (ssh_pass rules (VDict d) acc) = true).
  { intros acc. unfold cve_rules.ssh_pass.
    cbv [contains dict_mem getitem get mbind result_bind].
    destruct (dict_lookup "ssh_banner" d) as [[| | | | |sb]|]; try discriminate; [|reflexivity].
    destruct (dict_lookup "Banner" sb) as [[| | |bn| |]|]; try discriminate; [|reflexivity].
    destruct (truthy (VStr bn)); [|reflexivity].
    apply rule_loop_typed; auto. }
  unfold cve_rules.match_cves. specialize (Hp []).
  destruct (http_pass rules (VDict d) []) as [acc|e]; [|discriminate].
  cbv [mbind result_bind]. specialize (Hs acc).
  destruct (ssh_pass rules (VDict d) acc) as [acc'|e]; [reflexivity|discriminate].
Qed.

(** ** What a match records *)




(** What the handler of [re.error] achieves: a rule whose every regex is
    rejected with [re.error] can be struck from the list, and a regex that is
    rejected with [re.error] can be struck from its rule, without changing
    what [match_cves] returns or raises; and on sound rules and well-typed
    probes [match_cves] returns. *)
Lemma match_cves_skips_re_error (rules : list value) (probes : value) :
  match_cves rules probes
  = match_cves (List.filter (fun rule => negb (malformed_rule re_compile rule)) rules) probes
  /\ match_cves rules probes = match_cves (map (strip_malformed re_compile) rules) probes
  /\ (forallb (rule_sound re_compile) rules = true -> probes_typed probes = true ->
      is_ok (match_cves rules probes) = true).
Proof.
  split; [|split].
  - apply match_cves_filter, malformed_rule_passed_over.
  - symmetry. apply match_cves_map. intros. apply strip_malformed_same_step. assumption.
  - apply match_cves_typed.
Qed.

(** ** Probe fields other than [http] and [ssh_banner] *)

Lemma dict_lookup_set_ne (k k' : string) (v : value) (d : dict) :
  k <> k' -> dict_lookup k' (dict_set k v d) = dict_lookup k' d.
Proof.
  intros Hne. induction d as [|[k0 v0] rest IH]; cbn [dict_set dict_lookup].
  - destruct (String.eqb_spec k' k); [congruence | reflexivity].
  - destruct (String.eqb_spec k k0) as [->|Hk]; cbn [dict_lookup].
    + destruct (String.eqb_spec k' k0); [congruence | reflexivity].
    + destruct (String.eqb_spec k' k0); [reflexivity | exact IH].
Qed.



End cve_rules_facts.

(** ** The statements at sample rules *)

Import cve_spec.

Local Abbreviation match_cves_ref :=
  (cve_rules.match_cves cve_rules.re_compile_ref cve_rules.re_matches_ref).

(** The rule of the specification matches [nginx/1.18.0], not
    [nginx/1.20.0]; a rule with an unclosed parenthesis before it changes
    nothing. *)
Example match_cves_nginx :
  match_cves_ref [rule_nginx] (probes_http "nginx/1.18.0") = Ok [nginx_match]
  /\ match_cves_ref [rule_nginx] (probes_http "nginx/1.20.0") = Ok []
  /\ cve_rules.re_compile_ref "nginx/(1\.18" = Raise ReError
  /\ match_cves_ref [rule_broken; rule_nginx] (probes_http "nginx/1.18.0") = Ok [nginx_match].
Proof. repeat split. Qed.

(** A rule with one broken and one sound regex: the broken one is passed
    over, the sound one still matches. *)
Example match_cves_mixed_rule :
  match_cves_ref [rule_mixed]
    (VDict [ ("http", VDict [("headers", VDict [("Server", VStr "Apache/2.4")])]);
             ("ssh_banner", VDict [("Banner", VStr "SSH-2.0-OpenSSH_7.4")]) ])
  = Ok [ VDict [ ("cve_id", VStr "CVE-TEST-4"); ("severity", VStr "UNKNOWN");
                 ("description", VStr "No description provided.");
                 ("matched_on", VStr "ssh_banner");
                 ("matched_value", VStr "SSH-2.0-OpenSSH_7.4") ] ].
Proof. reflexivity. Qed.



(* ===================================================================== *)
(** * Properties of the sink                                              *)
(* ===================================================================== *)

Section sink_facts.

Import base64 ingest.

Variable render_id : value -> string.
Variable auto_id : gmap (string * string) dict -> string.
Variable writable : string -> bool.
Variable canonical_json : dict -> bytes.
Variable cfg : Config.

Local Abbreviation write_to_opensearch := (_write_to_opensearch render_id auto_id cfg).
Local Abbreviation archive_canonical_json := (_archive_canonical_json writable cfg).
Local Abbreviation sink_write := (sink_write render_id auto_id writable canonical_json cfg).

(** With the service answering, the document lands under its id in the index
    of the current month, and no other document changes. *)
Lemma write_to_opensearch_documents (now : datetime.t) (doc : dict) (id : string)
    (os : opensearch) :
  dict_lookup "id" doc = Some (VStr id) ->
  documents (write_to_opensearch now NoFault doc os)
  = <[(index_name cfg now, render_id (VStr id)) := doc]> (documents os).
Proof.
  intros Hid. unfold _write_to_opensearch, indices_exists, indices_create, index_doc, getitem.
  rewrite Hid.
  destruct (indices os !! index_name cfg now) as [m|] eqn:Hi.
  - rewrite bool_decide_true by eauto. cbn [negb indices]. rewrite Hi. reflexivity.
  - rewrite bool_decide_false by (intros [? ?]; discriminate). cbn [negb indices].
    rewrite lookup_insert_eq. reflexivity.
Qed.

(** A request that fails leaves the documents as they are. *)
Lemma write_to_opensearch_fault (now : datetime.t) (f : fault) (doc : dict) (os : opensearch) :
  f = FailExists \/ f = FailIndex \/
  (f = FailCreate /\ indices os !! index_name cfg now = None) ->
  documents (write_to_opensearch now f doc os) = documents os.
Proof.
  unfold _write_to_opensearch, indices_exists, indices_create, index_doc.
  intros [-> | [-> | [-> Hi]]].
  - reflexivity.
  - destruct (bool_decide _); cbn [negb].
    + destruct (getitem (VDict doc) "id"); reflexivity.
    + destruct (indices os !! index_name cfg now); [reflexivity|].
      destruct (getitem (VDict doc) "id"); reflexivity.
  - rewrite Hi. rewrite bool_decide_false by (intros [? ?]; discriminate). reflexivity.
Qed.

Lemma archive_canonical_json_ok (event_id : string) (content : bytes) (fs : files) :
  writable (archive_file cfg event_id) = true ->
  archive_canonical_json event_id content fs
  = Ok (<[archive_file cfg event_id := content]> fs).
Proof. intros H. unfold _archive_canonical_json. fold (archive_file cfg event_id). rewrite H. reflexivity. Qed.

(** C8 (as amended).  Two sink writes of documents with the same id, the
    service answering and the archive file writable: the archive ends as if
    only the second document had been written (one file for the id, holding
    the second document, and no file more than after the first write), and
    the index of the month of the second write holds the second document
    under the id.  When both writes fall in one month, the second replaces
    the first in the index and adds no document; when they fall in different
    months, the index of the earlier month keeps the first document under
    the id. *)
Theorem sink_write_same_id_twice (now1 now2 : datetime.t) (event_id : string)
    (doc1 doc2 : dict) (w0 : opensearch * files) :
  dict_lookup "id" doc1 = Some (VStr event_id) ->
  dict_lookup "id" doc2 = Some (VStr event_id) ->
  writable (archive_file cfg event_id) = true ->
  let w1 := sink_write now1 NoFault event_id doc1 w0 in
  let w2 := sink_write now2 NoFault event_id doc2 w1 in
  snd w2 = <[archive_file cfg event_id := canonical_json doc2]> (snd w0)
  /\ snd w2 !! archive_file cfg event_id = Some (canonical_json doc2)
  /\ dom (snd w2) = dom (snd w1)
  /\ documents (fst w2) !! (index_name cfg now2, render_id (VStr event_id)) = Some doc2
  /\ (index_name cfg now1 = index_name cfg now2 ->
      documents (fst w2)
      = <[(index_name cfg now2, render_id (VStr event_id)) := doc2]> (documents (fst w0))
      /\ dom (documents (fst w2)) = dom (documents (fst w1)))
  /\ (index_name cfg now1 <> index_name cfg now2 ->
      documents (fst w2) !! (index_name cfg now1, render_id (VStr event_id)) = Some doc1).
Proof.
  intros Hid1 Hid2 Hw w1 w2. subst w1 w2. unfold ingest.sink_write.
  rewrite !archive_canonical_json_ok by exact Hw. cbn [fst snd].
  rewrite !(write_to_opensearch_documents _ _ event_id) by assumption.
  repeat split.
  - apply insert_insert_eq.
  - apply lookup_insert_eq.
  - rewrite !dom_insert_L, (assoc_L (∪)), union_idemp_L. reflexivity.
  - apply lookup_insert_eq.
  - rewrite H. apply insert_insert_eq.
  - rewrite H. rewrite !dom_insert_L, (assoc_L (∪)), union_idemp_L. reflexivity.
  - intros Hne. rewrite lookup_insert_ne by congruence. apply lookup_insert_eq.
Qed.

End sink_facts.

Lemma sink_write_same_id_twice_witness :
  let cfg := ingest.default_config in
  let sink := ingest.sink_write ingest.render_id_ref (fun _ => "auto") (fun _ => true)
                json.canonical cfg in
  let now1 := datetime.mk 2026 1 15 9 0 0 0 (Some 0) in
  let now2 := datetime.mk 2026 1 31 23 59 59 0 (Some 0) in
  let doc1 := risk_spec.telnet_event "Germany" in
  let doc2 := risk_spec.telnet_event "France" in
  let w1 := sink now1 ingest.NoFault "e-1" doc1 ingest.empty_world in
  let w2 := sink now2 ingest.NoFault "e-1" doc2 w1 in
  (dict_lookup "id" doc1 = Some (VStr "e-1")
   /\ dict_lookup "id" doc2 = Some (VStr "e-1")
   /\ ingest.archive_file cfg "e-1" = "./archive/e-1.json")
  /\ snd w2 = <["./archive/e-1.json" := json.canonical doc2]> ∅
  /\ snd w2 !! "./archive/e-1.json" = Some (json.canonical doc2)
  /\ dom (snd w2) = dom (snd w1)
  /\ ingest.documents (fst w2) !! ("asset-intelligence-2026-01", "e-1") = Some doc2
  /\ (ingest.index_name cfg now1 = ingest.index_name cfg now2 ->
      ingest.documents (fst w2) = <[("asset-intelligence-2026-01", "e-1") := doc2]> ∅
      /\ dom (ingest.documents (fst w2)) = dom (ingest.documents (fst w1)))
  /\ (ingest.index_name cfg now1 <> ingest.index_name cfg now2 ->
      ingest.documents (fst w2) !! ("asset-intelligence-2026-01", "e-1") = Some doc1).
Proof.
  intros cfg sink now1 now2 doc1 doc2 w1 w2.
  split; [repeat split|].
  apply (sink_write_same_id_twice ingest.render_id_ref (fun _ => "auto") (fun _ => true)
           json.canonical cfg now1 now2 "e-1" doc1 doc2 ingest.empty_world);
    reflexivity.
Defined.

(** C8 as stated fails: the index name holds the month of the write, so two
    writes of one id on either side of a month end leave two documents with
    the id in the index, and the one of the earlier month does not reflect
    the latest write. *)
Lemma sink_write_across_month_end :
  let cfg := ingest.default_config in
  let sink := ingest.sink_write ingest.render_id_ref (fun _ => "auto") (fun _ => true)
                json.canonical cfg in
  let jan := datetime.mk 2026 1 31 23 59 59 0 (Some 0) in
  let feb := datetime.mk 2026 2 1 0 0 1 0 (Some 0) in
  let doc1 := risk_spec.telnet_event "Germany" in
  let doc2 := risk_spec.telnet_event "France" in
  let w2 := sink feb ingest.NoFault "e-1" doc2
              (sink jan ingest.NoFault "e-1" doc1 ingest.empty_world) in
  ingest.documents (fst w2) !! ("asset-intelligence-2026-01", "e-1") = Some doc1
  /\ ingest.documents (fst w2) !! ("asset-intelligence-2026-02", "e-1") = Some doc2
  /\ size (ingest.documents (fst w2)) = 2%nat
  /\ ~ (forall index doc, ingest.documents (fst w2) !! (index, "e-1") = Some doc -> doc = doc2).
Proof.
  intros cfg sink jan feb doc1 doc2 w2.
  assert (H1 : ingest.documents (fst w2) !! ("asset-intelligence-2026-01", "e-1") = Some doc1)
    by (vm_compute; reflexivity).
  split; [exact H1|]. split; [vm_compute; reflexivity|]. split; [vm_compute; reflexivity|].
  intros H. specialize (H _ _ H1). discriminate.
Qed.

(* ===================================================================== *)
(** * Properties of the banner capture                                    *)
(* ===================================================================== *)

Section scanner_facts.

Import base64 scanner.

Lemma slice_to_length (n : nat) (s : unicode.str) : (length (unicode.slice_to n s) <= n)%nat.
Proof. unfold unicode.slice_to. rewrite length_firstn. lia. Qed.

(** C9 (as amended).  Whatever bytes the socket delivers, if there is at
    least one, the banner returned is the text of the bytes decoded with the
    undecodable runs dropped, stripped of surrounding white space and cut to
    500 characters; the capture does not fail, and it counts one detected
    service. *)
Theorem grab_banner_drops_undecodable (st : stats) (sock : socket) (port : Z) (banner : bytes) :
  setblocking sock false = Ok tt ->
  (port = 80 \/ port = 8080 -> is_ok (send sock http_probe) = true) ->
  recv sock 1024 = Ok banner ->
  banner <> [] ->
  let text := unicode.slice_to 500 (unicode.strip (unicode.decode_ignore banner)) in
  grab_banner st sock port
  = Ok (Some text, mk_stats (scanned st) (open_ports st) (services_detected st + 1))
  /\ (length text <= 500)%nat.
Proof.
  intros Hb Hs Hr Hne text. split; [|apply slice_to_length].
  unfold grab_banner. rewrite Hb. cbv [mbind result_bind].
  assert (Hsend : exists n,
             (if (port =? 80) || (port =? 8080) then send sock http_probe
              else if port =? 22 then Ok 0 else if port =? 21 then Ok 0
              else if port =? 25 then Ok 0 else Ok 0) = Ok n).
  { destruct ((port =? 80) || (port =? 8080)) eqn:Hp.
    - apply orb_prop in Hp. rewrite !Z.eqb_eq in Hp. specialize (Hs Hp).
      destruct (send sock http_probe) as [n|]; [eauto | discriminate].
    - destruct (port =? 22), (port =? 21), (port =? 25); eauto. }
  destruct Hsend as [n ->]. rewrite Hr.
  destruct banner as [|b0 rest]; [congruence | reflexivity].
Qed.

(** A socket that fails with an [OSError] gives no banner and no failure. *)
Lemma grab_banner_recv_error (st : stats) (sock : socket) (port : Z) :
  setblocking sock false = Ok tt ->
  port <> 80 -> port <> 8080 ->
  recv sock 1024 = Raise OSError ->
  grab_banner st sock port = Ok (None, st).
Proof.
  intros Hb H80 H8080 Hr. unfold grab_banner. rewrite Hb. cbv [mbind result_bind].
  apply Z.eqb_neq in H80, H8080. rewrite H80, H8080. cbn [orb].
  destruct (port =? 22), (port =? 21), (port =? 25); rewrite Hr; reflexivity.
Qed.

End scanner_facts.

Lemma grab_banner_drops_undecodable_witness :
  let banner := [Byte.x53; Byte.x53; Byte.x48; Byte.xff; Byte.x0a] in
  let sock := scanner.socket_delivering banner in
  (scanner.setblocking sock false = Ok tt
   /\ (22 = 80 \/ 22 = 8080 -> is_ok (scanner.send sock scanner.http_probe) = true)
   /\ scanner.recv sock 1024 = Ok banner
   /\ banner <> [])
  /\ scanner.grab_banner scanner.fresh_stats sock 22
     = Ok (Some [83; 83; 72], scanner.mk_stats 0 0 1)
  /\ (length [83; 83; 72] <= 500)%nat.
Proof.
  intros banner sock.
  split; [repeat split; discriminate|].
  apply (grab_banner_drops_undecodable scanner.fresh_stats sock 22 banner);
    try reflexivity; discriminate.
Defined.

(** C9 as stated fails: on the bytes [41 ff] the banner is the one letter,
    while decoding with replacement gives the letter and U+FFFD; on the byte
    [ff] alone the banner is empty. *)
Lemma grab_banner_does_not_replace :
  let banner := [Byte.x41; Byte.xff] in
  scanner.grab_banner scanner.fresh_stats (scanner.socket_delivering banner) 23
  = Ok (Some [65], scanner.mk_stats 0 0 1)
  /\ unicode.slice_to 500 (unicode.strip (unicode.decode_replace banner)) = [65; 65533]
  /\ scanner.grab_banner scanner.fresh_stats (scanner.socket_delivering [Byte.xff]) 23
     = Ok (Some [], scanner.mk_stats 0 0 1)
  /\ unicode.slice_to 500 (unicode.strip (unicode.decode_replace [Byte.xff])) = [65533].
Proof. repeat split. Qed.

(* ===================================================================== *)
(** * Further properties of the risk scorer                               *)
(* ===================================================================== *)

Section risk_scorer_more.

Import risk_terms.

Variable str_upper : string -> string.
Variable fromisoformat : string -> option datetime.t.
Variable now : datetime.t.

Local Abbreviation get_risk_breakdown := (risk_scorer.get_risk_breakdown str_upper).
Local Abbreviation calculate_risk := (risk_scorer.calculate_risk str_upper).
Local Abbreviation cve_weight := (risk_terms.cve_weight str_upper).

Lemma severity_weight_range (s : string) : 0 <= severity_weight s <= 30.
Proof.
  unfold severity_weight.
  repeat match goal with |- context [String.eqb ?a ?b] => destruct (String.eqb a b) end; lia.
Qed.

Lemma vuln_loop_sum (cves : list value) (acc : Z) :
  forallb has_severity cves = true ->
  vuln_loop str_upper cves acc = Ok (acc + sum (map cve_weight cves)).
Proof.
  revert acc. induction cves as [|cve rest IH]; intros acc H.
  - cbn. f_equal. lia.
  - cbn [forallb] in H. apply andb_prop in H as [Hc Hrest].
    cbn [vuln_loop map sum fold_right]. unfold has_severity, risk_terms.cve_weight in *.
    unfold severity_of in *.
    destruct cve as [| | | | |d]; try discriminate.
    cbv [get mbind result_bind].
    destruct (dict_lookup "severity" d) as [[| | |s| |]|]; try discriminate;
      cbv [upper_m]; rewrite IH by exact Hrest; f_equal; unfold sum; lia.
Qed.

Lemma vuln_loop_nonneg (cves : list value) (acc r : Z) :
  0 <= acc -> vuln_loop str_upper cves acc = Ok r -> 0 <= r.
Proof.
  revert acc. induction cves as [|cve rest IH]; intros acc Hacc.
  - intros [= <-]. exact Hacc.
  - cbn [vuln_loop]. intros H.
    apply bind_ok in H as (sev & _ & H). apply bind_ok in H as (s & _ & H).
    eapply IH; [|exact H]. pose proof (severity_weight_range s). lia.
Qed.

(** X1.  The vulnerability score is the sum of the weights of the CVE
    matches, each weight read from the severity as [str.upper] upper-cases
    it (30 for CRITICAL, 20 for HIGH, 10 for MEDIUM, 5 for LOW, and 0 for
    anything else, a missing severity included), whatever [str.upper] does
    to text that is not ASCII. *)
Theorem vuln_score_is_weighted_sum (event e : dict) (cves : list value) :
  enrichment_of event = Some e ->
  dict_lookup "cve_matches" e = Some (VList cves) ->
  forallb has_severity cves = true ->
  vuln_block str_upper event = Ok (sum (map cve_weight cves))
  /\ forall b, get_risk_breakdown fromisoformat now event = Ok b ->
               vuln_score b = sum (map cve_weight cves).
Proof.
  intros He Hc Hs.
  assert (Hv : vuln_block str_upper event = Ok (sum (map cve_weight cves))).
  { unfold enrichment_of in He. unfold vuln_block, dict_mem, getitem.
    destruct (dict_lookup "enrichment" event) as [[| | | | |e']|]; try discriminate.
    injection He as ->. cbv [mbind result_bind contains getitem dict_mem iterate].
    rewrite Hc. rewrite vuln_loop_sum by exact Hs. f_equal. }
  split; [exact Hv|].
  intros b Hb. apply get_risk_breakdown_blocks in Hb as (_ & _ & Hvb & _). congruence.
Qed.

(** ** Ranges of the components *)

Lemma port_block_range (event : dict) (p : Z) :
  port_block event = Ok p -> p = 0 \/ p = 5 \/ p = 15.
Proof.
  rewrite port_block_of_target_port. intros H.
  apply bind_ok in H as (tp & _ & [= <-]).
  destruct tp as [| b | z | | |]; cbn; auto.
  - destruct b; cbn; auto.
  - unfold in_ints, eq_int; cbn [existsb].
    destruct (Z.eqb_spec z 23) as [->|H23]; [cbn; auto|].
    rewrite !orb_false_r.
    destruct (z =? 21), (z =? 22), (z =? 80), (z =? 443), (z =? 3389); cbn; auto.
Qed.

Lemma service_block_range (event : dict) (sv : Z) :
  service_block event = Ok sv -> sv = 0 \/ sv = 2 \/ sv = 5 \/ sv = 7.
Proof.
  unfold service_block.
  destruct (dict_mem "probes" event); [|intros [= <-]; auto].
  intros H. apply bind_ok in H as (probes & _ & H).
  apply bind_ok in H as (has_http & _ & H).
  apply bind_ok in H as (s1 & Hs1 & H).
  assert (H1 : s1 = 0 \/ s1 = 2).
  { destruct has_http; [|injection Hs1 as <-; auto].
    apply bind_ok in Hs1 as (http & _ & Hs1).
    apply bind_ok in Hs1 as (hd & _ & Hs1).
    apply bind_ok in Hs1 as (sv0 & _ & Hs1).
    apply bind_ok in Hs1 as (sh & _ & Hs1).
    destruct (_ || _); injection Hs1 as <-; auto. }
  apply bind_ok in H as (has_ssh & _ & H).
  destruct has_ssh; [|injection H as <-; destruct H1; auto].
  apply bind_ok in H as (ssh & _ & H).
  apply bind_ok in H as (bn & _ & H).
  apply bind_ok in H as (sb & _ & H).
  destruct (negb _); injection H as <-; destruct H1 as [-> | ->]; auto.
Qed.

Lemma cert_block_range (event : dict) (c : Z) :
  cert_block fromisoformat now event = Ok c -> c = 0 \/ c = 10 \/ c = 15 \/ c = 25.
Proof.
  unfold cert_block.
  destruct (dict_mem "enrichment" event); [|intros [= <-]; auto].
  intros H. apply bind_ok in H as (enr & _ & H).
  apply bind_ok in H as (has & _ & H).
  destruct has; [|injection H as <-; auto].
  apply bind_ok in H as (tls & _ & H).
  apply bind_ok in H as (ss & _ & H).
  apply bind_ok in H as (vt & _ & H).
  destruct (truthy vt).
  - apply bind_ok in H as (raw & _ & H).
    apply bind_ok in H as (dt & _ & H).
    apply bind_ok in H as (ex & _ & H).
    destruct ex, (truthy ss); injection H as <-; auto.
  - destruct (truthy ss); injection H as <-; auto.
Qed.

Lemma exposure_block_range (event : dict) (x : Z) :
  exposure_block event = Ok x -> x = 0 \/ x = 5.
Proof.
  unfold exposure_block.
  destruct (dict_mem "enrichment" event); [|intros [= <-]; auto].
  intros H. apply bind_ok in H as (enr & _ & H).
  apply bind_ok in H as (has & _ & H).
  destruct has; [|injection H as <-; auto].
  apply bind_ok in H as (g & _ & H).
  apply bind_ok in H as (c & _ & H).
  destruct (negb _); injection H as <-; auto.
Qed.

Lemma vuln_block_nonneg (event : dict) (v : Z) : vuln_block str_upper event = Ok v -> 0 <= v.
Proof.
  unfold vuln_block.
  destruct (dict_mem "enrichment" event); [|intros [= <-]; lia].
  intros H. apply bind_ok in H as (enr & _ & H).
  apply bind_ok in H as (has & _ & H).
  destruct has; [|injection H as <-; lia].
  apply bind_ok in H as (ms & _ & H).
  apply bind_ok in H as (cves & _ & H).
  eapply vuln_loop_nonneg; [|exact H]. lia.
Qed.

(** X2.  Every breakdown returned has a port score of 0, 5 or 15, a service
    score of 0, 2, 5 or 7, a certificate score of 0, 10, 15 or 25, an
    exposure score of 0 or 5, a freshness score of 0 and a vulnerability
    score that is not negative; only the vulnerability score is unbounded. *)
Theorem breakdown_component_ranges (event : dict) (b : breakdown) :
  get_risk_breakdown fromisoformat now event = Ok b ->
  (port_score b = 0 \/ port_score b = 5 \/ port_score b = 15)
  /\ (service_score b = 0 \/ service_score b = 2 \/ service_score b = 5 \/ service_score b = 7)
  /\ 0 <= vuln_score b
  /\ (cert_score b = 0 \/ cert_score b = 10 \/ cert_score b = 15 \/ cert_score b = 25)
  /\ (exposure_score b = 0 \/ exposure_score b = 5)
  /\ freshness_score b = 0
  /\ 0 <= sum (values b) <= 52 + vuln_score b.
Proof.
  intros H. apply get_risk_breakdown_blocks in H as (Hp & Hs & Hv & Hc & He & Hf).
  apply port_block_range in Hp. apply service_block_range in Hs.
  apply vuln_block_nonneg in Hv. apply cert_block_range in Hc.
  apply exposure_block_range in He.
  repeat (split; [assumption|]).
  destruct b as [p sv v c e f]; cbn in *. unfold sum, values; cbn. lia.
Qed.

(** ** The keys of the event that matter *)

Lemma dict_mem_set_ne (k k' : string) (v : value) (d : dict) :
  k <> k' -> dict_mem k' (dict_set k v d) = dict_mem k' d.
Proof. intros H. unfold dict_mem. rewrite dict_lookup_set_ne by exact H. reflexivity. Qed.

Lemma scorer_key_false (k : string) :
  scorer_key k = false -> k <> "target" /\ k <> "probes" /\ k <> "enrichment".
Proof.
  unfold scorer_key. intros H.
  apply orb_false_elim in H as [H H3]. apply orb_false_elim in H as [H1 H2].
  apply String.eqb_neq in H1, H2, H3. auto.
Qed.

Lemma get_risk_breakdown_set_other (event : dict) (k : string) (v : value) :
  scorer_key k = false ->
  get_risk_breakdown fromisoformat now (dict_set k v event)
  = get_risk_breakdown fromisoformat now event.
Proof.
  intros H. apply scorer_key_false in H as (Ht & Hp & He).
  unfold risk_scorer.get_risk_breakdown, port_block, service_block, vuln_block, cert_block,
    exposure_block, get, getitem.
  rewrite !(dict_mem_set_ne k) by assumption.
  rewrite !(dict_lookup_set_ne k) by assumption. reflexivity.
Qed.

(** X3.  The scorer reads the keys [target], [probes] and [enrichment] of
    the event and no other: setting any other key, a [risk_score] sent from
    upstream included, changes neither the breakdown nor the score. *)
Theorem scorer_reads_three_keys (event : dict) (k : string) (v : value) :
  scorer_key k = false ->
  get_risk_breakdown fromisoformat now (dict_set k v event)
  = get_risk_breakdown fromisoformat now event
  /\ calculate_risk fromisoformat now (dict_set k v event)
     = calculate_risk fromisoformat now event.
Proof.
  intros H. pose proof (get_risk_breakdown_set_other event k v H) as Hb.
  split; [exact Hb|]. unfold risk_scorer.calculate_risk. rewrite Hb. reflexivity.
Qed.

End risk_scorer_more.

(* ===================================================================== *)
(** * The enrichers and the scorer together                               *)
(* ===================================================================== *)

Section enrich_and_score.

Import enrich_terms.

Variable str_upper : string -> string.
Variable fromisoformat : string -> option datetime.t.
Variable now : datetime.t.

Local Abbreviation get_risk_breakdown := (risk_scorer.get_risk_breakdown str_upper).
Local Abbreviation calculate_risk := (risk_scorer.calculate_risk str_upper).

(** X4.  The exposure score of an event whose GeoIP result comes from
    [enrich_ip]: 0 for an address with a private prefix, for a missing
    database and for an address the database does not know; 5 for an address
    the database resolves (unless the country name is a marker) and also for
    a lookup that fails with any other exception, whose ERROR marker the
    scorer counts as public. *)
Theorem exposure_after_enrich_ip (rd : option geoip.reader) (ip_address : string)
    (event e : dict) :
  enrichment_of event = Some e ->
  dict_lookup "geoip" e = Some (VDict (fst (geoip.enrich_ip rd ip_address))) ->
  exposure_block event = Ok (exposure_after_lookup rd ip_address)
  /\ forall b, get_risk_breakdown fromisoformat now event = Ok b ->
               exposure_score b = exposure_after_lookup rd ip_address.
Proof.
  intros He Hg.
  assert (Hx : exposure_block event = Ok (exposure_after_lookup rd ip_address)).
  { erewrite exposure_block_country; [|exact He|unfold geoip_country; rewrite Hg; reflexivity].
    f_equal. unfold exposure_after_lookup, private_prefix, geoip.enrich_ip.
    destruct (_ || _); [reflexivity|].
    destruct rd as [city|]; [|reflexivity].
    destruct (city ip_address) as [r|[]]; reflexivity. }
  split; [exact Hx|].
  intros b Hb. apply get_risk_breakdown_blocks in Hb as (_ & _ & _ & _ & Hxb & _). congruence.
Qed.

Section certificate.

Variable b64decode : string -> result (list Byte.byte).
Variable load_der_x509_certificate : list Byte.byte -> result tls_parser.certificate.
Variable str_of_exn : exn -> string.

(** X5.  A certificate that does not decode or does not load leaves the
    error marker in the enrichment; the scorer then runs its certificate
    block without raising and adds nothing. *)
Theorem cert_score_of_unparsed (cert_der_b64 : string) (err : exn) (event e : dict) :
  (der ← b64decode cert_der_b64; load_der_x509_certificate der) = Raise err ->
  enrichment_of event = Some e ->
  dict_lookup "tls_cert" e
  = Some (VDict (tls_parser.parse_certificate b64decode load_der_x509_certificate
                   str_of_exn cert_der_b64)) ->
  cert_block fromisoformat now event = Ok 0
  /\ forall b, get_risk_breakdown fromisoformat now event = Ok b -> cert_score b = 0.
Proof.
  intros Herr He Ht.
  rewrite (parse_certificate_error _ _ _ _ _ Herr) in Ht.
  assert (Hc : cert_block fromisoformat now event = Ok 0).
  { unfold enrichment_of in He. unfold cert_block, dict_mem, getitem.
    destruct (dict_lookup "enrichment" event) as [[| | | | |e']|]; try discriminate.
    injection He as ->. cbv [mbind result_bind contains getitem dict_mem].
    rewrite Ht. reflexivity. }
  split; [exact Hc|].
  intros b Hb. apply get_risk_breakdown_blocks in Hb as (_ & _ & _ & Hcb & _). congruence.
Qed.

(** X6.  A certificate that loads and answers every query of the parser is
    scored from its names and its end date: 10 when issuer and subject are
    equal, plus 15 when the end date, read back from its ISO text, lies
    before the evaluation time. *)
Theorem cert_score_of_parsed (cert_der_b64 : string) (der : list Byte.byte)
    (cert : tls_parser.certificate) (subject_name issuer_name : tls_parser.name)
    (valid_to end_date : datetime.t) (expired : bool) (event e : dict) :
  b64decode cert_der_b64 = Ok der ->
  load_der_x509_certificate der = Ok cert ->
  tls_parser.read_failure cert = None ->
  tls_parser.subject cert = Ok subject_name ->
  tls_parser.issuer cert = Ok issuer_name ->
  tls_parser.not_valid_after_utc cert = Ok valid_to ->
  fromisoformat (datetime.isoformat valid_to) = Some end_date ->
  datetime.lt end_date now = Ok expired ->
  enrichment_of event = Some e ->
  dict_lookup "tls_cert" e
  = Some (VDict (tls_parser.parse_certificate b64decode load_der_x509_certificate
                   str_of_exn cert_der_b64)) ->
  cert_block fromisoformat now event
  = Ok ((if bool_decide (issuer_name = subject_name) then 10 else 0)
        + (if expired then 15 else 0)).
Proof.
  intros Hd Hl Hr Hs Hi Hv Hiso Hlt He Ht.
  destruct (parse_certificate_fields b64decode load_der_x509_certificate str_of_exn
              cert_der_b64 der cert subject_name issuer_name valid_to Hd Hl Hr Hs Hi Hv)
    as [Hss Hvt].
  unfold enrichment_of in He. unfold cert_block, dict_mem, getitem.
  destruct (dict_lookup "enrichment" event) as [[| | | | |e']|]; try discriminate.
  injection He as ->. cbv [mbind result_bind contains getitem dict_mem get].
  rewrite Ht, Hss, Hvt.
  assert (Hne : truthy (VStr (datetime.isoformat valid_to)) = true).
  { unfold datetime.isoformat. cbn [truthy].
    destruct (datetime.zpad 4 _); reflexivity. }
  rewrite Hne. cbv [fromisoformat_v]. rewrite Hiso, Hlt.
  cbn [truthy]. destruct expired, (bool_decide _); reflexivity.
Qed.

(** X27.  A certificate that loads but raises on one of the parser's
    queries (its names, its extensions, its public key, its dates) leaves
    the error marker in the enrichment, as a certificate that does not load;
    the scorer then adds nothing, self-signed and expired or not. *)
Theorem cert_score_of_unreadable (cert_der_b64 : string) (der : list Byte.byte)
    (cert : tls_parser.certificate) (err : exn) (event e : dict) :
  b64decode cert_der_b64 = Ok der ->
  load_der_x509_certificate der = Ok cert ->
  tls_parser.read_failure cert = Some err ->
  enrichment_of event = Some e ->
  dict_lookup "tls_cert" e
  = Some (VDict (tls_parser.parse_certificate b64decode load_der_x509_certificate
                   str_of_exn cert_der_b64)) ->
  tls_parser.parse_certificate b64decode load_der_x509_certificate str_of_exn cert_der_b64
  = [("error", VStr (str_of_exn err))]
  /\ cert_block fromisoformat now event = Ok 0
  /\ forall b, get_risk_breakdown fromisoformat now event = Ok b -> cert_score b = 0.
Proof.
  intros Hd Hl Hr He Ht.
  pose proof (parse_certificate_read_error b64decode load_der_x509_certificate str_of_exn
                cert_der_b64 der cert err Hd Hl Hr) as Hp.
  rewrite Hp in Ht.
  assert (Hc : cert_block fromisoformat now event = Ok 0).
  { unfold enrichment_of in He. unfold cert_block, dict_mem, getitem.
    destruct (dict_lookup "enrichment" event) as [[| | | | |e']|]; try discriminate.
    injection He as ->. cbv [mbind result_bind contains getitem dict_mem].
    rewrite Ht. reflexivity. }
  split; [exact Hp|]. split; [exact Hc|].
  intros b Hb. apply get_risk_breakdown_blocks in Hb as (_ & _ & _ & Hcb & _). congruence.
Qed.

End certificate.

End enrich_and_score.

(* ===================================================================== *)
(** * The matches of the CVE rule matcher, in order                       *)
(* ===================================================================== *)

Section match_order.

Import cve_rules cve_spec enrich_terms.

Variable re_compile : string -> result unit.
Variable re_matches : string -> string -> bool.

Local Abbreviation fires := (fires re_compile re_matches).
Local Abbreviation pass_entries := (pass_entries re_compile re_matches).

Lemma rule_step_entry (key matched_on text : string) (rule : value) (acc : list value) :
  rule_sound re_compile rule = true ->
  (key = "server_regex" \/ key = "ssh_banner_regex") ->
  rule_step re_compile re_matches key matched_on (VStr text) rule acc
  = Ok (acc ++ if fires key text rule then [entry_of matched_on text rule] else [])%list.
Proof.
  unfold rule_sound, absent_or_handled, escaping, rule_step, enrich_terms.fires.
  destruct rule as [| | | | |d]; try discriminate.
  intros [H1 H2]%andb_prop Hkey.
  assert (H : match dict_lookup key d with
              | None => true
              | Some pattern =>
                  match (match pattern with
                         | VStr p => match re_compile p with
                                     | Ok _ | Raise ReError => None
                                     | Raise e => Some e
                                     end
                         | _ => Some TypeError
                         end) with None => true | Some _ => false end
              end = true) by (destruct Hkey as [-> | ->]; assumption).
  cbv [contains dict_mem getitem mbind result_bind].
  destruct (dict_lookup key d) as [[| | |p| |]|]; try discriminate.
  - cbv [re_search try_except mbind result_bind].
    destruct (re_compile p) as [u|[]]; try discriminate; cbn [is_ok andb].
    + destruct (re_matches p text); [reflexivity | rewrite app_nil_r; reflexivity].
    + rewrite app_nil_r. reflexivity.
  - rewrite app_nil_r. reflexivity.
Qed.

Lemma rule_loop_entries (key matched_on text : string) (rules acc : list value) :
  forallb (rule_sound re_compile) rules = true ->
  (key = "server_regex" \/ key = "ssh_banner_regex") ->
  rule_loop re_compile re_matches key matched_on (VStr text) rules acc
  = Ok (acc ++ pass_entries key matched_on (Some text) rules)%list.
Proof.
  intros Ht Hkey. revert acc.
  induction rules as [|rule rest IH]; intros acc.
  - cbn. rewrite app_nil_r. reflexivity.
  - cbn [forallb] in Ht. apply andb_prop in Ht as [Hr Hrest].
    cbn [rule_loop]. rewrite rule_step_entry by assumption.
    cbv [mbind result_bind]. rewrite (IH Hrest).
    unfold enrich_terms.pass_entries. cbn [List.filter].
    destruct (fires key text rule); cbn [map]; rewrite <- app_assoc; reflexivity.
Qed.

Lemma http_pass_entries (rules : list value) (d : dict) (acc : list value) :
  forallb (rule_sound re_compile) rules = true ->
  field_typed "http" "headers" "Server" d = true ->
  http_pass re_compile re_matches rules (VDict d) acc
  = Ok (acc ++ pass_entries "server_regex" "http_server_header"
                 (server_header_of (VDict d)) rules)%list.
Proof.
  intros Hr. unfold field_typed, absent_or_str, http_pass, server_header_of, text_at.
  cbv [contains dict_mem getitem get mbind result_bind].
  destruct (dict_lookup "http" d) as [[| | | | |h]|]; try discriminate;
    [|intros _; cbn; rewrite app_nil_r; reflexivity].
  destruct (dict_lookup "headers" h) as [[| | | | |hd]|]; try discriminate;
    [|intros _; cbn; rewrite app_nil_r; reflexivity].
  destruct (dict_lookup "Server" hd) as [[| | |sv| |]|]; try discriminate; intros _;
    [|cbn; rewrite app_nil_r; reflexivity].
  cbn [truthy]. destruct (String.eqb sv ""); cbn [negb].
  - cbn. rewrite app_nil_r. reflexivity.
  - apply rule_loop_entries; auto.
Qed.

Lemma ssh_pass_entries (rules : list value) (d : dict) (acc : list value) :
  forallb (rule_sound re_compile) rules = true ->
  field_typed "ssh_banner" "" "Banner" d = true ->
  ssh_pass re_compile re_matches rules (VDict d) acc
  = Ok (acc ++ pass_entries "ssh_banner_regex" "ssh_banner"
                 (ssh_banner_of (VDict d)) rules)%list.
Proof.
  intros Hr. unfold field_typed, absent_or_str, ssh_pass, ssh_banner_of, text_at.
  cbv [contains dict_mem getitem get mbind result_bind].
  destruct (dict_lookup "ssh_banner" d) as [[| | | | |o]|]; try discriminate;
    [|intros _; cbn; rewrite app_nil_r; reflexivity].
  destruct (dict_lookup "Banner" o) as [[| | |bn| |]|]; try discriminate; intros _;
    [|cbn; rewrite app_nil_r; reflexivity].
  cbn [truthy]. destruct (String.eqb bn ""); cbn [negb].
  - cbn. rewrite app_nil_r. reflexivity.
  - apply rule_loop_entries; auto.
Qed.

(** X7.  On rules whose regexes are strings that compile or are rejected
    with [re.error], and on well-typed probes, the result is one entry for
    every rule whose [server_regex] compiles and is found in the Server
    header, in rule order, followed by one entry for every rule whose
    [ssh_banner_regex] compiles and is found in the SSH banner, in rule
    order; a missing or empty text gives no entry, and a rule that fires on
    both texts is recorded twice. *)
Theorem match_cves_in_rule_order (rules : list value) (probes : value) :
  forallb (rule_sound re_compile) rules = true ->
  probes_typed probes = true ->
  match_cves re_compile re_matches rules probes
  = Ok (pass_entries "server_regex" "http_server_header" (server_header_of probes) rules
        ++ pass_entries "ssh_banner_regex" "ssh_banner" (ssh_banner_of probes) rules)%list.
Proof.
  intros Hr. unfold probes_typed.
  destruct probes as [| | | | |d]; try discriminate.
  intros [Hhttp Hssh]%andb_prop.
  unfold match_cves. rewrite http_pass_entries by assumption.
  cbv [mbind result_bind]. rewrite ssh_pass_entries by assumption. reflexivity.
Qed.

Lemma http_pass_server (rules : list value) (probes : value) (server : string)
    (acc : list value) :
  server_header_of probes = Some server ->
  http_pass re_compile re_matches rules probes acc
  = rule_loop re_compile re_matches "server_regex" "http_server_header" (VStr server) rules acc.
Proof.
  unfold server_header_of, text_at, http_pass.
  destruct probes as [| | | | |d]; try discriminate.
  cbv [contains dict_mem getitem get mbind result_bind].
  destruct (dict_lookup "http" d) as [[| | | | |h]|]; try discriminate.
  destruct (dict_lookup "headers" h) as [[| | | | |hd]|]; try discriminate.
  destruct (dict_lookup "Server" hd) as [[| | |sv| |]|]; try discriminate.
  cbn [truthy]. destruct (String.eqb sv ""); [discriminate|].
  intros [= ->]. reflexivity.
Qed.

Lemma rule_step_escaping (key matched_on : string) (text : value) (d : dict)
    (pattern : value) (e : exn) (acc : list value) :
  dict_lookup key d = Some pattern ->
  escaping re_compile pattern = Some e ->
  rule_step re_compile re_matches key matched_on text (VDict d) acc = Raise e.
Proof.
  intros Hk. unfold escaping, rule_step.
  cbv [contains dict_mem getitem mbind result_bind]. rewrite Hk.
  destruct pattern as [| | |p| |]; try (intros [= <-]; reflexivity).
  cbv [re_search try_except mbind result_bind].
  destruct (re_compile p) as [u|[]]; try discriminate; intros [= <-]; reflexivity.
Qed.

(** C7 fails on the code: the handler of the loops catches [re.error]
    alone, so a rule whose regex fails to compile in another way (a
    repetition count that makes the compiler raise [OverflowError], a regex
    that is not a string and makes it raise [TypeError]) is not skipped.  Its
    turn of the loop raises, [match_cves] raises with it, and the matches of
    the rules before it and after it are lost. *)
Theorem match_cves_aborts_on_unhandled_regex (before after : list value) (d : dict)
    (pattern : value) (e : exn) (probes : value) (server : string) :
  forallb (rule_sound re_compile) before = true ->
  dict_lookup "server_regex" d = Some pattern ->
  escaping re_compile pattern = Some e ->
  server_header_of probes = Some server ->
  match_cves re_compile re_matches (before ++ VDict d :: after) probes = Raise e.
Proof.
  intros Hb Hk He Hs. unfold match_cves.
  rewrite (http_pass_server _ _ server) by exact Hs.
  assert (Hl : forall acc,
             rule_loop re_compile re_matches "server_regex" "http_server_header" (VStr server)
               (before ++ VDict d :: after) acc = Raise e).
  { induction before as [|rule rest IH]; intros acc.
    - cbn [app rule_loop].
      rewrite (rule_step_escaping _ _ _ _ pattern e) by assumption. reflexivity.
    - cbn [forallb] in Hb. apply andb_prop in Hb as [Hr Hrest].
      cbn [app rule_loop]. rewrite rule_step_entry by auto.
      cbv [mbind result_bind]. apply IH. exact Hrest. }
  rewrite Hl. reflexivity.
Qed.

End match_order.

(* ===================================================================== *)
(** * Properties of the enrichment and scoring steps                      *)
(* ===================================================================== *)

Lemma dict_lookup_set_eq (k : string) (v : value) (d : dict) :
  dict_lookup k (dict_set k v d) = Some v.
Proof.
  induction d as [|[k0 v0] rest IH]; cbn [dict_set dict_lookup].
  - rewrite String.eqb_refl. reflexivity.
  - destruct (String.eqb_spec k k0) as [->|Hne]; cbn [dict_lookup].
    + rewrite String.eqb_refl. reflexivity.
    + destruct (String.eqb_spec k k0); [congruence | exact IH].
Qed.

Lemma dict_set_set (k : string) (v v' : value) (d : dict) :
  dict_set k v' (dict_set k v d) = dict_set k v' d.
Proof.
  induction d as [|[k0 v0] rest IH]; cbn [dict_set].
  - rewrite String.eqb_refl. reflexivity.
  - destruct (String.eqb_spec k k0) as [->|Hne]; cbn [dict_set].
    + rewrite String.eqb_refl. reflexivity.
    + destruct (String.eqb_spec k k0); [congruence | rewrite IH; reflexivity].
Qed.

(** The keys of a dict after an assignment are the old keys and the new
    one. *)
Lemma dict_set_keys (P : string -> bool) (k : string) (v : value) (d : dict) :
  P k = true ->
  forallb (fun kv => P (fst kv)) d = true ->
  forallb (fun kv => P (fst kv)) (dict_set k v d) = true.
Proof.
  intros Hk. induction d as [|[k0 v0] rest IH]; cbn [dict_set forallb fst].
  - intros _. rewrite Hk. reflexivity.
  - intros [H0 Hrest]%andb_prop.
    destruct (String.eqb k k0); cbn [forallb fst].
    + rewrite Hk, Hrest. reflexivity.
    + rewrite H0, (IH Hrest). reflexivity.
Qed.

Section enrichment_facts.

Import base64 ingester enrich_terms.

Variable geoip_reader : option geoip.reader.
Variable b64decode_cert : string -> result bytes.
Variable load_der_x509_certificate : bytes -> result tls_parser.certificate.
Variable str_of_exn : exn -> string.
Variable re_compile : string -> result unit.
Variable re_matches : string -> string -> bool.
Variable cve_engine : list value.
Variable str_upper : string -> string.
Variable fromisoformat : string -> option datetime.t.

Local Abbreviation get_risk_breakdown := (risk_scorer.get_risk_breakdown str_upper).
Local Abbreviation calculate_risk := (risk_scorer.calculate_risk str_upper).

Local Abbreviation enrich_event :=
  (_enrich_event geoip_reader b64decode_cert load_der_x509_certificate str_of_exn
     re_compile re_matches cve_engine).
Local Abbreviation compute_risk_score := (_compute_risk_score str_upper fromisoformat).

(** X8.  Whatever [enrichment] an event brings along is thrown away before
    the enrichers run: the result does not depend on it. *)
Theorem enrich_event_discards_enrichment (event : dict) (v : value) :
  enrich_event (dict_set "enrichment" v event) = enrich_event event.
Proof. unfold _enrich_event. rewrite dict_set_set. reflexivity. Qed.

Lemma set_enrichment_enriched (event0 event event' : dict) (k : string) (v : value) :
  enrichment_key k = true ->
  enriched_from event0 event ->
  set_enrichment k v event = Ok event' ->
  enriched_from event0 event'.
Proof.
  intros Hk [Hother (e & He & Hkeys)]. unfold set_enrichment, getitem.
  rewrite He. cbv [mbind result_bind]. intros [= <-]. split.
  - intros k' Hne. rewrite dict_lookup_set_ne by congruence. apply Hother. exact Hne.
  - exists (dict_set k v e). split; [apply dict_lookup_set_eq|].
    apply dict_set_keys; assumption.
Qed.

Lemma enrich_geoip_enriched (event0 event event' : dict) :
  enriched_from event0 event ->
  enrich_geoip geoip_reader event = Ok event' ->
  enriched_from event0 event'.
Proof.
  intros HI. unfold enrich_geoip.
  destruct (dict_mem "target" event); [|intros [= <-]; exact HI].
  intros H. apply bind_ok in H as (target & _ & H).
  apply bind_ok in H as (has_ip & _ & H).
  destruct has_ip; [|injection H as <-; exact HI].
  apply bind_ok in H as (ip & _ & H). apply bind_ok in H as (g & _ & H).
  eapply (set_enrichment_enriched _ _ _ "geoip"); [reflexivity | exact HI | exact H].
Qed.

Lemma enrich_tls_enriched (event0 event event' : dict) :
  enriched_from event0 event ->
  enrich_tls b64decode_cert load_der_x509_certificate str_of_exn event = Ok event' ->
  enriched_from event0 event'.
Proof.
  intros HI. unfold enrich_tls.
  destruct (dict_mem "probes" event); [|intros [= <-]; exact HI].
  intros H. apply bind_ok in H as (probes & _ & H).
  apply bind_ok in H as (has_tls & _ & H).
  destruct has_tls; [|injection H as <-; exact HI].
  apply bind_ok in H as (tls & _ & H). apply bind_ok in H as (has_cert & _ & H).
  destruct has_cert; [|injection H as <-; exact HI].
  apply bind_ok in H as (cert & _ & H).
  destruct (truthy cert); [|injection H as <-; exact HI].
  eapply (set_enrichment_enriched _ _ _ "tls_cert"); [reflexivity | exact HI | exact H].
Qed.

Lemma enrich_cve_enriched (event0 event event' : dict) :
  enriched_from event0 event ->
  enrich_cve re_compile re_matches cve_engine event = Ok event' ->
  enriched_from event0 event'.
Proof.
  intros HI. unfold enrich_cve.
  destruct (dict_mem "probes" event); [|intros [= <-]; exact HI].
  intros H. apply bind_ok in H as (probes & _ & H).
  apply bind_ok in H as (ms & _ & H).
  eapply (set_enrichment_enriched _ _ _ "cve_matches"); [reflexivity | exact HI | exact H].
Qed.

(** X9.  An enriched event keeps every key of the event it was made from
    except [enrichment], and its [enrichment] is a dict that holds no key
    but [geoip], [tls_cert] and [cve_matches]. *)
Theorem enrich_event_shape (event event' : dict) :
  enrich_event event = Ok event' ->
  (forall k, k <> "enrichment" -> dict_lookup k event' = dict_lookup k event)
  /\ exists e, dict_lookup "enrichment" event' = Some (VDict e)
               /\ forallb (fun kv => enrichment_key (fst kv)) e = true.
Proof.
  unfold _enrich_event. intros H.
  apply bind_ok in H as (e1 & H1 & H). apply bind_ok in H as (e2 & H2 & H).
  apply bind_ok in H as (e3 & H3 & [= <-]).
  assert (H0 : enriched_from event (dict_set "enrichment" (VDict []) event)).
  { split.
    - intros k Hne. apply dict_lookup_set_ne. congruence.
    - exists []. split; [apply dict_lookup_set_eq | reflexivity]. }
  eapply enrich_cve_enriched; [|exact H3].
  eapply enrich_tls_enriched; [|exact H2].
  eapply enrich_geoip_enriched; [exact H0 | exact H1].
Qed.

(** X10.  The scored document carries the clamped sum of the breakdown read
    at the first clock reading as [risk_score] and the breakdown read at the
    second as [risk_breakdown]; whatever [risk_score] and [risk_breakdown]
    the event brought along are overwritten.  When the two readings agree,
    [risk_score] is the clamped sum of [risk_breakdown]. *)
Theorem compute_risk_score_fields (now1 now2 : datetime.t) (event doc : dict) :
  compute_risk_score now1 now2 event = Ok doc ->
  exists b1 b2,
    get_risk_breakdown fromisoformat now1 event = Ok b1
    /\ get_risk_breakdown fromisoformat now2 event = Ok b2
    /\ dict_lookup "risk_score" doc = Some (VInt (clamp (sum (values b1)) 0 100))
    /\ dict_lookup "risk_breakdown" doc = Some (breakdown_value b2)
    /\ (forall k, k <> "risk_score" -> k <> "risk_breakdown" ->
                  dict_lookup k doc = dict_lookup k event)
    /\ (now1 = now2 -> b1 = b2).
Proof.
  unfold _compute_risk_score, risk_scorer.calculate_risk. intros H.
  apply bind_ok in H as (score & Hs & H).
  apply bind_ok in Hs as (b1 & Hb1 & Hsc).
  rewrite items_fold, min_max_clamp in Hsc. injection Hsc as <-.
  apply bind_ok in H as (b2 & Hb2 & [= <-]).
  rewrite get_risk_breakdown_set_other in Hb2 by reflexivity.
  exists b1, b2. repeat split; try assumption.
  - rewrite dict_lookup_set_ne by discriminate. apply dict_lookup_set_eq.
  - apply dict_lookup_set_eq.
  - intros k H1 H2. rewrite !dict_lookup_set_ne by congruence. reflexivity.
  - intros ->. congruence.
Qed.

End enrichment_facts.

(* ===================================================================== *)
(** * Properties of the loaders                                           *)
(* ===================================================================== *)

Section loader_facts.

Import base64 loaders.

(** X11.  [load_cve_rules] falls back to the empty list on every failure,
    the empty file (which loads as [None]) and a scalar document included,
    and hands on a list, a mapping or a string as it is: its result can
    always be iterated. *)
Theorem load_cve_rules_iterable (file : result value) :
  is_ok (iterate (load_cve_rules file)) = true
  /\ load_cve_rules file
     = match file with
       | Ok (VList l) => VList l
       | Ok (VDict d) => VDict d
       | Ok (VStr s) => VStr s
       | _ => VList []
       end.
Proof. destruct file as [[| | | | |]|]; split; reflexivity. Qed.

Variable VerifyKey : Type.
Variable make_key : bytes -> result VerifyKey.
Variable b64decode : string -> result bytes.

Local Abbreviation key_of := (key_of VerifyKey make_key b64decode).
Local Abbreviation keys_of_items := (keys_of_items VerifyKey make_key b64decode).
Local Abbreviation load_public_keys := (_load_public_keys VerifyKey make_key b64decode).

Lemma keys_of_items_bad (items : dict) (acc : gmap string VerifyKey)
    (cid : string) (pk : value) (e : exn) :
  In (cid, pk) items -> key_of pk = Raise e ->
  is_ok (keys_of_items items acc) = false.
Proof.
  revert acc. induction items as [|[c p] rest IH]; intros acc Hin Hbad; [destruct Hin|].
  cbn [loaders.keys_of_items].
  destruct (key_of p) as [k|e'] eqn:Hp; cbv [mbind result_bind]; [|reflexivity].
  destruct Hin as [[= -> ->]|Hin]; [congruence|].
  apply IH; assumption.
Qed.

(** X12.  One entry of the key file that does not decode to a key empties
    the whole registry, and then every signature is rejected, those of the
    collectors whose entries are sound included. *)
Theorem bad_key_empties_registry (d : dict) (cid : string) (pk : value) (e : exn) :
  In (cid, pk) d ->
  key_of pk = Raise e ->
  load_public_keys (Ok (VDict d)) = ∅
  /\ forall verify event_data signature_b64 collector_id,
       ingest._verify_signature VerifyKey b64decode verify
         (load_public_keys (Ok (VDict d))) event_data signature_b64 collector_id
       = Ok false.
Proof.
  intros Hin Hbad.
  assert (H : load_public_keys (Ok (VDict d)) = ∅).
  { unfold _load_public_keys. cbv [mbind result_bind].
    pose proof (keys_of_items_bad d ∅ cid pk e Hin Hbad) as Hk.
    destruct (keys_of_items d ∅); [discriminate | reflexivity]. }
  split; [exact H|].
  intros. rewrite H. apply verify_signature_unknown. apply lookup_empty.
Qed.

Lemma keys_of_items_good (items : dict) (acc : gmap string VerifyKey) :
  List.NoDup (map fst items) ->
  forallb (fun kv => is_ok (key_of (snd kv))) items = true ->
  exists keys,
    keys_of_items items acc = Ok keys
    /\ forall cid,
         keys !! cid
         = match dict_lookup cid items with
           | Some pk => match key_of pk with Ok k => Some k | Raise _ => None end
           | None => acc !! cid
           end.
Proof.
  revert acc. induction items as [|[c p] rest IH]; intros acc Hnd Hok.
  - exists acc. split; [reflexivity|]. intros cid. reflexivity.
  - cbn [map fst] in Hnd. apply NoDup_cons_iff in Hnd as [Hnotin Hnd].
    cbn [forallb snd] in Hok. apply andb_prop in Hok as [Hp Hrest].
    cbn [loaders.keys_of_items].
    destruct (key_of p) as [k|] eqn:Hk; [|discriminate].
    cbv [mbind result_bind].
    destruct (IH (<[c := k]> acc) Hnd Hrest) as (keys & Hkeys & Hlook).
    exists keys. split; [exact Hkeys|].
    intros cid. rewrite Hlook. cbn [dict_lookup].
    destruct (String.eqb_spec cid c) as [->|Hne].
    + assert (Hnone : dict_lookup c rest = None).
      { clear -Hnotin. induction rest as [|[c' p'] rest IH]; [reflexivity|].
        cbn [dict_lookup]. cbn [map fst] in Hnotin.
        destruct (String.eqb_spec c c') as [->|Hne].
        - exfalso. apply Hnotin. left. reflexivity.
        - apply IH. intros Hin. apply Hnotin. right. exact Hin. }
      rewrite Hnone, Hk. apply lookup_insert_eq.
    + destruct (dict_lookup cid rest); [reflexivity|].
      apply lookup_insert_ne. congruence.
Qed.

(** X13.  When every entry of the key file decodes to a key, the registry
    holds exactly the collectors of the file, each with the key of its
    entry. *)
Theorem sound_keys_fill_registry (d : dict) :
  List.NoDup (map fst d) ->
  forallb (fun kv => is_ok (key_of (snd kv))) d = true ->
  forall cid,
    load_public_keys (Ok (VDict d)) !! cid
    = match dict_lookup cid d with
      | Some pk => match key_of pk with Ok k => Some k | Raise _ => None end
      | None => None
      end.
Proof.
  intros Hnd Hok cid.
  destruct (keys_of_items_good d ∅ Hnd Hok) as (keys & Hkeys & Hlook).
  unfold _load_public_keys. cbv [mbind result_bind]. rewrite Hkeys, Hlook.
  destruct (dict_lookup cid d); [reflexivity | apply lookup_empty].
Qed.

End loader_facts.

(* ===================================================================== *)
(** * base64: decoding what was encoded                                   *)
(* ===================================================================== *)

Section base64_round_trip.

Import base64 base64_tables.

Definition below (n : nat) : list Z := map Z.of_nat (seq 0 n).

Lemma below_forallb (n : nat) (P : Z -> bool) (z : Z) :
  forallb P (below n) = true -> 0 <= z < Z.of_nat n -> P z = true.
Proof.
  intros H Hz. rewrite forallb_forall in H. apply H.
  unfold below. apply in_map_iff. exists (Z.to_nat z). split; [lia|].
  apply in_seq. lia.
Qed.

Lemma sextets_ok : forallb sextet_ok (below 64) = true.
Proof. vm_compute. reflexivity. Qed.

Lemma sextet_facts (v : Z) :
  0 <= v < 64 ->
  Ascii.eqb (table_b2a v) "=" = false
  /\ table_a2b (table_b2a v) = Some v
  /\ (N_of_ascii (table_b2a v) <? 128)%N = true.
Proof.
  intros Hv. pose proof (below_forallb 64 sextet_ok v sextets_ok Hv) as H.
  unfold sextet_ok in H. apply andb_prop in H as [[H1 H2]%andb_prop H3].
  apply negb_true_iff in H1.
  destruct (table_a2b (table_b2a v)) as [v'|]; [|discriminate].
  apply Z.eqb_eq in H2 as ->. auto.
Qed.

Lemma pairs_ok : forallb (fun x => forallb (pair_ok x) (below 256)) (below 256) = true.
Proof. vm_compute. reflexivity. Qed.

Lemma pair_facts (x y : Z) : 0 <= x < 256 -> 0 <= y < 256 -> pair_ok x y = true.
Proof.
  intros Hx Hy.
  pose proof (below_forallb 256 _ x pairs_ok Hx) as H.
  exact (below_forallb 256 _ y H Hy).
Qed.

Lemma pair_unpack (x y : Z) :
  0 <= x < 256 -> 0 <= y < 256 ->
  (0 <= s0 x < 64) /\ (0 <= s1 x y < 64) /\ (0 <= s2 x y < 64) /\ (0 <= s3 x < 64)
  /\ (0 <= Z.shiftl (Z.land x 3) 4 < 64) /\ (0 <= Z.shiftl (Z.land x 15) 2 < 64)
  /\ Z.lor (Z.shiftl (s0 x) 2) (Z.shiftr (s1 x y) 4) = x
  /\ Z.land (s1 x y) 15 = Z.shiftr y 4
  /\ Z.lor (Z.shiftl (Z.shiftr x 4) 4) (Z.shiftr (s2 x y) 2) = x
  /\ Z.land (s2 x y) 3 = Z.shiftr y 6
  /\ Z.lor (Z.shiftl (Z.shiftr x 6) 6) (s3 x) = x
  /\ Z.lor (Z.shiftl (s0 x) 2) (Z.shiftr (Z.shiftl (Z.land x 3) 4) 4) = x
  /\ Z.lor (Z.shiftl (Z.shiftr x 4) 4) (Z.shiftr (Z.shiftl (Z.land x 15) 2) 2) = x.
Proof.
  intros Hx Hy. pose proof (pair_facts x y Hx Hy) as H. unfold pair_ok, in64 in H.
  repeat match goal with
         | H0 : (_ && _) = true |- _ => apply andb_prop in H0 as [? ?]
         end.
  repeat match goal with
         | H : (_ <=? _) = true |- _ => apply Z.leb_le in H
         | H : (_ <? _) = true |- _ => apply Z.ltb_lt in H
         | H : (_ =? _) = true |- _ => apply Z.eqb_eq in H
         end.
  repeat split; assumption.
Qed.

(** ** The decoder on one character *)

Lemma a2b_step0 (v : Z) (rest : list ascii) (l p : Z) (acc : list Z) :
  0 <= v < 64 ->
  a2b_loop (table_b2a v :: rest) 0 l p acc = a2b_loop rest 1 v 0 acc.
Proof.
  intros Hv. destruct (sextet_facts v Hv) as (He & Ht & _).
  cbn [a2b_loop]. rewrite He, Ht. reflexivity.
Qed.

Lemma a2b_step1 (v : Z) (rest : list ascii) (l p : Z) (acc : list Z) :
  0 <= v < 64 ->
  a2b_loop (table_b2a v :: rest) 1 l p acc
  = a2b_loop rest 2 (Z.land v 15) 0 (acc ++ [Z.lor (Z.shiftl l 2) (Z.shiftr v 4)])%list.
Proof.
  intros Hv. destruct (sextet_facts v Hv) as (He & Ht & _).
  cbn [a2b_loop]. rewrite He, Ht. reflexivity.
Qed.

Lemma a2b_step2 (v : Z) (rest : list ascii) (l p : Z) (acc : list Z) :
  0 <= v < 64 ->
  a2b_loop (table_b2a v :: rest) 2 l p acc
  = a2b_loop rest 3 (Z.land v 3) 0 (acc ++ [Z.lor (Z.shiftl l 4) (Z.shiftr v 2)])%list.
Proof.
  intros Hv. destruct (sextet_facts v Hv) as (He & Ht & _).
  cbn [a2b_loop]. rewrite He, Ht. reflexivity.
Qed.

Lemma a2b_step3 (v : Z) (rest : list ascii) (l p : Z) (acc : list Z) :
  0 <= v < 64 ->
  a2b_loop (table_b2a v :: rest) 3 l p acc
  = a2b_loop rest 0 0 0 (acc ++ [Z.lor (Z.shiftl l 6) v])%list.
Proof.
  intros Hv. destruct (sextet_facts v Hv) as (He & Ht & _).
  cbn [a2b_loop]. rewrite He, Ht. reflexivity.
Qed.

(** ** The decoder on what the encoder wrote *)

Lemma a2b_loop_b2a (n : nat) (zs acc : list Z) :
  (length zs <= n)%nat ->
  bytes_in_range zs ->
  a2b_loop (b2a zs) 0 0 0 acc = Ok (acc ++ zs)%list.
Proof.
  revert zs acc. induction n as [|n IH]; intros zs acc Hlen Hr.
  - destruct zs; [|cbn in Hlen; lia]. cbn. rewrite app_nil_r. reflexivity.
  - destruct zs as [|b0 [|b1 [|b2 rest]]].
    + cbn. rewrite app_nil_r. reflexivity.
    + apply Forall_cons_1 in Hr as [H0 _].
      destruct (pair_unpack b0 b0 H0 H0) as (R0 & _ & _ & _ & Rp & _ & _ & _ & _ & _ & _ & P1 & _).
      cbn [b2a]. fold (s0 b0).
      rewrite a2b_step0 by exact R0. rewrite a2b_step1 by exact Rp.
      rewrite P1. reflexivity.
    + apply Forall_cons_1 in Hr as [H0 Hr]. apply Forall_cons_1 in Hr as [H1 _].
      destruct (pair_unpack b0 b1 H0 H1) as (R0 & R1 & _ & _ & _ & _ & E1 & L1 & _).
      destruct (pair_unpack b1 b1 H1 H1) as (_ & _ & _ & _ & _ & Rp & _ & _ & _ & _ & _ & _ & P2).
      cbn [b2a]. fold (s0 b0). fold (s1 b0 b1).
      rewrite a2b_step0 by exact R0. rewrite a2b_step1 by exact R1.
      rewrite a2b_step2 by exact Rp.
      rewrite E1, L1, P2. rewrite <- app_assoc. reflexivity.
    + apply Forall_cons_1 in Hr as [H0 Hr]. apply Forall_cons_1 in Hr as [H1 Hr].
      apply Forall_cons_1 in Hr as [H2 Hr].
      destruct (pair_unpack b0 b1 H0 H1) as (R0 & R1 & _ & _ & _ & _ & E1 & L1 & _).
      destruct (pair_unpack b1 b2 H1 H2) as (_ & _ & R2 & _ & _ & _ & _ & _ & E2 & L2 & _).
      destruct (pair_unpack b2 b2 H2 H2) as (_ & _ & _ & R3 & _ & _ & _ & _ & _ & _ & E3 & _).
      cbn [b2a]. fold (s0 b0). fold (s1 b0 b1). fold (s2 b1 b2). fold (s3 b2).
      rewrite a2b_step0 by exact R0. rewrite a2b_step1 by exact R1.
      rewrite a2b_step2 by exact R2. rewrite a2b_step3 by exact R3.
      rewrite E1, L1, E2, L2, E3.
      rewrite IH; [|cbn [length] in Hlen; lia | exact Hr].
      rewrite <- !app_assoc. reflexivity.
Qed.

Lemma b2a_ascii (zs : list Z) :
  bytes_in_range zs ->
  forallb (fun c => (N_of_ascii c <? 128)%N) (b2a zs) = true.
Proof.
  assert (Hgen : forall n zs, (length zs <= n)%nat -> bytes_in_range zs ->
             forallb (fun c => (N_of_ascii c <? 128)%N) (b2a zs) = true).
  { clear zs. induction n as [|n IH]; intros zs Hlen Hr.
    - destruct zs; [reflexivity | cbn in Hlen; lia].
    - destruct zs as [|b0 [|b1 [|b2 rest]]]; [reflexivity| | |].
      + apply Forall_cons_1 in Hr as [H0 _].
        destruct (pair_unpack b0 b0 H0 H0) as (R0 & _ & _ & _ & Rp & _).
        cbn [b2a forallb]. fold (s0 b0).
        destruct (sextet_facts _ R0) as (_ & _ & ->).
        destruct (sextet_facts _ Rp) as (_ & _ & ->). reflexivity.
      + apply Forall_cons_1 in Hr as [H0 Hr]. apply Forall_cons_1 in Hr as [H1 _].
        destruct (pair_unpack b0 b1 H0 H1) as (R0 & R1 & _).
        destruct (pair_unpack b1 b1 H1 H1) as (_ & _ & _ & _ & _ & Rp & _).
        cbn [b2a forallb]. fold (s0 b0). fold (s1 b0 b1).
        destruct (sextet_facts _ R0) as (_ & _ & ->).
        destruct (sextet_facts _ R1) as (_ & _ & ->).
        destruct (sextet_facts _ Rp) as (_ & _ & ->). reflexivity.
      + apply Forall_cons_1 in Hr as [H0 Hr]. apply Forall_cons_1 in Hr as [H1 Hr].
        apply Forall_cons_1 in Hr as [H2 Hr].
        destruct (pair_unpack b0 b1 H0 H1) as (R0 & R1 & _).
        destruct (pair_unpack b1 b2 H1 H2) as (_ & _ & R2 & _).
        destruct (pair_unpack b2 b2 H2 H2) as (_ & _ & _ & R3 & _).
        cbn [b2a forallb]. fold (s0 b0). fold (s1 b0 b1). fold (s2 b1 b2). fold (s3 b2).
        destruct (sextet_facts _ R0) as (_ & _ & ->).
        destruct (sextet_facts _ R1) as (_ & _ & ->).
        destruct (sextet_facts _ R2) as (_ & _ & ->).
        destruct (sextet_facts _ R3) as (_ & _ & ->).
        cbn [andb]. apply IH; [cbn [length] in Hlen; lia | exact Hr]. }
  intros Hr. eapply Hgen; [reflexivity | exact Hr].
Qed.

Lemma Z_of_byte_range (b : Byte.byte) : 0 <= Z_of_byte b < 256.
Proof.
  unfold Z_of_byte. pose proof (Byte.to_N_bounded b) as H. lia.
Qed.

Lemma byte_of_Z_of_byte (b : Byte.byte) : byte_of_Z (Z_of_byte b) = b.
Proof. destruct b; reflexivity. Qed.

Lemma Z_of_bytes_range (b : bytes) : bytes_in_range (map Z_of_byte b).
Proof.
  unfold bytes_in_range. induction b as [|x b' IHb]; constructor;
    [apply Z_of_byte_range | exact IHb].
Qed.

Lemma b64_round_trip (b : bytes) : b64decode (b64encode b) = Ok b.
Proof.
  unfold b64decode, b64encode.
  rewrite list_ascii_of_string_of_list_ascii.
  pose proof (Z_of_bytes_range b) as Hr.
  rewrite b2a_ascii by exact Hr.
  rewrite (a2b_loop_b2a (length (map Z_of_byte b))); [|reflexivity | exact Hr].
  cbv [mbind result_bind]. cbn [app]. f_equal.
  rewrite map_map. rewrite <- (map_id b) at 2.
  apply map_ext. intros x. apply byte_of_Z_of_byte.
Qed.

(** X14.  Decoding the base64 text of any bytes gives the bytes back and
    never raises; this is the path the detached signature takes from the
    signature object to the verifier. *)
Theorem b64decode_b64encode (b : bytes) :
  b64decode (b64encode b) = Ok b
  /\ forall c, In c (list_ascii_of_string (b64encode b)) -> (N_of_ascii c < 128)%N.
Proof.
  split; [apply b64_round_trip|].
  intros c Hc. unfold b64encode in Hc. rewrite list_ascii_of_string_of_list_ascii in Hc.
  pose proof (b2a_ascii _ (Z_of_bytes_range b)) as Ha. rewrite forallb_forall in Ha.
  apply N.ltb_lt. apply Ha. exact Hc.
Qed.

End base64_round_trip.

(* ===================================================================== *)
(** * Properties of the processing of one object                          *)
(* ===================================================================== *)

Section process_facts.

Import base64 ingest ingester.

Variable geoip_reader : option geoip.reader.
Variable b64decode_cert : string -> result bytes.
Variable load_der_x509_certificate : bytes -> result tls_parser.certificate.
Variable str_of_exn : exn -> string.
Variable re_compile : string -> result unit.
Variable re_matches : string -> string -> bool.
Variable cve_engine : list value.
Variable str_upper : string -> string.
Variable fromisoformat : string -> option datetime.t.
Variable VerifyKey : Type.
Variable verify : VerifyKey -> bytes -> bytes -> result bytes.
Variable public_keys : gmap string VerifyKey.
Variable json_loads : bytes -> result value.
Variable format_id : value -> string.
Variable render_id : value -> string.
Variable auto_id : gmap (string * string) dict -> string.
Variable writable : string -> bool.
Variable canonical_json : dict -> bytes.
Variable cfg : Config.

Local Abbreviation enrich_event :=
  (_enrich_event geoip_reader b64decode_cert load_der_x509_certificate str_of_exn
     re_compile re_matches cve_engine).
Local Abbreviation compute_risk_score := (_compute_risk_score str_upper fromisoformat).
Local Abbreviation process :=
  (process_event_file geoip_reader b64decode_cert load_der_x509_certificate str_of_exn
     re_compile re_matches cve_engine str_upper fromisoformat VerifyKey verify public_keys
     json_loads format_id render_id auto_id writable canonical_json cfg).
Local Abbreviation verify_collector := (verify_collector VerifyKey verify public_keys).

(** The gateway on the signature text that [process_event_file] builds. *)
Lemma verify_collector_true (event_data sig : bytes) (collector_id : value) :
  verify_collector event_data (b64encode sig) collector_id = Ok true ->
  exists cid verify_key,
    collector_id = VStr cid
    /\ public_keys !! cid = Some verify_key
    /\ is_ok (verify verify_key event_data sig) = true.
Proof.
  unfold ingester.verify_collector.
  destruct collector_id as [| | |cid| |]; try discriminate.
  intros H. apply verify_signature_true in H as (k & sg & Hk & Hd & Hv).
  rewrite b64_round_trip in Hd. injection Hd as <-.
  exists cid, k. auto.
Qed.

(** X15.  An object changes the index or the archive only if it is a
    [.json] object with a signature object beside it, its content parses to
    an event with an id and a collector id, the collector is in the key
    registry, and the content verifies, byte for byte, against the signature
    object under the collector's key. *)
Theorem process_writes_only_verified (objects : gmap string bytes) (ck : clock) (f : fault)
    (object_name : string) (w : opensearch * files) :
  process objects ck f object_name w <> w ->
  exists event_payload sig event cid verify_key,
    endswith object_name ".json" = true
    /\ objects !! object_name = Some event_payload
    /\ objects !! (object_name +:+ ".sig") = Some sig
    /\ json_loads event_payload = Ok (VDict event)
    /\ (exists id, dict_lookup "id" event = Some id /\ truthy id = true)
    /\ dict_lookup "collector_id" event = Some (VStr cid)
    /\ public_keys !! cid = Some verify_key
    /\ is_ok (verify verify_key event_payload sig) = true.
Proof.
  unfold process_event_file. intros Hw.
  destruct (objects !! object_name) as [payload|] eqn:Hobj; [|congruence].
  destruct (endswith object_name ".json") eqn:Hjson; [|congruence].
  destruct (objects !! (object_name +:+ ".sig")) as [sig|] eqn:Hsig; [|congruence].
  destruct (json_loads payload) as [ev|] eqn:Hload; cbv [mbind result_bind] in Hw;
    [|congruence].
  destruct ev as [| | | | |event]; cbn [get] in Hw; try congruence.
  destruct (dict_lookup "id" event) as [id|] eqn:Hid;
    [|cbn [truthy negb orb] in Hw; congruence].
  destruct (truthy id) eqn:Htid; cbn [negb orb] in Hw; [|congruence].
  destruct (dict_lookup "collector_id" event) as [collector_id|] eqn:Hcid;
    [|cbn [truthy negb] in Hw; congruence].
  destruct (truthy collector_id); cbn [negb] in Hw; [|congruence].
  destruct (verify_collector payload (b64encode sig) collector_id) as [[|]|] eqn:Hv;
    cbn [negb] in Hw; try congruence.
  apply verify_collector_true in Hv as (cid & key & -> & Hk & Hok).
  exists payload, sig, event, cid, key. repeat split; eauto.
Qed.

(** X16.  An object that passes the gateway and whose event is enriched
    and scored is written once to the sink: the scored document goes to the
    index, and its canonical JSON to the archive file named after the id of
    the event. *)
Theorem process_writes_scored_document (objects : gmap string bytes) (ck : clock) (f : fault)
    (object_name : string) (w : opensearch * files)
    (event_payload sig message : bytes) (event enriched doc : dict)
    (id : value) (cid : string) (verify_key : VerifyKey) :
  endswith object_name ".json" = true ->
  objects !! object_name = Some event_payload ->
  objects !! (object_name +:+ ".sig") = Some sig ->
  json_loads event_payload = Ok (VDict event) ->
  dict_lookup "id" event = Some id -> truthy id = true ->
  dict_lookup "collector_id" event = Some (VStr cid) -> cid <> "" ->
  public_keys !! cid = Some verify_key ->
  verify verify_key event_payload sig = Ok message ->
  enrich_event event = Ok enriched ->
  compute_risk_score (now_score ck) (now_breakdown ck) enriched = Ok doc ->
  process objects ck f object_name w
  = sink_write render_id auto_id writable canonical_json cfg (now_index ck) f
      (format_id id) doc w.
Proof.
  intros Hjson Hobj Hsig Hload Hid Htid Hcid Hne Hk Hv He Hs.
  unfold process_event_file. rewrite Hobj, Hjson, Hsig, Hload.
  cbv [mbind result_bind]. cbn [get]. rewrite Hid, Hcid, Htid.
  assert (Ht : truthy (VStr cid) = true).
  { cbn. apply negb_true_iff, String.eqb_neq. exact Hne. }
  rewrite Ht. cbn [negb orb].
  unfold ingester.verify_collector.
  rewrite (verify_signature_decoded VerifyKey base64.b64decode verify public_keys
             event_payload sig (b64encode sig) cid verify_key Hk (b64_round_trip sig)).
  rewrite Hv. cbn [is_ok negb]. unfold _deduplicate. rewrite He, Hs. reflexivity.
Qed.

End process_facts.

(* ===================================================================== *)
(** * The end-to-end example through enrichment and scoring               *)
(* ===================================================================== *)

Section pipeline_example.

Import base64 ingester enrich_terms.

Variable b64decode_cert : string -> result bytes.
Variable load_der_x509_certificate : bytes -> result tls_parser.certificate.
Variable str_of_exn : exn -> string.
Variable re_compile : string -> result unit.
Variable re_matches : string -> string -> bool.
Variable cve_engine : list value.
Variable str_upper : string -> string.
Variable fromisoformat : string -> option datetime.t.

Local Abbreviation get_risk_breakdown := (risk_scorer.get_risk_breakdown str_upper).
Local Abbreviation calculate_risk := (risk_scorer.calculate_risk str_upper).
Local Abbreviation _compute_risk_score := (ingester._compute_risk_score str_upper).

Lemma match_cves_no_text (p : dict) :
  dict_mem "http" p = false -> dict_mem "ssh_banner" p = false ->
  cve_rules.match_cves re_compile re_matches cve_engine (VDict p) = Ok [].
Proof.
  intros Hh Hs. unfold cve_rules.match_cves, cve_rules.http_pass, cve_rules.ssh_pass.
  cbv [contains mbind result_bind]. rewrite Hh, Hs. reflexivity.
Qed.

(** The enrichment of a raw event with a public address and probes that
    hold no HTTP, SSH or TLS result. *)
Lemma enrich_event_plain (city : geoip.reader) (r : geoip.city_response)
    (event t p : dict) (ip : string) :
  dict_lookup "target" event = Some (VDict t) ->
  dict_lookup "ip" t = Some (VStr ip) ->
  private_prefix ip = false ->
  city ip = Ok r ->
  dict_lookup "probes" event = Some (VDict p) ->
  dict_mem "http" p = false -> dict_mem "ssh_banner" p = false -> dict_mem "tls" p = false ->
  _enrich_event (Some city) b64decode_cert load_der_x509_certificate str_of_exn
    re_compile re_matches cve_engine event
  = Ok (dict_set "enrichment"
          (VDict [ ("geoip", VDict (fst (geoip.enrich_ip (Some city) ip)));
                   ("cve_matches", VList []) ]) event).
Proof.
  intros Ht Hip Hpriv Hcity Hp Hh Hs Htls.
  unfold _enrich_event. cbv zeta.
  (* GeoIP *)
  unfold enrich_geoip, set_enrichment, dict_mem, getitem.
  rewrite !(dict_lookup_set_ne "enrichment" "target") by discriminate. rewrite Ht.
  cbv [mbind result_bind contains dict_mem]. rewrite Hip. cbn [enrich_ip_v].
  rewrite dict_lookup_set_eq, dict_set_set. cbn [dict_set].
  (* certificate *)
  unfold enrich_tls, dict_mem, getitem.
  rewrite !(dict_lookup_set_ne "enrichment" "probes") by discriminate. rewrite Hp.
  cbv [mbind result_bind contains]. rewrite Htls.
  (* CVE rules *)
  unfold enrich_cve, set_enrichment, dict_mem, getitem.
  rewrite !(dict_lookup_set_ne "enrichment" "probes") by discriminate. rewrite Hp.
  cbv [mbind result_bind]. rewrite match_cves_no_text by assumption.
  rewrite dict_lookup_set_eq, dict_set_set. reflexivity.
Qed.

(** X17.  The end-to-end example, from the raw event on: a Telnet target
    with an address outside the private prefixes that the database resolves
    to a country, and probes without HTTP, SSH and TLS results, is enriched
    and scored, whatever the rules, to the breakdown 15, 0, 0, 0, 5, 0 and
    the risk score 20. *)
Theorem pipeline_telnet_example (city : geoip.reader) (r : geoip.city_response)
    (now1 now2 : datetime.t) (event t p : dict) (ip : string) :
  dict_lookup "target" event = Some (VDict t) ->
  dict_lookup "ip" t = Some (VStr ip) ->
  dict_lookup "port" t = Some (VInt 23) ->
  private_prefix ip = false ->
  city ip = Ok r ->
  in_strs (geoip.country_name r) scorer_markers = false ->
  dict_lookup "probes" event = Some (VDict p) ->
  dict_mem "http" p = false -> dict_mem "ssh_banner" p = false -> dict_mem "tls" p = false ->
  exists enriched doc,
    _enrich_event (Some city) b64decode_cert load_der_x509_certificate str_of_exn
      re_compile re_matches cve_engine event = Ok enriched
    /\ _compute_risk_score fromisoformat now1 now2 enriched = Ok doc
    /\ dict_lookup "risk_score" doc = Some (VInt 20)
    /\ dict_lookup "risk_breakdown" doc
       = Some (breakdown_value
                 {| port_score := 15; service_score := 0; vuln_score := 0;
                    cert_score := 0; exposure_score := 5; freshness_score := 0 |}).
Proof.
  intros Ht Hip Hport Hpriv Hcity Hc Hp Hh Hs Htls.
  set (e := [ ("geoip", VDict (fst (geoip.enrich_ip (Some city) ip)));
              ("cve_matches", VList []) ]).
  set (enriched := dict_set "enrichment" (VDict e) event).
  assert (Hb : forall now, get_risk_breakdown fromisoformat now enriched
                           = Ok (mk_breakdown 15 0 0 0 5 0)).
  { intros now.
    assert (He : enrichment_of enriched = Some e).
    { unfold enrichment_of, enriched. rewrite dict_lookup_set_eq. reflexivity. }
    apply get_risk_breakdown_of_blocks.
    - rewrite port_block_of_target_port. unfold target_port, get, enriched.
      rewrite dict_lookup_set_ne by discriminate. rewrite Ht.
      cbv [mbind result_bind]. rewrite Hport. reflexivity.
    - apply service_block_quiet. unfold quiet_probes, enriched.
      rewrite dict_lookup_set_ne by discriminate. rewrite Hp, Hs.
      unfold dict_mem in Hh. destruct (dict_lookup "http" p); [discriminate | reflexivity].
    - eapply vuln_block_none; [exact He | reflexivity].
    - eapply cert_block_none; [exact He | reflexivity].
    - erewrite exposure_block_country; [|exact He|].
      + rewrite Hc. reflexivity.
      + unfold geoip_country, e. cbn [dict_lookup String.eqb Ascii.eqb Bool.eqb].
        unfold geoip.enrich_ip. fold (private_prefix ip). rewrite Hpriv, Hcity.
        reflexivity. }
  exists enriched.
  eexists. split; [|split].
  - apply (enrich_event_plain city r event t p ip); assumption.
  - unfold _compute_risk_score, risk_scorer.calculate_risk. rewrite Hb.
    cbv [mbind result_bind]. rewrite get_risk_breakdown_set_other by reflexivity.
    rewrite Hb. reflexivity.
  - split.
    + rewrite dict_lookup_set_ne by discriminate. rewrite dict_lookup_set_eq. reflexivity.
    + apply dict_lookup_set_eq.
Qed.

End pipeline_example.


(* ===================================================================== *)
(** * Properties of the target generator                                  *)
(* ===================================================================== *)

Section target_generator_facts.

Import scanner scanner_terms base64_tables.

Lemma append_cons (x : ascii) (a b : string) : String x a +:+ b = String x (a +:+ b).
Proof. reflexivity. Qed.

Lemma append_assoc_one (cur : string) (c : ascii) (s : string) :
  (cur +:+ String c EmptyString) +:+ s = cur +:+ String c s.
Proof.
  induction cur as [|x cur IH]; [reflexivity|].
  rewrite !append_cons. f_equal. exact IH.
Qed.

Lemma append_empty_r (s : string) : s +:+ EmptyString = s.
Proof.
  induction s as [|c s IH]; [reflexivity|]. rewrite append_cons. f_equal. exact IH.
Qed.

Lemma split_dots_text (s cur rest : string) :
  no_dot s = true ->
  split_dots (s +:+ String "." rest) cur = (cur +:+ s) :: split_dots rest EmptyString.
Proof.
  revert cur. induction s as [|c s IH]; intros cur H.
  - change (EmptyString +:+ String "." rest) with (String "." rest).
    cbn [split_dots Ascii.eqb Bool.eqb]. rewrite append_empty_r. reflexivity.
  - cbn [no_dot] in H. apply andb_prop in H as [Hc Hs]. apply negb_true_iff in Hc.
    rewrite append_cons. cbn [split_dots]. rewrite Hc. rewrite IH by exact Hs.
    rewrite append_assoc_one. reflexivity.
Qed.

Lemma split_dots_last (s cur : string) :
  no_dot s = true -> split_dots s cur = [cur +:+ s].
Proof.
  revert cur. induction s as [|c s IH]; intros cur H.
  - cbn [split_dots]. rewrite append_empty_r. reflexivity.
  - cbn [no_dot] in H. apply andb_prop in H as [Hc Hs]. apply negb_true_iff in Hc.
    cbn [split_dots]. rewrite Hc. rewrite IH by exact Hs.
    rewrite append_assoc_one. reflexivity.
Qed.

Lemma octet_texts_ok : forallb octet_text_ok (below 256) = true.
Proof. vm_compute. reflexivity. Qed.

Lemma octet_text_facts (a : Z) :
  0 <= a <= 255 ->
  no_dot (geoip.dec a) = true
  /\ parse_octet (geoip.dec a) = Some a
  /\ String.eqb (geoip.dec a) "127" = (a =? 127)
  /\ String.eqb (geoip.dec a) "10" = (a =? 10)
  /\ String.eqb (geoip.dec a) "172" = (a =? 172)
  /\ String.eqb (geoip.dec a) "16" = (a =? 16)
  /\ String.eqb (geoip.dec a) "192" = (a =? 192)
  /\ String.eqb (geoip.dec a) "168" = (a =? 168).
Proof.
  intros Ha.
  assert (H : octet_text_ok a = true) by (apply (below_forallb 256 _ a octet_texts_ok); lia).
  unfold octet_text_ok in H.
  repeat match goal with
         | H0 : (_ && _) = true |- _ => apply andb_prop in H0 as [? ?]
         end.
  repeat match goal with
         | H0 : Bool.eqb _ _ = true |- _ => apply Bool.eqb_prop in H0
         end.
  destruct (parse_octet (geoip.dec a)) as [a'|]; [|discriminate].
  match goal with H0 : (a' =? a) = true |- _ => apply Z.eqb_eq in H0; subst a' end.
  repeat split; assumption.
Qed.

Lemma valid_ipv4_octets (a1 a2 a3 a4 : Z) :
  geoip.valid_ipv4 (a1, a2, a3, a4) = true ->
  0 <= a1 <= 255 /\ 0 <= a2 <= 255 /\ 0 <= a3 <= 255 /\ 0 <= a4 <= 255.
Proof.
  unfold geoip.valid_ipv4, datetime.in_range. intros H.
  repeat match goal with
         | H0 : (_ && _) = true |- _ => apply andb_prop in H0 as [? ?]
         end.
  repeat match goal with
         | H0 : (_ <=? _) = true |- _ => apply Z.leb_le in H0
         end.
  lia.
Qed.

Lemma parse_ipv4_str (a : geoip.ipv4) :
  geoip.valid_ipv4 a = true -> parse_ipv4 (geoip.ipv4_str a) = Some (pack a).
Proof.
  destruct a as [[[a1 a2] a3] a4]. intros H.
  apply valid_ipv4_octets in H as (H1 & H2 & H3 & H4).
  destruct (octet_text_facts a1 H1) as (N1 & P1 & _).
  destruct (octet_text_facts a2 H2) as (N2 & P2 & _).
  destruct (octet_text_facts a3 H3) as (N3 & P3 & _).
  destruct (octet_text_facts a4 H4) as (N4 & P4 & _).
  unfold parse_ipv4, geoip.ipv4_str.
  repeat change ("." +:+ ?x) with (String "." x).
  rewrite !split_dots_text by assumption. rewrite split_dots_last by assumption.
  change (EmptyString +:+ ?x) with x. rewrite P1, P2, P3, P4. reflexivity.
Qed.

Lemma ip_address_text (parse_ipv6 : string -> option Z) (n : Z) :
  0 <= n < 2 ^ 32 ->
  ip_address parse_ipv6 (inet_ntoa n) = Some (IPv4Address n).
Proof.
  intros Hn. unfold ip_address, inet_ntoa.
  rewrite parse_ipv4_str.
  - f_equal. f_equal. unfold pack.
    change (2 ^ 24) with 16777216. change (2 ^ 16) with 65536. change (2 ^ 8) with 256.
    change (2 ^ 32) with 4294967296 in Hn.
    Z.div_mod_to_equations. lia.
  - unfold geoip.valid_ipv4, datetime.in_range.
    repeat (apply andb_true_intro; split); try apply Z.leb_le;
      match goal with |- context [?x mod 256] => pose proof (Z.mod_pos_bound x 256) end; lia.
Qed.

(** X18.  The text of a dotted quad reads back as the address it was
    written from: [ip_address] on the output of [inet_ntoa] is the IPv4
    address with the number that was packed, for every 32-bit number. *)
Theorem ip_address_inet_ntoa (parse_ipv6 : string -> option Z) (n : Z) :
  0 <= n < 2 ^ 32 ->
  ip_address parse_ipv6 (inet_ntoa n) = Some (IPv4Address n).
Proof. exact (ip_address_text parse_ipv6 n). Qed.

Lemma testbit_above (n i : Z) : 0 <= n < 2 ^ 32 -> 32 <= i -> Z.testbit n i = false.
Proof.
  intros Hn Hi. destruct (Z.eq_dec n 0) as [->|Hz]; [apply Z.bits_0|].
  apply Z.bits_above_log2; [lia|].
  assert (Z.log2 n < 32) by (apply Z.log2_lt_pow2; lia). lia.
Qed.

Lemma land_netmask (p n : Z) :
  0 <= p <= 32 -> 0 <= n < 2 ^ 32 ->
  Z.land n (netmask p) = Z.shiftl (Z.shiftr n (32 - p)) (32 - p).
Proof.
  intros Hp Hn. unfold netmask.
  assert (Hm : 2 ^ 32 - 2 ^ (32 - p) = Z.shiftl (Z.ones p) (32 - p)).
  { rewrite Z.shiftl_mul_pow2 by lia. rewrite Z.ones_equiv.
    assert (H32 : 2 ^ 32 = 2 ^ p * 2 ^ (32 - p))
      by (rewrite <- Z.pow_add_r by lia; f_equal; lia).
    rewrite H32. unfold Z.pred. ring. }
  rewrite Hm. apply Z.bits_inj'. intros i Hi.
  rewrite Z.land_spec, !Z.shiftl_spec by lia.
  destruct (Z.ltb_spec i (32 - p)) as [Hlt|Hge].
  - rewrite !(Z.testbit_neg_r _ (i - (32 - p))) by lia. apply andb_false_r.
  - rewrite Z.shiftr_spec by lia. replace (i - (32 - p) + (32 - p)) with i by lia.
    destruct (Z.ltb_spec i 32) as [Hlt|Hge32].
    + rewrite Z.ones_spec_low by lia. apply andb_true_r.
    + rewrite Z.ones_spec_high by lia. rewrite testbit_above by assumption. reflexivity.
Qed.

Lemma in_private_ranges (n : Z) :
  0 <= n < 2 ^ 32 ->
  existsb (in_network (IPv4Address n)) PRIVATE_RANGES
  = private_octets (n / 2 ^ 24) (n / 2 ^ 16 mod 256).
Proof.
  intros Hn. unfold PRIVATE_RANGES, private_octets.
  cbv [existsb in_network fst snd].
  rewrite !land_netmask by lia.
  rewrite !Z.shiftl_mul_pow2, !Z.shiftr_div_pow2 by lia.
  change (32 - 8) with 24. change (32 - 12) with 20. change (32 - 16) with 16.
  change (2 ^ 24) with 16777216. change (2 ^ 20) with 1048576. change (2 ^ 16) with 65536.
  change (2 ^ 32) with 4294967296 in Hn.
  apply eq_true_iff_eq.
  rewrite !orb_true_iff, !andb_true_iff, !Z.eqb_eq, !Z.leb_le.
  Z.div_mod_to_equations. lia.
Qed.

(** X19.  On the text of every 32-bit number [is_private_ip] answers by the
    first two octets: 10.x, 172.16.x to 172.31.x, 192.168.x, 127.x and
    169.254.x are private, every other address is not. *)
Theorem is_private_ip_by_octets (parse_ipv6 : string -> option Z) (n : Z) :
  0 <= n < 2 ^ 32 ->
  is_private_ip parse_ipv6 (inet_ntoa n)
  = private_octets (n / 2 ^ 24) (n / 2 ^ 16 mod 256).
Proof.
  intros Hn. unfold is_private_ip. rewrite ip_address_text by exact Hn.
  apply in_private_ranges. exact Hn.
Qed.

Lemma generate_random_ip_find (parse_ipv6 : string -> option Z) (draws : list Z) :
  Forall drawn draws ->
  generate_random_ip parse_ipv6 draws = option_map inet_ntoa (List.find public_number draws).
Proof.
  induction 1 as [|n draws Hn _ IH]; [reflexivity|].
  cbn [generate_random_ip List.find]. unfold is_private_ip.
  rewrite ip_address_text by (unfold drawn in Hn; change (2 ^ 32) with 4294967296; lia).
  rewrite in_private_ranges by (unfold drawn in Hn; change (2 ^ 32) with 4294967296; lia).
  fold (public_number n). destruct (public_number n); [reflexivity | exact IH].
Qed.

(** X20.  Fed with the numbers the random source gives, [generate_random_ip]
    returns the dotted quad of the first number that lies outside the five
    private ranges and passes over the numbers before it; it returns as soon
    as such a number is drawn, and what it returns is never private. *)
Theorem generate_random_ip_first_public (parse_ipv6 : string -> option Z) (draws : list Z) :
  Forall drawn draws ->
  generate_random_ip parse_ipv6 draws = option_map inet_ntoa (List.find public_number draws)
  /\ forall ip, generate_random_ip parse_ipv6 draws = Some ip ->
                is_private_ip parse_ipv6 ip = false.
Proof.
  intros Hd. split; [apply generate_random_ip_find; exact Hd|].
  clear Hd. induction draws as [|n draws IH]; intros ip; cbn [generate_random_ip].
  - discriminate.
  - destruct (is_private_ip parse_ipv6 (inet_ntoa n)) eqn:Hp; cbn [negb].
    + apply IH.
    + intros [= <-]. exact Hp.
Qed.

Lemma startswith_text (s t rest q : string) :
  no_dot s = true -> no_dot t = true ->
  startswith (s +:+ String "." rest) (t +:+ String "." q)
  = String.eqb s t && startswith rest q.
Proof.
  revert s. induction t as [|d t IH]; intros s Hs Ht.
  - destruct s as [|c s].
    + reflexivity.
    + cbn [no_dot] in Hs. apply andb_prop in Hs as [Hc _]. apply negb_true_iff in Hc.
      rewrite append_cons. change (EmptyString +:+ String "." q) with (String "." q).
      cbn [startswith String.eqb]. rewrite Ascii.eqb_sym, Hc. reflexivity.
  - cbn [no_dot] in Ht. apply andb_prop in Ht as [Hd Ht]. apply negb_true_iff in Hd.
    destruct s as [|c s].
    + change (EmptyString +:+ String "." rest) with (String "." rest).
      rewrite append_cons. cbn [startswith String.eqb]. rewrite Hd. reflexivity.
    + cbn [no_dot] in Hs. apply andb_prop in Hs as [_ Hs].
      rewrite !append_cons. cbn [startswith String.eqb].
      rewrite IH by assumption. rewrite (Ascii.eqb_sym d c). apply andb_assoc.
Qed.

Lemma private_prefix_str (a : geoip.ipv4) :
  geoip.valid_ipv4 a = true ->
  enrich_terms.private_prefix (geoip.ipv4_str a)
  = let '(a1, a2, _, _) := a in prefix_octets a1 a2.
Proof.
  destruct a as [[[a1 a2] a3] a4]. intros H.
  apply valid_ipv4_octets in H as (H1 & H2 & _ & _).
  destruct (octet_text_facts a1 H1) as (N1 & _ & E127 & E10 & E172 & _ & E192 & _).
  destruct (octet_text_facts a2 H2) as (N2 & _ & _ & _ & _ & E16 & _ & E168).
  unfold enrich_terms.private_prefix, geoip.ipv4_str, prefix_octets.
  repeat change ("." +:+ ?x) with (String "." x).
  change "127." with ("127" +:+ String "." EmptyString).
  change "10." with ("10" +:+ String "." EmptyString).
  change "172.16." with ("172" +:+ String "." ("16" +:+ String "." EmptyString)).
  change "192.168." with ("192" +:+ String "." ("168" +:+ String "." EmptyString)).
  rewrite !startswith_text by (assumption || reflexivity).
  rewrite E127, E10, E172, E192, E16, E168.
  cbn [startswith]. rewrite !andb_true_r. reflexivity.
Qed.

Lemma octet_bounds (n : Z) :
  0 <= n < 2 ^ 32 ->
  geoip.valid_ipv4 (n / 2 ^ 24 mod 256, n / 2 ^ 16 mod 256, n / 2 ^ 8 mod 256, n mod 256) = true
  /\ n / 2 ^ 24 mod 256 = n / 2 ^ 24.
Proof.
  intros Hn. split.
  - unfold geoip.valid_ipv4, datetime.in_range.
    repeat (apply andb_true_intro; split); try apply Z.leb_le;
      match goal with |- context [?x mod 256] => pose proof (Z.mod_pos_bound x 256) end; lia.
  - change (2 ^ 24) with 16777216. change (2 ^ 32) with 4294967296 in Hn.
    Z.div_mod_to_equations. lia.
Qed.

Lemma private_prefix_number (n : Z) :
  0 <= n < 2 ^ 32 ->
  enrich_terms.private_prefix (inet_ntoa n) = prefix_octets (n / 2 ^ 24) (n / 2 ^ 16 mod 256).
Proof.
  intros Hn. destruct (octet_bounds n Hn) as [Hv Ha].
  unfold inet_ntoa. rewrite private_prefix_str by exact Hv. rewrite Ha. reflexivity.
Qed.

Lemma prefix_octets_private (a1 a2 : Z) :
  prefix_octets a1 a2 = true -> private_octets a1 a2 = true.
Proof.
  unfold prefix_octets, private_octets.
  rewrite !orb_true_iff, !andb_true_iff, !Z.eqb_eq, !Z.leb_le. lia.
Qed.

(** X21.  The scanner's ranges contain the enricher's prefixes: an address
    of a 32-bit number that [is_private_ip] lets through is never answered
    with the PRIVATE marker by [enrich_ip]; with a database it is handed to
    the reader, once, and without one the answer is the UNKNOWN marker. *)
Theorem public_address_is_looked_up (parse_ipv6 : string -> option Z) (n : Z)
    (city : geoip.reader) :
  0 <= n < 2 ^ 32 ->
  is_private_ip parse_ipv6 (inet_ntoa n) = false ->
  snd (geoip.enrich_ip (Some city) (inet_ntoa n)) = [inet_ntoa n]
  /\ geoip.enrich_ip None (inet_ntoa n) = (geoip.UNKNOWN, []).
Proof.
  intros Hn Hp.
  assert (Hq : enrich_terms.private_prefix (inet_ntoa n) = false).
  { rewrite private_prefix_number by exact Hn.
    destruct (prefix_octets _ _) eqn:E; [|reflexivity].
    apply prefix_octets_private in E.
    unfold is_private_ip in Hp. rewrite ip_address_text in Hp by exact Hn.
    rewrite in_private_ranges in Hp by exact Hn. congruence. }
  unfold enrich_terms.private_prefix in Hq. unfold geoip.enrich_ip. rewrite Hq.
  split; [|reflexivity].
  destruct (city (inet_ntoa n)) as [r|[]]; reflexivity.
Qed.

End target_generator_facts.

(* ===================================================================== *)
(** * Properties of the scanner's events                                  *)
(* ===================================================================== *)

Section scanner_event_facts.

Import base64 ingest ingester scanner.

Lemma create_asset_event_ok (scan_result : value) (event : dict) :
  create_asset_event scan_result = Ok event ->
  exists d timestamp ip port service,
    scan_result = VDict d
    /\ dict_lookup "timestamp" d = Some timestamp
    /\ dict_lookup "ip" d = Some ip
    /\ dict_lookup "port" d = Some port
    /\ event
       = [ ("event_type", VStr "asset_discovered");
           ("timestamp", timestamp);
           ("collector_id", VStr "internet_scanner_001");
           ("asset",
            VDict [ ("ip_address", ip);
                    ("ports",
                     VList [ VDict [ ("port", port); ("protocol", VStr "tcp");
                                     ("state", VStr "open"); ("service", VStr service);
                                     ("banner",
                                      match dict_lookup "banner" d with
                                      | Some b => b
                                      | None => VStr ""
                                      end) ] ]);
                    ("first_seen", timestamp);
                    ("last_seen", timestamp) ]);
           ("metadata",
            VDict [ ("scanner_version", VStr "1.0.0"); ("scan_type", VStr "internet_wide") ]) ].
Proof.
  destruct scan_result as [| | | | |d]; try discriminate.
  unfold create_asset_event, getitem, get.
  destruct (dict_lookup "timestamp" d) as [timestamp|] eqn:Ht; [|discriminate].
  destruct (dict_lookup "ip" d) as [ip|] eqn:Hi; [|discriminate].
  destruct (dict_lookup "port" d) as [port|] eqn:Hp; [|discriminate].
  cbv [mbind result_bind mret result_ret].
  destruct (detect_service port _) as [service|]; [|discriminate].
  intros [= <-]. exists d, timestamp, ip, port, service.
  repeat split; first [assumption | reflexivity].
Qed.

(** X22.  The document [save_event] builds from an event of
    [create_asset_event] never misses a key: it has the eight fields, the
    address, the time stamp (three times) and the one port entry of the scan
    result, and the scanner's fixed collector id as [scanner_id]. *)
Theorem save_event_doc_of_created (scan_result : value) (event : dict) :
  create_asset_event scan_result = Ok event ->
  exists doc port_entry,
    save_event_doc (VDict event) = Ok doc
    /\ map fst doc = [ "timestamp"; "ip_address"; "ports"; "first_seen"; "last_seen";
                       "scanner_id"; "event_type"; "metadata" ]
    /\ getitem (VDict doc) "ip_address" = getitem scan_result "ip"
    /\ getitem (VDict doc) "timestamp" = getitem scan_result "timestamp"
    /\ getitem (VDict doc) "first_seen" = getitem scan_result "timestamp"
    /\ getitem (VDict doc) "last_seen" = getitem scan_result "timestamp"
    /\ getitem (VDict doc) "scanner_id" = Ok (VStr "internet_scanner_001")
    /\ getitem (VDict doc) "ports" = Ok (VList [VDict port_entry])
    /\ getitem (VDict port_entry) "port" = getitem scan_result "port".
Proof.
  intros H. apply create_asset_event_ok in H
    as (d & timestamp & ip & port & service & -> & Ht & Hi & Hp & ->).
  eexists _, [ ("port", port); ("protocol", VStr "tcp"); ("state", VStr "open");
               ("service", VStr service);
               ("banner", match dict_lookup "banner" d with Some b => b | None => VStr "" end) ].
  split; [reflexivity|].
  repeat split; unfold getitem; rewrite ?Ht, ?Hi, ?Hp; reflexivity.
Qed.

Section two_saves.

Variable auto_id : gmap (string * string) dict -> string.

Local Abbreviation day_index now := ("assets-" +:+ strftime_Y_m_d now).

Lemma save_event_created (now : datetime.t) (scan_result : value) (event : dict)
    (os : opensearch) :
  create_asset_event scan_result = Ok event ->
  exists doc,
    save_event_doc (VDict event) = Ok doc
    /\ documents (save_event auto_id now true (VDict event) os)
       = <[(day_index now, auto_id (documents os)) := doc]> (documents os).
Proof.
  intros H. apply create_asset_event_ok in H
    as (d & timestamp & ip & port & service & -> & Ht & Hi & Hp & ->).
  eexists. split; [reflexivity|]. reflexivity.
Qed.

(** X23.  The scanner posts its documents without an id: when the service
    answers and gives every document a fresh id, saving one event twice
    leaves two documents in the index, where the ingest sink, which writes
    under the id of the event, leaves one. *)
Theorem save_event_twice_two_documents (now1 now2 : datetime.t) (scan_result : value)
    (event : dict) (os : opensearch) :
  create_asset_event scan_result = Ok event ->
  let os1 := save_event auto_id now1 true (VDict event) os in
  let os2 := save_event auto_id now2 true (VDict event) os1 in
  documents os !! (day_index now1, auto_id (documents os)) = None ->
  documents os1 !! (day_index now2, auto_id (documents os1)) = None ->
  size (documents os2) = S (S (size (documents os)))
  /\ exists doc, documents os2 !! (day_index now1, auto_id (documents os)) = Some doc
                 /\ documents os2 !! (day_index now2, auto_id (documents os1)) = Some doc.
Proof.
  intros H os1 os2 F1 F2.
  destruct (save_event_created now1 scan_result event os H) as (doc & Hd & E1).
  destruct (save_event_created now2 scan_result event os1 H) as (doc' & Hd' & E2).
  assert (doc' = doc) by congruence. subst doc'.
  fold os1 in E1. fold os2 in E2.
  assert (Hne : (day_index now1, auto_id (documents os))
                <> (day_index now2, auto_id (documents os1))).
  { intros E. rewrite <- E in F2. rewrite E1 in F2. rewrite lookup_insert_eq in F2.
    discriminate. }
  split.
  - rewrite E2, map_size_insert_None by exact F2.
    rewrite E1, map_size_insert_None by exact F1. reflexivity.
  - exists doc. split.
    + rewrite E2, lookup_insert_ne by (intros E; apply Hne; symmetry; exact E).
      rewrite E1. apply lookup_insert_eq.
    + rewrite E2. apply lookup_insert_eq.
Qed.

End two_saves.

Section handed_to_ingest.

Variable geoip_reader : option geoip.reader.
Variable b64decode_cert : string -> result bytes.
Variable load_der_x509_certificate : bytes -> result tls_parser.certificate.
Variable str_of_exn : exn -> string.
Variable re_compile : string -> result unit.
Variable re_matches : string -> string -> bool.
Variable cve_engine : list value.
Variable str_upper : string -> string.
Variable fromisoformat : string -> option datetime.t.
Variable VerifyKey : Type.
Variable verify : VerifyKey -> bytes -> bytes -> result bytes.
Variable public_keys : gmap string VerifyKey.
Variable json_loads : bytes -> result value.
Variable format_id : value -> string.
Variable render_id : value -> string.
Variable auto_id : gmap (string * string) dict -> string.
Variable writable : string -> bool.
Variable canonical_json : dict -> bytes.
Variable cfg : Config.

Local Abbreviation process :=
  (process_event_file geoip_reader b64decode_cert load_der_x509_certificate str_of_exn
     re_compile re_matches cve_engine str_upper fromisoformat VerifyKey verify public_keys
     json_loads format_id render_id auto_id writable canonical_json cfg).

Lemma process_without_id (objects : gmap string bytes) (ck : clock) (f : fault)
    (object_name : string) (w : opensearch * files) (event_payload : bytes) (event : dict) :
  objects !! object_name = Some event_payload ->
  json_loads event_payload = Ok (VDict event) ->
  dict_lookup "id" event = None ->
  process objects ck f object_name w = w.
Proof.
  intros Ho Hj Hid. unfold process_event_file. rewrite Ho.
  destruct (endswith object_name ".json"); [|reflexivity].
  destruct (objects !! (object_name +:+ ".sig")); [|reflexivity].
  rewrite Hj. unfold get. cbv [mbind result_bind]. rewrite Hid. reflexivity.
Qed.

(** X24.  An event in the format [create_asset_event] produces has no [id]:
    whatever the object is called and however it is signed, the ingester
    skips it and writes nothing to the index or the archive. *)
Theorem process_drops_scanner_event (objects : gmap string bytes) (ck : clock) (f : fault)
    (object_name : string) (w : opensearch * files) (event_payload : bytes)
    (scan_result : value) (event : dict) :
  create_asset_event scan_result = Ok event ->
  objects !! object_name = Some event_payload ->
  json_loads event_payload = Ok (VDict event) ->
  process objects ck f object_name w = w.
Proof.
  intros H Ho Hj. apply (process_without_id _ _ _ _ _ _ _ Ho Hj).
  apply create_asset_event_ok in H as (d & timestamp & ip & port & service & _ & _ & _ & _ & ->).
  reflexivity.
Qed.

End handed_to_ingest.

Lemma ascii_lower_upper (c : ascii) : ascii_lower (ascii_upper c) = ascii_lower c.
Proof. destruct c as [[] [] [] [] [] [] [] []]; vm_compute; reflexivity. Qed.

Lemma ascii_lower_lower (c : ascii) : ascii_lower (ascii_lower c) = ascii_lower c.
Proof. destruct c as [[] [] [] [] [] [] [] []]; vm_compute; reflexivity. Qed.

Lemma lower_upper (s : string) : lower (upper s) = lower s.
Proof.
  unfold lower, upper. induction s as [|c s IH]; [reflexivity|].
  cbn [str_map]. rewrite ascii_lower_upper, IH. reflexivity.
Qed.

Lemma lower_lower (s : string) : lower (lower s) = lower s.
Proof.
  unfold lower. induction s as [|c s IH]; [reflexivity|].
  cbn [str_map]. rewrite ascii_lower_lower, IH. reflexivity.
Qed.

(** X25.  The banner is matched without regard to case: on ASCII text,
    upper-casing or lower-casing the banner does not change the service
    detected, whatever the port. *)
Theorem detect_service_ignores_case (port : value) (banner : string) :
  detect_service port (VStr (upper banner)) = detect_service port (VStr banner)
  /\ detect_service port (VStr (lower banner)) = detect_service port (VStr banner).
Proof.
  unfold detect_service, lower_m, truthy.
  destruct (port_default port) as [service|e]; [|split; reflexivity].
  cbv [mbind result_bind]. rewrite lower_upper, lower_lower.
  split; destruct banner; reflexivity.
Qed.

End scanner_event_facts.

(* ===================================================================== *)
(** * More on the banner capture                                          *)
(* ===================================================================== *)

Section banner_text_facts.

Import base64 scanner.

Lemma utf8_decode_ascii (on_error : unicode.str) (zs : list Z) :
  Forall (fun z => z < 128) zs -> unicode.utf8_decode on_error zs = zs.
Proof.
  induction 1 as [|z zs Hz _ IH]; [reflexivity|].
  cbn [unicode.utf8_decode]. apply Z.ltb_lt in Hz. rewrite Hz, IH. reflexivity.
Qed.

Lemma lstrip_head (c : Z) (s : unicode.str) :
  unicode.isspace c = false -> unicode.lstrip (c :: s) = c :: s.
Proof. intros H. cbn [unicode.lstrip]. rewrite H. reflexivity. Qed.

Lemma strip_bare (s : unicode.str) (d : Z) :
  s <> [] ->
  unicode.isspace (hd d s) = false ->
  unicode.isspace (List.last s d) = false ->
  unicode.strip s = s.
Proof.
  intros Hne Hh Hl. unfold unicode.strip, unicode.rstrip.
  destruct s as [|c s]; [congruence|]. cbn [hd] in Hh.
  rewrite lstrip_head by exact Hh.
  rewrite (app_removelast_last d Hne) at 1.
  rewrite rev_app_distr. cbn [rev app]. rewrite lstrip_head by exact Hl.
  change (List.last (c :: s) d :: rev (removelast (c :: s)))
    with (rev [List.last (c :: s) d] ++ rev (removelast (c :: s)))%list.
  rewrite <- rev_app_distr, rev_involutive.
  symmetry. apply app_removelast_last. exact Hne.
Qed.

(** X26.  A banner of ASCII bytes that neither begins nor ends with white
    space and is at most 500 bytes long is captured as it was received, byte
    for byte. *)
Theorem grab_banner_ascii_verbatim (st : stats) (sock : socket) (port : Z) (banner : bytes) :
  setblocking sock false = Ok tt ->
  (port = 80 \/ port = 8080 -> is_ok (send sock http_probe) = true) ->
  recv sock 1024 = Ok banner ->
  banner <> [] ->
  Forall (fun b => Z_of_byte b < 128) banner ->
  unicode.isspace (hd 0 (map Z_of_byte banner)) = false ->
  unicode.isspace (List.last (map Z_of_byte banner) 0) = false ->
  (length banner <= 500)%nat ->
  grab_banner st sock port
  = Ok (Some (map Z_of_byte banner),
        mk_stats (scanned st) (open_ports st) (services_detected st + 1)).
Proof.
  intros Hb Hs Hr Hne Ha Hh Hl Hlen.
  unfold grab_banner. rewrite Hb. cbv [mbind result_bind].
  assert (Hsend : exists n,
             (if (port =? 80) || (port =? 8080) then send sock http_probe
              else if port =? 22 then Ok 0 else if port =? 21 then Ok 0
              else if port =? 25 then Ok 0 else Ok 0) = Ok n).
  { destruct ((port =? 80) || (port =? 8080)) eqn:Hp.
    - apply orb_prop in Hp. rewrite !Z.eqb_eq in Hp. specialize (Hs Hp).
      destruct (send sock http_probe) as [n|]; [eauto | discriminate].
    - destruct (port =? 22), (port =? 21), (port =? 25); eauto. }
  destruct Hsend as [n ->]. rewrite Hr.
  assert (Ht : unicode.slice_to 500 (unicode.strip (unicode.decode_ignore banner))
               = map Z_of_byte banner).
  { unfold unicode.decode_ignore.
    rewrite utf8_decode_ascii by (apply Forall_map; exact Ha).
    rewrite (strip_bare _ 0) by
      first [assumption | destruct banner; [congruence | discriminate]].
    unfold unicode.slice_to. apply firstn_all2. rewrite length_map. exact Hlen. }
  destruct banner as [|b0 rest]; [congruence|]. rewrite Ht. reflexivity.
Qed.

End banner_text_facts.

(* ===================================================================== *)
(** * The further properties at sample inputs                             *)
(* ===================================================================== *)

Lemma vuln_score_is_weighted_sum_witness :
  let cves := [ VDict [("cve_id", VStr "CVE-A"); ("severity", VStr "high")];
                VDict [("cve_id", VStr "CVE-B"); ("severity", VStr "Low")];
                VDict [("cve_id", VStr "CVE-C")] ] in
  let event := [("enrichment", VDict [("cve_matches", VList cves)])] in
  risk_scorer.vuln_block upper event = Ok 25
  /\ forall b, risk_scorer.get_risk_breakdown upper datetime.fromisoformat_ref
                 risk_spec.new_year_2026 event = Ok b ->
               risk_scorer.vuln_score b = 25.
Proof.
  intros cves event.
  apply (vuln_score_is_weighted_sum upper datetime.fromisoformat_ref risk_spec.new_year_2026
           event [("cve_matches", VList cves)] cves); reflexivity.
Defined.

Lemma breakdown_component_ranges_witness :
  let b := {| risk_scorer.port_score := 15; risk_scorer.service_score := 0;
              risk_scorer.vuln_score := 0; risk_scorer.cert_score := 0;
              risk_scorer.exposure_score := 5; risk_scorer.freshness_score := 0 |} in
  risk_scorer.get_risk_breakdown upper datetime.fromisoformat_ref risk_spec.new_year_2026
    (risk_spec.telnet_event "Germany") = Ok b
  /\ 0 <= risk_scorer.sum (risk_scorer.values b) <= 52 + risk_scorer.vuln_score b.
Proof.
  intros b. split; [reflexivity|].
  apply (breakdown_component_ranges upper datetime.fromisoformat_ref risk_spec.new_year_2026
           (risk_spec.telnet_event "Germany") b).
  reflexivity.
Defined.

Lemma scorer_reads_three_keys_witness :
  let event := risk_spec.telnet_event "Germany" in
  risk_terms.scorer_key "risk_score" = false
  /\ risk_scorer.get_risk_breakdown upper datetime.fromisoformat_ref risk_spec.new_year_2026
       (dict_set "risk_score" (VInt 99) event)
     = risk_scorer.get_risk_breakdown upper datetime.fromisoformat_ref risk_spec.new_year_2026 event
  /\ risk_scorer.calculate_risk upper datetime.fromisoformat_ref risk_spec.new_year_2026
       (dict_set "risk_score" (VInt 99) event)
     = risk_scorer.calculate_risk upper datetime.fromisoformat_ref risk_spec.new_year_2026 event.
Proof.
  intros event. split; [reflexivity|].
  apply (scorer_reads_three_keys upper datetime.fromisoformat_ref risk_spec.new_year_2026
           event "risk_score" (VInt 99)).
  reflexivity.
Defined.

Lemma exposure_after_enrich_ip_witness :
  let rd := Some samples.reader_berlin in
  let e := [("geoip", VDict (fst (geoip.enrich_ip rd "203.0.113.7")))] in
  let event := [("enrichment", VDict e)] in
  risk_scorer.exposure_block event = Ok 5
  /\ forall b, risk_scorer.get_risk_breakdown upper datetime.fromisoformat_ref
                 risk_spec.new_year_2026 event = Ok b ->
               risk_scorer.exposure_score b = 5.
Proof.
  intros rd e event.
  apply (exposure_after_enrich_ip upper datetime.fromisoformat_ref risk_spec.new_year_2026
           rd "203.0.113.7" event e); reflexivity.
Defined.

Lemma cert_score_of_unparsed_witness :
  let parsed := tls_parser.parse_certificate base64.b64decode samples.load_none
                  samples.exn_text "abc" in
  let e := [("tls_cert", VDict parsed)] in
  let event := [("enrichment", VDict e)] in
  parsed = [("error", VStr "error")]
  /\ risk_scorer.cert_block datetime.fromisoformat_ref risk_spec.new_year_2026 event = Ok 0
  /\ forall b, risk_scorer.get_risk_breakdown upper datetime.fromisoformat_ref
                 risk_spec.new_year_2026 event = Ok b ->
               risk_scorer.cert_score b = 0.
Proof.
  intros parsed e event. split; [reflexivity|].
  apply (cert_score_of_unparsed upper datetime.fromisoformat_ref risk_spec.new_year_2026
           base64.b64decode samples.load_none samples.exn_text "abc" BinasciiError event e);
    reflexivity.
Defined.

Lemma cert_score_of_parsed_witness :
  let load := samples.load_as samples.cert_expired in
  let e := [("tls_cert",
             VDict (tls_parser.parse_certificate base64.b64decode load samples.exn_text "AQID"))] in
  let event := [("enrichment", VDict e)] in
  risk_scorer.cert_block datetime.fromisoformat_ref risk_spec.new_year_2026 event = Ok 25.
Proof.
  intros load e event.
  apply (cert_score_of_parsed datetime.fromisoformat_ref risk_spec.new_year_2026
           base64.b64decode load samples.exn_text "AQID" [Byte.x01; Byte.x02; Byte.x03]
           samples.cert_expired [("2.5.4.3", "example.org")] [("2.5.4.3", "example.org")]
           (datetime.mk 2025 6 1 0 0 0 0 (Some 0))
           (datetime.mk 2025 6 1 0 0 0 0 (Some 0)) true event e);
    reflexivity.
Defined.

Lemma cert_score_of_unreadable_witness :
  let load := samples.load_as samples.cert_bad_key in
  let parsed := tls_parser.parse_certificate base64.b64decode load samples.exn_text "AQID" in
  let event := [("enrichment", VDict [("tls_cert", VDict parsed)])] in
  parsed = [("error", VStr "error")]
  /\ risk_scorer.cert_block datetime.fromisoformat_ref risk_spec.new_year_2026 event = Ok 0
  /\ forall b, risk_scorer.get_risk_breakdown upper datetime.fromisoformat_ref
                 risk_spec.new_year_2026 event = Ok b ->
               risk_scorer.cert_score b = 0.
Proof.
  intros load parsed event.
  apply (cert_score_of_unreadable upper datetime.fromisoformat_ref risk_spec.new_year_2026
           base64.b64decode load samples.exn_text "AQID" [Byte.x01; Byte.x02; Byte.x03]
           samples.cert_bad_key ValueError event [("tls_cert", VDict parsed)]);
    reflexivity.
Defined.

Lemma match_cves_in_rule_order_witness :
  let rules := [cve_spec.rule_ftp; cve_spec.rule_nginx; cve_spec.rule_mixed] in
  let probes := cve_spec.probes_http "nginx/1.18.0" in
  cve_rules.match_cves cve_rules.re_compile_ref cve_rules.re_matches_ref rules probes
  = Ok [cve_spec.nginx_match].
Proof.
  intros rules probes.
  apply (match_cves_in_rule_order cve_rules.re_compile_ref cve_rules.re_matches_ref
           rules probes); reflexivity.
Defined.

Lemma match_cves_aborts_on_unhandled_regex_witness :
  let probes := cve_spec.probes_http "nginx/1.18.0" in
  let match_cves := cve_rules.match_cves cve_rules.re_compile_ref cve_rules.re_matches_ref in
  (cve_rules.re_compile_ref "a{4294967296}" = Raise OverflowError
   /\ match_cves [cve_spec.rule_nginx; cve_spec.rule_ftp] probes = Ok [cve_spec.nginx_match])
  /\ match_cves [cve_spec.rule_nginx; cve_spec.rule_overflow; cve_spec.rule_ftp] probes
     = Raise OverflowError.
Proof.
  intros probes match_cves. split; [split; reflexivity|].
  apply (match_cves_aborts_on_unhandled_regex cve_rules.re_compile_ref
           cve_rules.re_matches_ref [cve_spec.rule_nginx] [cve_spec.rule_ftp]
           [("cve_id", VStr "CVE-TEST-5"); ("server_regex", VStr "a{4294967296}")]
           (VStr "a{4294967296}") OverflowError probes "nginx/1.18.0");
    reflexivity.
Defined.

(** The same with a regex that is a number, whatever the engine. *)
Example match_cves_number_regex (re_compile : string -> result unit)
    (re_matches : string -> string -> bool) :
  cve_rules.match_cves re_compile re_matches [cve_spec.rule_number; cve_spec.rule_nginx]
    (cve_spec.probes_http "nginx/1.18.0")
  = Raise TypeError.
Proof. reflexivity. Qed.

Lemma enrich_event_shape_witness :
  let event := dict_set "enrichment" (VStr "stale") samples.telnet_raw in
  exists event',
    ingester._enrich_event (Some samples.reader_berlin) base64.b64decode samples.load_none
      samples.exn_text cve_rules.re_compile_ref cve_rules.re_matches_ref
      [cve_spec.rule_nginx] event = Ok event'
    /\ (forall k, k <> "enrichment" -> dict_lookup k event' = dict_lookup k event)
    /\ exists e, dict_lookup "enrichment" event' = Some (VDict e)
                 /\ forallb (fun kv => enrich_terms.enrichment_key (fst kv)) e = true.
Proof.
  intros event. eexists. split; [reflexivity|].
  apply (enrich_event_shape (Some samples.reader_berlin) base64.b64decode samples.load_none
           samples.exn_text cve_rules.re_compile_ref cve_rules.re_matches_ref
           [cve_spec.rule_nginx] event).
  reflexivity.
Defined.

Lemma compute_risk_score_fields_witness :
  let event := risk_spec.telnet_event "Germany" in
  let now := risk_spec.new_year_2026 in
  exists doc b1 b2,
    ingester._compute_risk_score upper datetime.fromisoformat_ref now now event = Ok doc
    /\ risk_scorer.get_risk_breakdown upper datetime.fromisoformat_ref now event = Ok b1
    /\ risk_scorer.get_risk_breakdown upper datetime.fromisoformat_ref now event = Ok b2
    /\ dict_lookup "risk_score" doc
       = Some (VInt (risk_scorer.clamp (risk_scorer.sum (risk_scorer.values b1)) 0 100))
    /\ dict_lookup "risk_breakdown" doc = Some (ingester.breakdown_value b2)
    /\ (forall k, k <> "risk_score" -> k <> "risk_breakdown" ->
                  dict_lookup k doc = dict_lookup k event)
    /\ (now = now -> b1 = b2).
Proof.
  intros event now.
  destruct (compute_risk_score_fields upper datetime.fromisoformat_ref now now event
              (dict_set "risk_breakdown"
                 (ingester.breakdown_value
                    {| risk_scorer.port_score := 15; risk_scorer.service_score := 0;
                       risk_scorer.vuln_score := 0; risk_scorer.cert_score := 0;
                       risk_scorer.exposure_score := 5; risk_scorer.freshness_score := 0 |})
                 (dict_set "risk_score" (VInt 20) event)) eq_refl)
    as (b1 & b2 & H).
  eexists _, b1, b2. split; [reflexivity | exact H].
Defined.

Lemma bad_key_empties_registry_witness :
  let d := [("c-1", VStr "AQID"); ("c-2", VStr "abc")] in
  loaders._load_public_keys base64.bytes (fun raw => Ok raw) base64.b64decode (Ok (VDict d)) = ∅
  /\ forall verify event_data signature_b64 collector_id,
       ingest._verify_signature base64.bytes base64.b64decode verify
         (loaders._load_public_keys base64.bytes (fun raw => Ok raw) base64.b64decode
            (Ok (VDict d)))
         event_data signature_b64 collector_id
       = Ok false.
Proof.
  intros d.
  apply (bad_key_empties_registry base64.bytes (fun raw => Ok raw) base64.b64decode d
           "c-2" (VStr "abc") BinasciiError).
  - right. left. reflexivity.
  - reflexivity.
Defined.

Lemma sound_keys_fill_registry_witness :
  let d := [("c-1", VStr "AQID"); ("c-2", VStr "AAAA")] in
  loaders._load_public_keys base64.bytes (fun raw => Ok raw) base64.b64decode (Ok (VDict d))
    !! "c-1"
  = Some [Byte.x01; Byte.x02; Byte.x03].
Proof.
  intros d.
  apply (sound_keys_fill_registry base64.bytes (fun raw => Ok raw) base64.b64decode d).
  - repeat constructor; simpl; intuition discriminate.
  - reflexivity.
Defined.

Lemma process_writes_only_verified_witness :
  let w' := samples.process samples.telnet_raw samples.bucket samples.clock_noon
              ingest.NoFault "event_e-1.json" ingest.empty_world in
  snd w' !! "./archive/e-1.json" <> None
  /\ exists event_payload sig event cid verify_key,
       ingester.endswith "event_e-1.json" ".json" = true
       /\ samples.bucket !! "event_e-1.json" = Some event_payload
       /\ samples.bucket !! ("event_e-1.json" +:+ ".sig") = Some sig
       /\ Ok (VDict samples.telnet_raw) = Ok (VDict event)
       /\ (exists id, dict_lookup "id" event = Some id /\ truthy id = true)
       /\ dict_lookup "collector_id" event = Some (VStr cid)
       /\ samples.registry !! cid = Some verify_key
       /\ is_ok (samples.verify_ref verify_key event_payload sig) = true.
Proof.
  intros w'.
  assert (H : snd w' !! "./archive/e-1.json" <> None) by (vm_compute; discriminate).
  split; [exact H|].
  apply (process_writes_only_verified (Some samples.reader_berlin) base64.b64decode
           samples.load_none samples.exn_text cve_rules.re_compile_ref
           cve_rules.re_matches_ref [cve_spec.rule_nginx] upper datetime.fromisoformat_ref
           base64.bytes samples.verify_ref samples.registry
           (fun _ => Ok (VDict samples.telnet_raw))
           ingest.render_id_ref ingest.render_id_ref (fun _ => "auto") (fun _ => true)
           json.canonical ingest.default_config samples.bucket samples.clock_noon
           ingest.NoFault "event_e-1.json" ingest.empty_world).
  intros E. apply H. fold (samples.process samples.telnet_raw) in E. fold w' in E.
  rewrite E. reflexivity.
Defined.

Lemma process_writes_scored_document_witness :
  exists doc,
    dict_lookup "risk_score" doc = Some (VInt 20)
    /\ samples.process samples.telnet_raw samples.bucket samples.clock_noon ingest.NoFault
         "event_e-1.json" ingest.empty_world
       = ingest.sink_write ingest.render_id_ref (fun _ => "auto") (fun _ => true)
           json.canonical ingest.default_config samples.noon ingest.NoFault "e-1" doc
           ingest.empty_world.
Proof.
  eexists. split; [|
  eapply (process_writes_scored_document (Some samples.reader_berlin) base64.b64decode
            samples.load_none samples.exn_text cve_rules.re_compile_ref
            cve_rules.re_matches_ref [cve_spec.rule_nginx] upper datetime.fromisoformat_ref
            base64.bytes samples.verify_ref samples.registry
            (fun _ => Ok (VDict samples.telnet_raw))
            ingest.render_id_ref ingest.render_id_ref (fun _ => "auto") (fun _ => true)
            json.canonical ingest.default_config samples.bucket samples.clock_noon
            ingest.NoFault "event_e-1.json" ingest.empty_world
            samples.payload (samples.key_c1 ++ samples.payload)%list samples.payload
            samples.telnet_raw _ _ (VStr "e-1") "c-1" samples.key_c1);
    first [reflexivity | discriminate]].
  reflexivity.
Defined.

Lemma pipeline_telnet_example_witness :
  exists enriched doc,
    ingester._enrich_event (Some samples.reader_berlin) base64.b64decode samples.load_none
      samples.exn_text cve_rules.re_compile_ref cve_rules.re_matches_ref
      [cve_spec.rule_nginx] samples.telnet_raw = Ok enriched
    /\ ingester._compute_risk_score upper datetime.fromisoformat_ref samples.noon samples.noon
         enriched = Ok doc
    /\ dict_lookup "risk_score" doc = Some (VInt 20)
    /\ dict_lookup "risk_breakdown" doc
       = Some (ingester.breakdown_value
                 {| risk_scorer.port_score := 15; risk_scorer.service_score := 0;
                    risk_scorer.vuln_score := 0; risk_scorer.cert_score := 0;
                    risk_scorer.exposure_score := 5; risk_scorer.freshness_score := 0 |}).
Proof.
  apply (pipeline_telnet_example base64.b64decode samples.load_none samples.exn_text
           cve_rules.re_compile_ref cve_rules.re_matches_ref [cve_spec.rule_nginx]
           upper datetime.fromisoformat_ref samples.reader_berlin samples.berlin
           samples.noon samples.noon samples.telnet_raw
           [("ip", VStr "203.0.113.7"); ("port", VInt 23); ("protocol", VStr "tcp")] []
           "203.0.113.7");
    reflexivity.
Defined.

Lemma ip_address_inet_ntoa_witness :
  scanner.inet_ntoa 3405803783 = "203.0.113.7"
  /\ scanner.ip_address samples.no_ipv6 "203.0.113.7" = Some (scanner.IPv4Address 3405803783).
Proof.
  split; [reflexivity|].
  apply (ip_address_inet_ntoa samples.no_ipv6 3405803783).
  change (2 ^ 32) with 4294967296. lia.
Defined.

Lemma is_private_ip_by_octets_witness :
  scanner.inet_ntoa 2886991873 = "172.20.0.1"
  /\ scanner.is_private_ip samples.no_ipv6 "172.20.0.1" = scanner_terms.private_octets 172 20.
Proof.
  split; [reflexivity|].
  apply (is_private_ip_by_octets samples.no_ipv6 2886991873).
  change (2 ^ 32) with 4294967296. lia.
Defined.

Lemma generate_random_ip_first_public_witness :
  let draws := [167772161; 2886991873; 3405803783; 16843009] in
  scanner.generate_random_ip samples.no_ipv6 draws = Some "203.0.113.7"
  /\ forall ip, scanner.generate_random_ip samples.no_ipv6 draws = Some ip ->
                scanner.is_private_ip samples.no_ipv6 ip = false.
Proof.
  intros draws.
  apply (generate_random_ip_first_public samples.no_ipv6 draws).
  repeat (constructor; [unfold scanner_terms.drawn; lia|]). constructor.
Defined.

Lemma public_address_is_looked_up_witness :
  snd (geoip.enrich_ip (Some samples.reader_berlin) "203.0.113.7") = ["203.0.113.7"]
  /\ geoip.enrich_ip None "203.0.113.7" = (geoip.UNKNOWN, []).
Proof.
  apply (public_address_is_looked_up samples.no_ipv6 3405803783 samples.reader_berlin).
  - change (2 ^ 32) with 4294967296. lia.
  - reflexivity.
Defined.

Lemma save_event_doc_of_created_witness :
  scanner.create_asset_event samples.scan_ssh = Ok samples.event_ssh
  /\ exists doc port_entry,
       scanner.save_event_doc (VDict samples.event_ssh) = Ok doc
       /\ map fst doc = [ "timestamp"; "ip_address"; "ports"; "first_seen"; "last_seen";
                          "scanner_id"; "event_type"; "metadata" ]
       /\ getitem (VDict doc) "ip_address" = getitem samples.scan_ssh "ip"
       /\ getitem (VDict doc) "timestamp" = getitem samples.scan_ssh "timestamp"
       /\ getitem (VDict doc) "first_seen" = getitem samples.scan_ssh "timestamp"
       /\ getitem (VDict doc) "last_seen" = getitem samples.scan_ssh "timestamp"
       /\ getitem (VDict doc) "scanner_id" = Ok (VStr "internet_scanner_001")
       /\ getitem (VDict doc) "ports" = Ok (VList [VDict port_entry])
       /\ getitem (VDict port_entry) "port" = getitem samples.scan_ssh "port".
Proof.
  split; [reflexivity|].
  apply (save_event_doc_of_created samples.scan_ssh samples.event_ssh). reflexivity.
Defined.

Lemma save_event_twice_two_documents_witness :
  let os := ingest.mk_os ∅ ∅ in
  let os1 := scanner.save_event samples.count_id samples.noon true
               (VDict samples.event_ssh) os in
  let os2 := scanner.save_event samples.count_id samples.noon true
               (VDict samples.event_ssh) os1 in
  size (ingest.documents os2) = 2%nat
  /\ exists doc,
       ingest.documents os2 !! ("assets-" +:+ scanner.strftime_Y_m_d samples.noon,
                                samples.count_id (ingest.documents os)) = Some doc
       /\ ingest.documents os2 !! ("assets-" +:+ scanner.strftime_Y_m_d samples.noon,
                                   samples.count_id (ingest.documents os1)) = Some doc.
Proof.
  intros os os1 os2.
  apply (save_event_twice_two_documents samples.count_id samples.noon samples.noon
           samples.scan_ssh samples.event_ssh os); reflexivity.
Defined.

Lemma process_drops_scanner_event_witness :
  let objects : gmap string base64.bytes :=
    {[ "event_1.json" := json.canonical samples.event_ssh;
       "event_1.json.sig" := samples.key_c1 ]} in
  samples.process samples.event_ssh objects samples.clock_noon ingest.NoFault "event_1.json"
    ingest.empty_world
  = ingest.empty_world.
Proof.
  intros objects.
  apply (process_drops_scanner_event (Some samples.reader_berlin) base64.b64decode
           samples.load_none samples.exn_text cve_rules.re_compile_ref
           cve_rules.re_matches_ref [cve_spec.rule_nginx] upper datetime.fromisoformat_ref
           base64.bytes samples.verify_ref samples.registry
           (fun _ => Ok (VDict samples.event_ssh))
           ingest.render_id_ref ingest.render_id_ref (fun _ => "auto") (fun _ => true)
           json.canonical ingest.default_config objects samples.clock_noon ingest.NoFault
           "event_1.json" ingest.empty_world (json.canonical samples.event_ssh)
           samples.scan_ssh samples.event_ssh);
    reflexivity.
Defined.

Lemma grab_banner_ascii_verbatim_witness :
  let banner := [Byte.x53; Byte.x53; Byte.x48; Byte.x2d; Byte.x32] in
  scanner.grab_banner scanner.fresh_stats (scanner.socket_delivering banner) 22
  = Ok (Some [83; 83; 72; 45; 50], scanner.mk_stats 0 0 1).
Proof.
  intros banner.
  apply (grab_banner_ascii_verbatim scanner.fresh_stats (scanner.socket_delivering banner)
           22 banner);
    try reflexivity.
  - discriminate.
  - repeat constructor.
  - simpl. lia.
Defined.
